(** * Proglog: the progress-logger engine of [proglog/proglog.py]

    A shallow embedding of the classes [ProgressBarLogger],
    [TqdmProgressBarLogger] and [RqWorkerBarLogger], followed by the
    properties of the update dispatcher, the iteration adapter and the
    tqdm render backend.

    Python objects are mutable and an exception leaves every mutation done
    before it in place, so a method is a function from the object to a result
    (a value or a raised exception) paired with the object afterwards. *)

From Stdlib Require Import String Ascii List ZArith Lia Bool Arith.
Import ListNotations.
Local Open Scope string_scope.
Local Open Scope list_scope.

(* ===================================================================== *)
(** ** Python strings: the three [str] methods the dispatcher uses *)
(* ===================================================================== *)

Module PyStr.

(** [sub in s] on two strings: [sub] occurs in [s] as a substring. *)
Fixpoint contains (sub s : string) : bool :=
  if String.prefix sub s then true
  else match s with
       | EmptyString => false
       | String _ s' => contains sub s'
       end.

(** [s.endswith(suf)]: some suffix of [s] is [suf]. *)
Fixpoint endswith (s suf : string) : bool :=
  if String.eqb s suf then true
  else match s with
       | EmptyString => false
       | String _ s' => endswith s' suf
       end.

Definition is_underscore (c : ascii) : bool := Ascii.eqb c "_"%char.

(** Puts a character in front of the first piece of a split. *)
Definition cons_head (c : ascii) (parts : list string) : list string :=
  match parts with
  | [] => [String c EmptyString]
  | p :: ps => String c p :: ps
  end.

(** [s.split('__')]: the pieces between the non-overlapping occurrences of
    the separator, found from the left. *)
Fixpoint split_dunder (s : string) : list string :=
  match s with
  | EmptyString => [EmptyString]
  | String c rest =>
      match rest with
      | String c' rest' =>
          if is_underscore c && is_underscore c'
          then EmptyString :: split_dunder rest'
          else cons_head c (split_dunder rest)
      | EmptyString => cons_head c (split_dunder rest)
      end
  end.

Fixpoint last_char (s : string) : option ascii :=
  match s with
  | EmptyString => None
  | String c s' =>
      match s' with
      | EmptyString => Some c
      | String _ _ => last_char s'
      end
  end.

End PyStr.

(* ===================================================================== *)
(** ** Python values, dictionaries, exceptions *)
(* ===================================================================== *)

(** The values a logger stores: [None], integers, strings and dictionaries
    (a [dict] keeps its keys in insertion order, so it is an association
    list). Floats, booleans and other objects are outside the model. *)
#[warnings="-register-all"]
Inductive value : Type :=
| VNone
| VInt (z : Z)
| VStr (s : string)
| VDict (d : list (string * value)).

Definition dict : Type := list (string * value).

Module PyDict.

Section Assoc.
Context {A : Type}.

Fixpoint get (k : string) (d : list (string * A)) : option A :=
    match d with
    | [] => None
    | (k', v) :: d' => if String.eqb k k' then Some v else get k d'
    end.

(** [k in d] *)
Definition mem (k : string) (d : list (string * A)) : bool :=
    match get k d with Some _ => true | None => false end.

(** [d[k] = v]: an existing key keeps its place, a new one goes last. *)
Fixpoint set (k : string) (v : A) (d : list (string * A))
    : list (string * A) :=
    match d with
    | [] => [(k, v)]
    | (k', v') :: d' =>
        if String.eqb k k' then (k', v) :: d' else (k', v') :: set k v d'
    end.

(** [d.pop(k)] for a key that is present: the entry is removed. *)
Definition pop (k : string) (d : list (string * A)) : list (string * A) :=
    filter (fun kv => negb (String.eqb k (fst kv))) d.

(** [d.update(other)] *)
Definition update (d other : list (string * A)) : list (string * A) :=
    fold_left (fun acc kv => set (fst kv) (snd kv) acc) other d.

(** [d.popitem()]: the last entry and the dictionary without it. *)
Fixpoint popitem (d : list (string * A))
    : option ((string * A) * list (string * A)) :=
    match d with
    | [] => None
    | kv :: d' =>
        match popitem d' with
        | None => Some (kv, [])
        | Some (last, d'') => Some (last, kv :: d'')
        end
    end.
End Assoc.

End PyDict.

Inductive exn : Type :=
| TypeError | KeyError | ValueError | AttributeError
| UnboundLocalError | RecursionError.

Inductive res (A : Type) : Type :=
| Ok (a : A)
| Raise (e : exn).
Arguments Ok {A} a.
Arguments Raise {A} e.

(** A method over an object of type [S]: the result and the object after
    the call, whether the call returned or raised. *)
Definition M (S A : Type) : Type := S -> res A * S.

Definition ret {S A : Type} (a : A) : M S A := fun s => (Ok a, s).

Definition raise {S A : Type} (e : exn) : M S A := fun s => (Raise e, s).

Definition bind {S A B : Type} (m : M S A) (k : A -> M S B) : M S B :=
  fun s => match m s with
           | (Ok a, s') => k a s'
           | (Raise e, s') => (Raise e, s')
           end.

Definition lift {S A : Type} (r : res A) : M S A := fun s => (r, s).

Definition gets {S A : Type} (f : S -> A) : M S A := fun s => (Ok (f s), s).

Definition modify {S : Type} (f : S -> S) : M S unit := fun s => (Ok tt, f s).

(** The method [m] keeps the property [I] of the object, whether it returns
    or raises. *)
Definition keeps {S A : Type} (I : S -> Prop) (m : M S A) : Prop :=
  forall s r s', I s -> m s = (r, s') -> I s'.

Declare Scope py_scope.
Delimit Scope py_scope with py.
Notation "x <- m ;; k" := (bind m (fun x => k))
  (at level 61, m at next level, right associativity) : py_scope.
Notation "m ;; k" := (bind m (fun _ => k))
  (at level 61, right associativity) : py_scope.
Local Open Scope py_scope.

(** [sorted(l, key=...)] for a boolean key ([False < True]): a stable
    insertion sort. *)
Section Sorted.
Context {A : Type} (key : A -> bool).

Definition key_le (x y : A) : bool := implb (key x) (key y).

Fixpoint insert_by (x : A) (l : list A) : list A :=
    match l with
    | [] => [x]
    | y :: l' => if key_le x y then x :: y :: l' else y :: insert_by x l'
    end.

Fixpoint sorted (l : list A) : list A :=
    match l with
    | [] => []
    | x :: l' => insert_by x (sorted l')
    end.
End Sorted.

(** Operators on values. *)
Module PyOps.

(** [k in c] / [k not in c] for a string [k]. *)
Definition contains (c : value) (k : string) : res bool :=
  match c with
  | VDict d => Ok (PyDict.mem k d)
  | VStr s => Ok (PyStr.contains k s)
  | VNone | VInt _ => Raise TypeError
  end.

(** [c[k]] for a string [k]. *)
Definition getitem (c : value) (k : string) : res value :=
  match c with
  | VDict d => match PyDict.get k d with
               | Some v => Ok v
               | None => Raise KeyError
               end
  | VStr _ | VNone | VInt _ => Raise TypeError
  end.

(** [c[k] = v] for a string [k]; the container afterwards. *)
Definition setitem (c : value) (k : string) (v : value) : res value :=
  match c with
  | VDict d => Ok (VDict (PyDict.set k v d))
  | VStr _ | VNone | VInt _ => Raise TypeError
  end.

(** Truth value of an object. *)
Definition truthy (v : value) : bool :=
  match v with
  | VNone => false
  | VInt z => negb (Z.eqb z 0)
  | VStr s => negb (String.eqb s "")
  | VDict d => match d with [] => false | _ => true end
  end.

(** [a >= b] *)
Definition ge (a b : value) : res bool :=
  match a, b with
  | VInt x, VInt y => Ok (Z.geb x y)
  | VStr x, VStr y => Ok (String.leb y x)
  | _, _ => Raise TypeError
  end.

(** [a - b] *)
Definition sub (a b : value) : res value :=
  match a, b with
  | VInt x, VInt y => Ok (VInt (x - y))
  | _, _ => Raise TypeError
  end.

(** [a + 1] *)
Definition add1 (a : value) : res value :=
  match a with
  | VInt x => Ok (VInt (x + 1))
  | _ => Raise TypeError
  end.

End PyOps.

(* ===================================================================== *)
(** ** class ProgressBarLogger *)
(* ===================================================================== *)

(** What [self.ignored_bars] holds: [None], a string (the documented one is
    ['all_others']) or the set made from a list or tuple of names. *)
Inductive ignored : Type :=
| IgnNone
| IgnStr (s : string)
| IgnSet (names : list string).

(** The [bars] argument of the constructors. *)
Inductive bars_arg : Type :=
| BarsNone
| BarsNames (names : list string)
| BarsDict (d : dict).

(** A logger object: the [state] dictionary (the bars live under its key
    ['bars']), [ignored_bars], and the attributes [ext] a subclass adds. *)
Record logger (X : Type) : Type := mkLogger {
  state : dict;
  ignored_bars : ignored;
  ext : X
}.
Arguments mkLogger {X} _ _ _.
Arguments state {X} _.
Arguments ignored_bars {X} _.
Arguments ext {X} _.

(** The two methods a subclass overrides. *)
Record hooks (X : Type) : Type := mkHooks {
  bars_callback : string -> string -> value -> value -> M (logger X) unit;
  callback : dict -> M (logger X) unit
}.
Arguments mkHooks {X} _ _.
Arguments bars_callback {X} _ _ _ _ _.
Arguments callback {X} _ _.

Module ProgressBarLogger.

(** [dict(title=b, index=-1, total=None, message=None)] *)
Definition new_bar (b : string) : value :=
  VDict [("title", VStr b); ("index", VInt (-1));
         ("total", VNone); ("message", VNone)].

Definition init_bars (bars : bars_arg) : dict :=
  match bars with
  | BarsNone => []
  | BarsNames names =>
      fold_left (fun acc b => PyDict.set b (new_bar b) acc) names []
  | BarsDict d => d
  end.

Section Methods.
Context {X : Type}.

(** [__init__(self, init_state, bars, ignored_bars)] *)
Definition init (init_state : option dict) (bars : bars_arg)
             (ign : ignored) (x : X) : logger X :=
    let st := match init_state with
              | None => []
              | Some d => PyDict.update [] d
              end in
    mkLogger (PyDict.set "bars" (VDict (init_bars bars)) st) ign x.

(** The property [bars]: [self.state['bars']]. *)
Definition self_bars : M (logger X) value :=
    fun lg => match PyDict.get "bars" (state lg) with
              | Some v => (Ok v, lg)
              | None => (Raise KeyError, lg)
              end.

(** [self.state[k] = v] *)
Definition set_state (k : string) (v : value) : M (logger X) unit :=
    modify (fun lg => mkLogger (PyDict.set k v (state lg))
                               (ignored_bars lg) (ext lg)).

(** [bar in self.ignored_bars] *)
Definition py_in_ignored (bar : string) (ign : ignored) : res bool :=
    match ign with
    | IgnNone => Raise TypeError
    | IgnStr s => Ok (PyStr.contains bar s)
    | IgnSet names => Ok (existsb (String.eqb bar) names)
    end.

Definition in_ignored (bar : string) : M (logger X) bool :=
    fun lg => (py_in_ignored bar (ignored_bars lg), lg).

(** [bar_is_ignored(self, bar)] *)
Definition bar_is_ignored (bar : string) : M (logger X) bool :=
    fun lg =>
      match ignored_bars lg with
      | IgnNone => (Ok false, lg)
      | IgnStr s =>
          if String.eqb s "all_others"
          then (bars <- self_bars ;;
                c <- lift (PyOps.contains bars bar) ;;
                ret (negb c)) lg
          else (Ok (negb (PyStr.contains bar s)), lg)
      | IgnSet names => (Ok (negb (existsb (String.eqb bar) names)), lg)
      end.

Variable h : hooks X.

(** One turn of the loop of [__call__] on the item [(key, value)]; [kw] is
    the keyword dictionary, returned as the turn leaves it. *)
Definition update_bar (key : string) (v : value) (kw : dict)
    : M (logger X) dict :=
    if PyStr.contains "__" key then
      match PyStr.split_dunder key with
      | [bar; attr] =>
          ign <- in_ignored bar ;;
          if (ign : bool) then ret kw
          else
            let kw' := PyDict.pop key kw in
            bars <- self_bars ;;
            present <- lift (PyOps.contains bars bar) ;;
            create <- (if (present : bool) then ret false
                       else ign' <- in_ignored bar ;; ret (negb ign')) ;;
            (if (create : bool)
             then bars' <- lift (PyOps.setitem bars bar (new_bar bar)) ;;
                  set_state "bars" bars'
             else ret tt) ;;
            bars <- self_bars ;;
            record <- lift (PyOps.getitem bars bar) ;;
            old_value <- lift (PyOps.getitem record attr) ;;
            record' <- lift (PyOps.setitem record attr v) ;;
            bars' <- lift (PyOps.setitem bars bar record') ;;
            set_state "bars" bars' ;;
            bars_callback h bar attr v old_value ;;
            ret kw'
      | _ => raise ValueError
      end
    else ret kw.

Fixpoint update_bars (items : list (string * value)) (kw : dict)
    : M (logger X) dict :=
    match items with
    | [] => ret kw
    | (key, v) :: items' =>
        kw' <- update_bar key v kw ;;
        update_bars items' kw'
    end.

(** The sort key of [__call__]: [not kv[0].endswith('total')]. *)
Definition sort_key (kv : string * value) : bool :=
    negb (PyStr.endswith (fst kv) "total").

(** [__call__(self, **kw)] *)
Definition call (kw : dict) : M (logger X) unit :=
    let items := sorted sort_key kw in
    kw' <- update_bars items kw ;;
    modify (fun lg => mkLogger (PyDict.update (state lg) kw')
                               (ignored_bars lg) (ext lg)) ;;
    callback h kw'.

End Methods.

(** The callbacks of the class itself do nothing. *)
Definition base_hooks {X : Type} : hooks X :=
  mkHooks (fun _ _ _ _ => ret tt) (fun _ => ret tt).

End ProgressBarLogger.

(* ===================================================================== *)
(** ** A recording subclass and the iteration adapter *)
(* ===================================================================== *)

(** What an observer sees: the two callbacks with their arguments, and the
    elements a consumer receives from an iterator. *)
Inductive event : Type :=
| CbBars (bar attr : string) (v old_value : value)
| CbState (kw : dict)
| Yielded (v : value).

Module Recorder.

Definition record (e : event) : M (logger (list event)) unit :=
  modify (fun lg => mkLogger (state lg) (ignored_bars lg) (ext lg ++ [e])).

(** A subclass whose callbacks append their arguments to a log. *)
Definition spy : hooks (list event) :=
  mkHooks (fun bar attr v old => record (CbBars bar attr v old))
          (fun kw => record (CbState kw)).

(** The bar callbacks of a log, in order. *)
Definition bar_calls (tr : list event) : list (string * string * value) :=
  flat_map (fun e => match e with
                     | CbBars bar attr v _ => [(bar, attr, v)]
                     | _ => []
                     end) tr.




End Recorder.

(** An argument of [iter_bar]: the elements it produces, and whether the
    object has [__len__] (a list or tuple has, a generator has not). *)
Record iterable : Type := mkIterable {
  elements : list value;
  has_len : bool
}.

(** The generator [new_iterable()]: the bar, what [enumerate(iterable)] has
    still to produce and its counter, the local [i] (unbound until the loop
    assigns it), and whether the generator has finished. *)
Record generator : Type := mkGen {
  g_bar : string;
  g_rest : list value;
  g_count : Z;
  g_i : option Z;
  g_done : bool
}.

Inductive iter_result : Type :=
| Original (it : iterable)
| Generator (g : generator).

Module IterBar.

Section Methods.
Context {X : Type} (h : hooks X).

(** [iter_bar(self, **kw)] *)
Definition iter_bar (kw : list (string * iterable))
    : M (logger X) iter_result :=
    match PyDict.popitem kw with
    | None => raise KeyError
    | Some ((bar, it), _) =>
        ign <- ProgressBarLogger.in_ignored bar ;;
        if (ign : bool) then ret (Original it)
        else
          (if has_len it
           then ProgressBarLogger.call h
                  [((bar ++ "__total")%string, VInt (Z.of_nat (length (elements it))))]
           else ret tt) ;;
          ret (Generator (mkGen bar (elements it) 0 None false))
    end.

Definition finished (g : generator) : generator :=
    mkGen (g_bar g) (g_rest g) (g_count g) (g_i g) true.

(** [next(g)]: [Ok (Some x)] yields [x], [Ok None] is [StopIteration]. *)
Definition next (g : generator) (lg : logger X)
    : res (option value) * generator * logger X :=
    if g_done g then (Ok None, g, lg)
    else
      match g_rest g with
      | it :: rest =>
          let i := g_count g in
          match ProgressBarLogger.call h [((g_bar g ++ "__index")%string, VInt i)] lg with
          | (Ok _, lg') =>
              (Ok (Some it), mkGen (g_bar g) rest (i + 1) (Some i) false, lg')
          | (Raise e, lg') => (Raise e, finished g, lg')
          end
      | [] =>
          match g_i g with
          | None => (Raise UnboundLocalError, finished g, lg)
          | Some i =>
              match ProgressBarLogger.call h
                      [((g_bar g ++ "__index")%string, VInt (i + 1))] lg with
              | (Ok _, lg') => (Ok None, finished g, lg')
              | (Raise e, lg') => (Raise e, finished g, lg')
              end
          end
      end.
End Methods.

(** A consumer [for x in g: ...] of the recording subclass, which notes each
    element it receives; [None] when [fuel] turns of the loop were not
    enough. *)
Fixpoint consume (fuel : nat) (g : generator) (lg : logger (list event))
  : option (res unit * logger (list event)) :=
  match fuel with
  | 0 => None
  | S fuel' =>
      match next Recorder.spy g lg with
      | (Ok (Some x), g', lg') =>
          consume fuel' g' (snd (Recorder.record (Yielded x) lg'))
      | (Ok None, _, lg') => Some (Ok tt, lg')
      | (Raise e, _, lg') => Some (Raise e, lg')
      end
  end.

(** [for x in logger.iter_bar(bar=it): ...], run to the end. *)
Definition run (bar : string) (it : iterable) (lg : logger (list event))
  : option (res unit * logger (list event)) :=
  match iter_bar Recorder.spy [(bar, it)] lg with
  | (Ok (Generator g), lg') => consume (S (length (g_rest g))) g lg'
  | (Ok (Original it'), lg') =>
      Some (Ok tt, mkLogger (state lg') (ignored_bars lg')
                            (ext lg' ++ map Yielded (elements it')))
  | (Raise e, lg') => Some (Raise e, lg')
  end.

End IterBar.

(* ===================================================================== *)
(** ** class TqdmProgressBarLogger *)
(* ===================================================================== *)

(** The calls the logger makes on the tqdm library. A bar object is named by
    the number the library gives it when it is made. *)
Inductive tqdm_call : Type :=
| TqdmNew (handle : nat) (total desc postfix : value) (leave : bool)
| TqdmUpdate (handle : nat) (n : value)
| TqdmClose (handle : nat)
| TqdmSetPostfix (handle : nat) (v : value)
| TqdmWrite (msg : value).

(** The attributes the subclass adds, and the library's side: the number of
    bar objects made so far and the calls received. *)
Record tqdm_attrs : Type := mkTqdm {
  tqdm_bars : list (string * option nat);
  leave_bars : bool;
  print_messages : bool;
  made : nat;
  calls : list tqdm_call
}.

Module Tqdm.

Definition obj : Type := logger tqdm_attrs.

Definition with_ext (f : tqdm_attrs -> tqdm_attrs) : M obj unit :=
  modify (fun lg => mkLogger (state lg) (ignored_bars lg) (f (ext lg))).

Definition emit (c : tqdm_call) : M obj unit :=
  with_ext (fun t => mkTqdm (tqdm_bars t) (leave_bars t) (print_messages t)
                            (made t) (calls t ++ [c])).

(** [self.tqdm_bars[bar] = b] *)
Definition set_tqdm_bar (bar : string) (b : option nat) : M obj unit :=
  with_ext (fun t => mkTqdm (PyDict.set bar b (tqdm_bars t)) (leave_bars t)
                            (print_messages t) (made t) (calls t)).

(** [self.tqdm(total=..., desc=..., postfix=..., leave=...)] *)
Definition tqdm_new (total desc postfix : value) : M obj nat :=
  fun lg =>
    let t := ext lg in
    let n := made t in
    (Ok n,
     mkLogger (state lg) (ignored_bars lg)
       (mkTqdm (tqdm_bars t) (leave_bars t) (print_messages t) (S n)
               (calls t ++ [TqdmNew n total desc postfix (leave_bars t)]))).

(** [__init__] with [notebook] left aside (it only picks the tqdm class). *)
Definition init (init_state : option dict) (bars : bars_arg)
           (leave : bool) (ign : ignored) (print_msgs : bool) : obj :=
  let lg := ProgressBarLogger.init init_state bars ign tt in
  mkLogger (state lg) ign
    (mkTqdm (map (fun kv => (fst kv, None))
                 (ProgressBarLogger.init_bars bars))
            leave print_msgs 0 []).

(** [close_tqdm_bar(self, bar)] *)
Definition close_tqdm_bar (bar : string) : M obj unit :=
  tb <- gets (fun lg => tqdm_bars (ext lg)) ;;
  match PyDict.get bar tb with
  | None => raise KeyError
  | Some None => raise AttributeError
  | Some (Some handle) => emit (TqdmClose handle) ;; set_tqdm_bar bar None
  end.

(** [(bar in self.tqdm_bars) and (self.tqdm_bars[bar] is not None)] *)
Definition has_tqdm_bar (bar : string) : M obj bool :=
  tb <- gets (fun lg => tqdm_bars (ext lg)) ;;
  ret (match PyDict.get bar tb with
       | Some (Some _) => true
       | _ => false
       end).

(** [new_tqdm_bar(self, bar)] *)
Definition new_tqdm_bar (bar : string) : M obj unit :=
  live <- has_tqdm_bar bar ;;
  (if (live : bool) then close_tqdm_bar bar else ret tt) ;;
  bars <- ProgressBarLogger.self_bars ;;
  infos <- lift (PyOps.getitem bars bar) ;;
  total <- lift (PyOps.getitem infos "total") ;;
  desc <- lift (PyOps.getitem infos "title") ;;
  postfix <- lift (PyOps.getitem infos "message") ;;
  handle <- tqdm_new total desc postfix ;;
  set_tqdm_bar bar (Some handle).

(** [self.tqdm_bars[bar]], which the callers then call a method of. *)
Definition the_bar (bar : string) : M obj nat :=
  tb <- gets (fun lg => tqdm_bars (ext lg)) ;;
  match PyDict.get bar tb with
  | None => raise KeyError
  | Some None => raise AttributeError
  | Some (Some handle) => ret handle
  end.

(** [bars_callback(self, bar, attr, value, old_value)] *)
Definition bars_callback (bar attr : string) (v old_value : value)
  : M obj unit :=
  live <- has_tqdm_bar bar ;;
  (if (live : bool) then ret tt else new_tqdm_bar bar) ;;
  if String.eqb attr "index" then
    forward <- lift (PyOps.ge v old_value) ;;
    if (forward : bool) then
      bars <- ProgressBarLogger.self_bars ;;
      infos <- lift (PyOps.getitem bars bar) ;;
      total <- lift (PyOps.getitem infos "total") ;;
      complete <- (if PyOps.truthy total then lift (PyOps.ge v total)
                   else ret false) ;;
      if (complete : bool) then close_tqdm_bar bar
      else
        handle <- the_bar bar ;;
        delta <- lift (PyOps.sub v old_value) ;;
        emit (TqdmUpdate handle delta)
    else
      new_tqdm_bar bar ;;
      handle <- the_bar bar ;;
      steps <- lift (PyOps.add1 v) ;;
      emit (TqdmUpdate handle steps)
  else if String.eqb attr "message" then
    handle <- the_bar bar ;;
    emit (TqdmSetPostfix handle v)
  else ret tt.

(** [callback(self, **kw)] *)
Definition callback (kw : dict) : M obj unit :=
  print <- gets (fun lg => print_messages (ext lg)) ;;
  if (print : bool) then
    match PyDict.get "message" kw with
    | Some msg => if PyOps.truthy msg then emit (TqdmWrite msg) else ret tt
    | None => ret tt
    end
  else ret tt.

Definition tqdm_hooks : hooks tqdm_attrs := mkHooks bars_callback callback.

(** Calling a [TqdmProgressBarLogger]: the inherited [__call__] with the
    callbacks above. *)
Definition call (kw : dict) : M obj unit :=
  ProgressBarLogger.call tqdm_hooks kw.

(** Several calls in a row, stopping at the first that raises. *)
Fixpoint calls_in_a_row (kws : list dict) : M obj unit :=
  match kws with
  | [] => ret tt
  | kw :: kws' => call kw ;; calls_in_a_row kws'
  end.

(** The steps of the [update] calls of a log, when they are integers. *)
Definition advance_sum (cs : list tqdm_call) : Z :=
  fold_right (fun c acc => match c with
                           | TqdmUpdate _ (VInt n) => n + acc
                           | _ => acc
                           end)%Z 0%Z cs.

Definition closes (cs : list tqdm_call) : nat :=
  length (filter (fun c => match c with TqdmClose _ => true | _ => false end)
                 cs).

(** Every bar object the logger holds was made by the library before. *)
Definition handles_made (t : tqdm_attrs) : Prop :=
  forall bar handle,
    PyDict.get bar (tqdm_bars t) = Some (Some handle) -> handle < made t.

End Tqdm.

(** A loop [for x in logger.iter_bar(bar=it): ...] on a
    [TqdmProgressBarLogger], whose body does not touch the logger. *)
Module TqdmIter.

(** The consumer of the generator; [None] when [fuel] turns of the loop were
    not enough. *)
Fixpoint consume (fuel : nat) (g : generator) (lg : Tqdm.obj)
  : option (res unit * Tqdm.obj) :=
  match fuel with
  | 0 => None
  | S fuel' =>
      match IterBar.next Tqdm.tqdm_hooks g lg with
      | (Ok (Some _), g', lg') => consume fuel' g' lg'
      | (Ok None, _, lg') => Some (Ok tt, lg')
      | (Raise e, _, lg') => Some (Raise e, lg')
      end
  end.

(** The loop run to the end; for an ignored bar the iterable itself is
    iterated and the logger is not called. *)
Definition run (bar : string) (it : iterable) (lg : Tqdm.obj)
  : option (res unit * Tqdm.obj) :=
  match IterBar.iter_bar Tqdm.tqdm_hooks [(bar, it)] lg with
  | (Ok (Generator g), lg') => consume (S (length (g_rest g))) g lg'
  | (Ok (Original _), lg') => Some (Ok tt, lg')
  | (Raise e, lg') => Some (Raise e, lg')
  end.

End TqdmIter.

(* ===================================================================== *)
(** ** class RqWorkerBarLogger *)
(* ===================================================================== *)

Module RqWorker.

(** An rq job, as far as the loggers touch it: its [meta] dictionary. *)
Record job : Type := mkJob { meta : dict }.

(** [RqWorkerBarLogger.__init__(self, job, init_state, bars, ignored_bars)].
    Its first statement calls [RqWorkerBarLogger.__init__(self, job)], the
    same function with the defaults of the other parameters; [depth] is the
    number of frames the interpreter still allows. The second statement calls
    [ProgressBarLogger.__init__] without [self]. *)
Fixpoint init (depth : nat) (j : job) (init_state : option dict)
         (bars : bars_arg) (ign : ignored) : res (logger job) :=
  match depth with
  | 0 => Raise RecursionError
  | S depth' =>
      match init depth' j None BarsNone (IgnSet []) with
      | Raise e => Raise e
      | Ok _ => Raise TypeError
      end
  end.

End RqWorker.

(* ===================================================================== *)
(** ** Vocabulary of the statements *)
(* ===================================================================== *)

Module Batch.

(** An item of a batch that [__call__] treats as a bar update: its key has
    the separator, splits in two, and the bar is not in [ignored_bars]. *)
Definition tracked (ign : ignored) (kv : string * value) : bool :=
  PyStr.contains "__" (fst kv) &&
  match PyStr.split_dunder (fst kv) with
  | [bar; _] =>
      match ProgressBarLogger.py_in_ignored bar ign with
      | Ok false => true
      | _ => false
      end
  | _ => false
  end.

(** The bar, attribute and value such an item stands for. *)
Definition decode (kv : string * value) : string * string * value :=
  match PyStr.split_dunder (fst kv) with
  | [bar; attr] => (bar, attr, snd kv)
  | _ => (EmptyString, EmptyString, snd kv)
  end.


Definition is_bar_call (e : event) : Prop :=
  match e with CbBars _ _ _ _ => True | _ => False end.

(** [l1] is [l2] with some elements left out, the others in their order. *)
Inductive Subseq {A : Type} : list A -> list A -> Prop :=
| Subseq_nil : Subseq [] []
| Subseq_skip x l1 l2 : Subseq l1 l2 -> Subseq l1 (x :: l2)
| Subseq_keep x l1 l2 : Subseq l1 l2 -> Subseq (x :: l1) (x :: l2).

(** The bar [bar] is in the registry with these [index] and [total]. *)
Definition bar_fields {X : Type} (lg : logger X) (bar : string)
           (index total : value) : Prop :=
  exists bars rd,
    PyDict.get "bars" (state lg) = Some (VDict bars)
    /\ PyDict.get bar bars = Some (VDict rd)
    /\ PyDict.get "index" rd = Some index
    /\ PyDict.get "total" rd = Some total.

(** What an observer sees while [xs] is iterated from position [i], the
    bar's index being [prev] before: for each element the index update, the
    engine callback, then the element. *)
Fixpoint loop_events (bar : string) (i : Z) (prev : value) (xs : list value)
  : list event :=
  match xs with
  | [] => []
  | x :: xs' =>
      CbBars bar "index" (VInt i) prev :: CbState [] :: Yielded x
      :: loop_events bar (i + 1) (VInt i) xs'
  end.

(** The whole of an iteration over [xs] with [iter_bar]: the total update,
    the loop, and the last index update. *)
Definition iteration_events (bar : string) (old_total old_index : value)
           (xs : list value) : list event :=
  let n := Z.of_nat (length xs) in
  [CbBars bar "total" (VInt n) old_total; CbState []]
  ++ loop_events bar 0 old_index xs
  ++ [CbBars bar "index" (VInt n) (VInt (n - 1)); CbState []].

End Batch.

(* ===================================================================== *)
(** ** class ProgressLogger *)
(* ===================================================================== *)

(** The base class. Its methods read and write [state] only, so an object of
    the class, or of a subclass, is a [logger]; [self_call] is the [__call__]
    of the object's class, which [iter] calls as [self(...)]. *)
Module ProgressLogger.

Section Methods.
Context {X : Type}.

(** [__init__(self, init_state)] *)
Definition init (init_state : option dict) (ign : ignored) (x : X)
  : logger X :=
  mkLogger (match init_state with
            | None => []
            | Some d => PyDict.update [] d
            end) ign x.

(** [__call__(self, **kw)], with the [callback] of the object's class. *)
Definition call (callback : dict -> M (logger X) unit) (kw : dict)
  : M (logger X) unit :=
  modify (fun lg => mkLogger (PyDict.update (state lg) kw)
                             (ignored_bars lg) (ext lg)) ;;
  callback kw.

(** [next(g)] on the generator [iter(self, **kw)] makes; [g] is what is left
    of [kw.items()], the iterable of the first item being the one in
    progress. [Ok (Some x)] yields [x], [Ok None] is [StopIteration]. *)
Fixpoint next (self_call : dict -> M (logger X) unit)
         (g : list (string * list value)) (lg : logger X)
  : res (option value) * list (string * list value) * logger X :=
  match g with
  | [] => (Ok None, [], lg)
  | (field, []) :: g' => next self_call g' lg
  | (field, it :: rest) :: g' =>
      match self_call [(field, it)] lg with
      | (Ok _, lg') => (Ok (Some it), (field, rest) :: g', lg')
      | (Raise e, lg') => (Raise e, [], lg')
      end
  end.

End Methods.

(** A consumer [for x in logger.iter(...): ...] of a recording logger, which
    notes each element it receives; [None] when [fuel] turns of the loop were
    not enough. *)
Fixpoint consume (self_call : dict -> M (logger (list event)) unit)
         (fuel : nat) (g : list (string * list value))
         (lg : logger (list event))
  : option (res unit * logger (list event)) :=
  match fuel with
  | 0 => None
  | S fuel' =>
      match next self_call g lg with
      | (Ok (Some x), g', lg') =>
          consume self_call fuel' g'
                  (snd (Recorder.record (Yielded x) lg'))
      | (Ok None, _, lg') => Some (Ok tt, lg')
      | (Raise e, _, lg') => Some (Raise e, lg')
      end
  end.

(** The number of elements a generator has still to yield. *)
Definition remaining (g : list (string * list value)) : nat :=
  length (flat_map snd g).

(** The loop [for x in logger.iter(field=iterable, ...)], run to the end. *)
Definition run (self_call : dict -> M (logger (list event)) unit)
           (kw : list (string * list value)) (lg : logger (list event))
  : option (res unit * logger (list event)) :=
  consume self_call (S (remaining kw)) kw lg.

(** What an observer sees of an iteration in which every call returns: for
    each element its one-field update, then the element. *)
Definition iter_events (kw : list (string * list value)) : list event :=
  flat_map (fun fx => flat_map (fun x => [CbState [(fst fx, x)]; Yielded x])
                               (snd fx)) kw.

(** The one-field updates of an iteration, in order. *)
Definition iter_updates (kw : list (string * list value)) : dict :=
  flat_map (fun fx => map (fun x => (fst fx, x)) (snd fx)) kw.

End ProgressLogger.

(* ===================================================================== *)
(** ** Vocabulary of the further statements *)
(* ===================================================================== *)

Module Registry.

(** The record of the bar [b] in the registry, when the registry is a
    dictionary and has the bar. *)
Definition bar_record {X : Type} (lg : logger X) (b : string)
  : option value :=
  match PyDict.get "bars" (state lg) with
  | Some (VDict bars) => PyDict.get b bars
  | _ => None
  end.

(** The attribute [a] of the bar [b]. *)
Definition bar_attr {X : Type} (lg : logger X) (b a : string)
  : option value :=
  match bar_record lg b with
  | Some (VDict rd) => PyDict.get a rd
  | _ => None
  end.

End Registry.

Module TqdmProtocol.

(** The bar object a call on the library is about. *)
Definition handle_of (c : tqdm_call) : option nat :=
  match c with
  | TqdmNew handle _ _ _ _ => Some handle
  | TqdmUpdate handle _ => Some handle
  | TqdmClose handle => Some handle
  | TqdmSetPostfix handle _ => Some handle
  | TqdmWrite _ => None
  end.

Definition mem_nat (n : nat) (l : list nat) : bool := existsb (Nat.eqb n) l.

(** Reading a log of calls from its start, with the bar objects that are
    open and those that are closed: a bar object is made once, is advanced,
    relabelled and closed only while it is open. [None] when a call breaks
    this. *)
Definition step (st : option (list nat * list nat)) (c : tqdm_call)
  : option (list nat * list nat) :=
  match st with
  | None => None
  | Some (opened, closed) =>
      match c with
      | TqdmNew handle _ _ _ _ =>
          if mem_nat handle opened || mem_nat handle closed then None
          else Some (handle :: opened, closed)
      | TqdmUpdate handle _ | TqdmSetPostfix handle _ =>
          if mem_nat handle opened then Some (opened, closed) else None
      | TqdmClose handle =>
          if mem_nat handle opened
          then Some (filter (fun x => negb (Nat.eqb handle x)) opened,
                     handle :: closed)
          else None
      | TqdmWrite _ => Some (opened, closed)
      end
  end.

Definition scan (cs : list tqdm_call) : option (list nat * list nat) :=
  fold_left step cs (Some ([], [])).

(** The bar objects the logger holds. *)
Definition held (t : tqdm_attrs) (handle : nat) : Prop :=
  exists bar, PyDict.get bar (tqdm_bars t) = Some (Some handle).

(** The log follows the protocol of the library, the bar objects open at its
    end are those the logger holds, each held for one bar, and every bar
    object of the log was made by the library. *)
Definition coherent (t : tqdm_attrs) : Prop :=
  exists opened closed,
    scan (calls t) = Some (opened, closed)
    /\ (forall handle, In handle opened <-> held t handle)
    /\ (forall b1 b2 handle,
           PyDict.get b1 (tqdm_bars t) = Some (Some handle) ->
           PyDict.get b2 (tqdm_bars t) = Some (Some handle) -> b1 = b2)
    /\ (forall handle, In handle opened \/ In handle closed ->
                       handle < made t).

End TqdmProtocol.

(* ===================================================================== *)
(** * Properties *)
(* ===================================================================== *)

(** ** Strings *)

Section StringFacts.
Import PyStr.

Lemma string_pair_ind (P : string -> Prop) :
    P EmptyString ->
    (forall c, P (String c EmptyString)) ->
    (forall c c' s, P s -> P (String c' s) -> P (String c (String c' s))) ->
    forall s, P s.
Proof.
    intros H0 H1 H2 s.
    assert (H : P s /\ forall c, P (String c s)).
    { induction s as [|a s [IHs IHs']].
      - split; [exact H0 | exact H1].
      - split; [apply IHs' | intros c; apply H2; [exact IHs | apply IHs']]. }
    exact (proj1 H).
Qed.

Lemma split_dunder_step c c' s :
    split_dunder (String c (String c' s))
    = if is_underscore c && is_underscore c'
      then EmptyString :: split_dunder s
      else cons_head c (split_dunder (String c' s)).
Proof. reflexivity. Qed.



Lemma is_underscore_eq c : is_underscore c = true -> c = "_"%char.
Proof. unfold is_underscore. apply Ascii.eqb_eq. Qed.



Lemma prefix_cons a b s1 s2 :
    String.prefix (String a s1) (String b s2)
    = Ascii.eqb a b && String.prefix s1 s2.
Proof.
    change (String.prefix (String a s1) (String b s2))
      with (match ascii_dec a b with
            | left _ => String.prefix s1 s2
            | right _ => false
            end).
    destruct (ascii_dec a b) as [->|Hab].
    - rewrite Ascii.eqb_refl. reflexivity.
    - apply Ascii.eqb_neq in Hab. rewrite Hab. reflexivity.
Qed.

Lemma prefix_dunder c c' s :
    String.prefix "__" (String c (String c' s))
    = is_underscore c && is_underscore c'.
Proof.
    unfold is_underscore. rewrite !prefix_cons.
    rewrite (Ascii.eqb_sym "_" c), (Ascii.eqb_sym "_" c').
    assert (E : String.prefix EmptyString s = true) by (destruct s; reflexivity).
    rewrite E, andb_true_r. reflexivity.
Qed.

(** Without the separator in it, a string splits into itself alone. *)
Lemma split_dunder_without s :
    contains "__" s = false -> split_dunder s = [s].
Proof.
    induction s as [|c|c c' s IHs IHs'] using string_pair_ind; intros H.
    - reflexivity.
    - reflexivity.
    - change (contains "__" (String c (String c' s)))
        with (if String.prefix "__" (String c (String c' s)) then true
              else contains "__" (String c' s)) in H.
      rewrite prefix_dunder in H.
      rewrite split_dunder_step.
      destruct (is_underscore c && is_underscore c'); [discriminate|].
      rewrite (IHs' H). reflexivity.
Qed.

Lemma split_dunder_two_contains key bar attr :
    split_dunder key = [bar; attr] -> contains "__" key = true.
Proof.
    intros H. destruct (contains "__" key) eqn:E; [reflexivity|].
    rewrite (split_dunder_without _ E) in H. discriminate.
Qed.







End StringFacts.

(** ** Lists, sorting, dictionaries *)

Section ListFacts.
Context {A : Type}.
Import Batch.

Lemma insert_by_false (key : A -> bool) x l :
    key x = false -> insert_by key x l = x :: l.
Proof.
    intros Hx. destruct l as [|y l]; [reflexivity|].
    simpl. unfold key_le. rewrite Hx. reflexivity.
Qed.

Lemma insert_by_true (key : A -> bool) x l1 l2 :
    key x = true ->
    Forall (fun y => key y = false) l1 ->
    Forall (fun y => key y = true) l2 ->
    insert_by key x (l1 ++ l2) = l1 ++ x :: l2.
Proof.
    intros Hx H1 H2. induction H1 as [|y l1 Hy _ IH]; simpl.
    - destruct H2 as [|z l2 Hz _]; [reflexivity|].
      simpl. unfold key_le. rewrite Hx, Hz. reflexivity.
    - unfold key_le. rewrite Hx, Hy. simpl. rewrite IH. reflexivity.
Qed.

(** A stable sort on a boolean key puts the elements whose key is [False]
    first and keeps the order within each group. *)
Lemma sorted_partition (key : A -> bool) l :
    sorted key l
    = filter (fun x => negb (key x)) l ++ filter key l.
Proof.
    induction l as [|x l IH]; [reflexivity|].
    simpl. rewrite IH. destruct (key x) eqn:Hx; simpl.
    - apply insert_by_true; [exact Hx | |].
      + apply Forall_forall. intros y Hy. apply filter_In in Hy.
        destruct Hy as [_ Hy]. destruct (key y); [discriminate|reflexivity].
      + apply Forall_forall. intros y Hy. apply filter_In in Hy. tauto.
    - apply insert_by_false. exact Hx.
Qed.

Lemma Subseq_refl (l : list A) : Subseq l l.
Proof. induction l; constructor; assumption. Qed.





End ListFacts.

(** ** The monad *)

Section MonadFacts.
Context {S A B : Type}.

Lemma bind_inv (m : M S A) (k : A -> M S B) s r s' :
    bind m k s = (r, s') ->
    (exists a s1, m s = (Ok a, s1) /\ k a s1 = (r, s'))
    \/ (exists e, m s = (Raise e, s') /\ r = Raise e).
Proof.
    unfold bind. destruct (m s) as [[a|e] s1]; intros H.
    - left. exists a, s1. split; [reflexivity | exact H].
    - right. exists e. inversion H; subst. split; reflexivity.
Qed.

Lemma bind_ok (m : M S A) (k : A -> M S B) s a s1 :
    m s = (Ok a, s1) -> bind m k s = k a s1.
Proof. unfold bind. intros ->. reflexivity. Qed.

Lemma bind_raise (m : M S A) (k : A -> M S B) s e s1 :
    m s = (Raise e, s1) -> bind m k s = (Raise e, s1).
Proof. unfold bind. intros ->. reflexivity. Qed.
End MonadFacts.

Ltac case_inner :=
  match goal with
  | |- context [match ?x with _ => _ end] =>
      lazymatch x with
      | context [match _ with _ => _ end] => fail
      | _ => destruct x eqn:?
      end
  end.

Ltac unfold_monad :=
  unfold bind, lift, gets, modify, ret, raise.

(** ** Dictionaries *)

Section DictFacts.
Context {A : Type}.
Implicit Types d : list (string * A).

Lemma get_set_same k v d : PyDict.get k (PyDict.set k v d) = Some v.
Proof.
    induction d as [|[k' v'] d IH]; simpl.
    - rewrite String.eqb_refl. reflexivity.
    - destruct (String.eqb k k') eqn:E; simpl; rewrite E; [reflexivity|exact IH].
Qed.

Lemma get_set_other k k' v d :
    k <> k' -> PyDict.get k (PyDict.set k' v d) = PyDict.get k d.
Proof.
    intros Hk. induction d as [|[k2 v2] d IH]; simpl.
    - apply String.eqb_neq in Hk. rewrite Hk. reflexivity.
    - destruct (String.eqb_spec k' k2) as [->|Hk2]; simpl.
      + apply String.eqb_neq in Hk. rewrite Hk. reflexivity.
      + destruct (String.eqb k k2); [reflexivity|exact IH].
Qed.

Lemma set_set k v v' d :
    PyDict.set k v (PyDict.set k v' d) = PyDict.set k v d.
Proof.
    induction d as [|[k2 v2] d IH]; simpl.
    - rewrite String.eqb_refl. reflexivity.
    - destruct (String.eqb k k2) eqn:E; simpl; rewrite E;
        [reflexivity | rewrite IH; reflexivity].
Qed.

Lemma filter_filter (P Q : string * A -> bool) d :
    filter P (filter Q d) = filter (fun x => Q x && P x) d.
Proof.
    induction d as [|x d IH]; simpl; [reflexivity|].
    destruct (Q x); simpl; [destruct (P x)|]; rewrite IH; reflexivity.
Qed.

(** Popping the keys of [l] one after the other leaves the entries whose
    key is not among them. *)
Lemma pops_filter (l : list (string * A)) d :
    fold_left (fun acc kv => PyDict.pop (fst kv) acc) l d
    = filter (fun kv => negb (existsb (String.eqb (fst kv)) (map fst l))) d.
Proof.
    revert d. induction l as [|[k v] l IH]; intros d; simpl.
    - induction d as [|x d IHd]; simpl; [reflexivity|]. rewrite <- IHd.
      reflexivity.
    - rewrite IH. unfold PyDict.pop. rewrite filter_filter.
      apply filter_ext. intros [k' v']. simpl.
      rewrite (String.eqb_sym k k'), negb_orb. reflexivity.
Qed.
End DictFacts.

(** ** The dispatcher under the recording subclass *)

Section Dispatcher.
Import ProgressBarLogger Recorder Batch.

Lemma tracked_fst ign (a b : string * value) :
    fst a = fst b -> tracked ign a = tracked ign b.
Proof. unfold tracked. intros ->. reflexivity. Qed.



(** One turn of the loop: a tracked item ends in one bar callback (or in
    an exception before it), any other item in none; only the bars of the
    state can change. *)
Lemma update_bar_spy key v kw lg r lg' :
    update_bar spy key v kw lg = (r, lg') ->
    ignored_bars lg' = ignored_bars lg
    /\ (forall k, k <> "bars" ->
                  PyDict.get k (state lg') = PyDict.get k (state lg))
    /\ ((exists bar attr old,
            tracked (ignored_bars lg) (key, v) = true
            /\ decode (key, v) = (bar, attr, v)
            /\ r = Ok (PyDict.pop key kw)
            /\ ext lg' = ext lg ++ [CbBars bar attr v old])
        \/ (tracked (ignored_bars lg) (key, v) = false
            /\ r = Ok kw /\ lg' = lg)
        \/ (exists e, r = Raise e /\ ext lg' = ext lg)).
Proof.
    unfold update_bar, tracked, decode. simpl fst. simpl snd.
    destruct (PyStr.contains "__" key);
      [|intros H; inversion H; subst;
        split; [reflexivity|split; [reflexivity|right; left; auto]]].
    destruct (PyStr.split_dunder key) as [|bar [|attr [|x xs]]];
      try (intros H; inversion H; subst;
           split; [reflexivity|split; [reflexivity|]];
           right; right; eexists; split; reflexivity).
    unfold in_ignored, self_bars, set_state. unfold_monad. simpl.
    destruct (py_in_ignored bar (ignored_bars lg)) as [[|]|e] eqn:Ei.
    - intros H; inversion H; subst.
      split; [reflexivity|split; [reflexivity|right; left; auto]].
    - repeat (case_inner; simpl);
        intros H; inversion H; subst; simpl;
        (split; [reflexivity|]);
        (split; [intros k Hk; rewrite ?get_set_other by exact Hk; reflexivity|]);
        try (right; right; eexists; split; reflexivity).
      all: left; do 3 eexists; repeat split; try reflexivity.
    - intros H; inversion H; subst.
      split; [reflexivity|split; [reflexivity|]].
      right; right; eexists; split; reflexivity.
Qed.

(** The loop: the bar callbacks made are those of the tracked items of an
    initial part of the list, in order; the loop returns only when that
    part is the whole list, with the tracked keys popped. *)
Lemma update_bars_spy items : forall kw lg r lg',
    update_bars spy items kw lg = (r, lg') ->
    ignored_bars lg' = ignored_bars lg
    /\ (forall k, k <> "bars" ->
                  PyDict.get k (state lg') = PyDict.get k (state lg))
    /\ exists done rest evs,
        items = done ++ rest
        /\ ext lg' = ext lg ++ evs
        /\ Forall is_bar_call evs
        /\ bar_calls evs = map decode (filter (tracked (ignored_bars lg)) done)
        /\ ((rest = []
             /\ r = Ok (fold_left (fun acc kv => PyDict.pop (fst kv) acc)
                                  (filter (tracked (ignored_bars lg)) items)
                                  kw))
            \/ exists e, r = Raise e).
Proof.
    induction items as [|[key v] items IH]; intros kw lg r lg' H.
    - inversion H; subst. split; [reflexivity|split; [reflexivity|]].
      exists [], [], [].
      split; [reflexivity|]. split; [symmetry; apply app_nil_r|].
      split; [constructor|]. split; [reflexivity|].
      left. split; reflexivity.
    - simpl in H. apply bind_inv in H.
      destruct H as [(kw1 & lg1 & H1 & H2)|(e & H1 & ->)].
      + apply update_bar_spy in H1. destruct H1 as (Hi1 & Hs1 & H1).
        apply IH in H2. destruct H2 as (Hi2 & Hs2 & done & rest & evs & H2).
        destruct H2 as (-> & Hext & Hbar & Hcalls & Hr).
        rewrite Hi1 in *.
        split; [congruence|].
        split; [intros k Hk; rewrite Hs2, Hs1 by exact Hk; reflexivity|].
        destruct H1 as [(bar & attr & old & Ht & Hd & Hk & He)
                       |[(Ht & Hk & ->)|(e & Hk & _)]];
          try discriminate.
        * inversion Hk; subst kw1.
          exists ((key, v) :: done), rest, (CbBars bar attr v old :: evs).
          split; [reflexivity|].
          split; [rewrite Hext, He, <- app_assoc; reflexivity|].
          split; [constructor; [exact I|exact Hbar]|].
          split; [simpl; rewrite Ht; simpl; rewrite Hd;
                  change (bar_calls evs) with (bar_calls evs) in Hcalls;
                  rewrite <- Hcalls; reflexivity|].
          simpl. rewrite Ht. exact Hr.
        * inversion Hk; subst kw1.
          exists ((key, v) :: done), rest, evs.
          split; [reflexivity|].
          split; [exact Hext|].
          split; [exact Hbar|].
          split; [simpl; rewrite Ht; exact Hcalls|].
          simpl. rewrite Ht. exact Hr.
      + apply update_bar_spy in H1. destruct H1 as (Hi1 & Hs1 & H1).
        split; [exact Hi1|]. split; [exact Hs1|].
        destruct H1 as [(bar & attr & old & _ & _ & Hk & _)
                       |[(_ & Hk & _)|(e' & _ & He)]];
          try discriminate.
        exists [], ((key, v) :: items), [].
        split; [reflexivity|]. split; [rewrite He; symmetry; apply app_nil_r|].
        split; [constructor|]. split; [reflexivity|].
        right. exists e. reflexivity.
Qed.
End Dispatcher.

Section Call.
Import ProgressBarLogger Recorder Batch.

Lemma In_sorted {A : Type} (key : A -> bool) x l :
    In x (sorted key l) <-> In x l.
Proof.
    rewrite sorted_partition, in_app_iff, !filter_In.
    destruct (key x); simpl; intuition congruence.
Qed.

(** What [__call__] has left in [kw] after the loop: the items that are
    not tracked bar updates, in the caller's order. *)
Lemma pops_tracked ign (kw : dict) :
    fold_left (fun acc kv => PyDict.pop (fst kv) acc)
              (filter (tracked ign) (sorted sort_key kw)) kw
    = filter (fun kv => negb (tracked ign kv)) kw.
Proof.
    rewrite pops_filter. apply filter_ext_in. intros kv Hkv. f_equal.
    destruct (tracked ign kv) eqn:Ht.
    - apply existsb_exists. exists (fst kv). split; [|apply String.eqb_refl].
      apply in_map. apply filter_In. split; [|exact Ht].
      apply In_sorted. exact Hkv.
    - destruct (existsb _ _) eqn:Hex; [|reflexivity].
      apply existsb_exists in Hex. destruct Hex as (k & Hk & Heq).
      apply String.eqb_eq in Heq. apply in_map_iff in Hk.
      destruct Hk as (kv' & Hfst & Hin). apply filter_In in Hin.
      destruct Hin as [_ Ht']. rewrite (tracked_fst ign kv kv') in Ht by congruence.
      congruence.
Qed.

(** A whole call of the recording subclass. *)
Lemma call_spy kw (lg : logger (list event)) :
    exists done rest evs,
      sorted sort_key kw = done ++ rest
      /\ Forall is_bar_call evs
      /\ bar_calls evs = map decode (filter (tracked (ignored_bars lg)) done)
      /\ ((rest = []
           /\ exists st,
               (forall k, k <> "bars" ->
                          PyDict.get k st = PyDict.get k (state lg))
               /\ call spy kw lg
                  = (Ok tt,
                     let kw' := filter (fun kv => negb (tracked (ignored_bars lg) kv))
                                       kw in
                     mkLogger (PyDict.update st kw') (ignored_bars lg)
                              (ext lg ++ evs ++ [CbState kw'])))
          \/ exists e lg',
               call spy kw lg = (Raise e, lg')
               /\ ignored_bars lg' = ignored_bars lg
               /\ ext lg' = ext lg ++ evs).
Proof.
    destruct (update_bars spy (sorted sort_key kw) kw lg) as [r lg1] eqn:E.
    pose proof (update_bars_spy _ _ _ _ _ E)
      as (Hi & Hs & done & rest & evs & Hitems & Hext & Hbar & Hcalls & Hr).
    exists done, rest, evs.
    split; [exact Hitems|]. split; [exact Hbar|]. split; [exact Hcalls|].
    destruct Hr as [(-> & ->)|(e & ->)].
    - left. split; [reflexivity|]. exists (state lg1). split; [exact Hs|].
      unfold call. rewrite (bind_ok _ _ _ _ _ E). rewrite pops_tracked.
      unfold record. unfold_monad. simpl.
      rewrite Hi, Hext, app_assoc. reflexivity.
    - right. exists e, lg1. split; [|split; assumption].
      unfold call. rewrite (bind_raise _ _ _ _ _ E). reflexivity.
Qed.
End Call.

(** ** Order of the bar updates of one call *)

Section Ordering.
Import ProgressBarLogger Recorder Batch.


Lemma Subseq_nil_l {A : Type} (l : list A) : Subseq [] l.
Proof. induction l; constructor; assumption. Qed.






End Ordering.

(** ** The claims about the dispatcher *)

Section DispatcherClaims.
Import ProgressBarLogger Recorder Batch.


End DispatcherClaims.

(** ** One bar update, whatever the callbacks *)

Section OneUpdate.
Import ProgressBarLogger.
Context {X : Type} (h : hooks X).

Lemma sorted_one {A : Type} (key : A -> bool) x : sorted key [x] = [x].
Proof. reflexivity. Qed.

Lemma pop_one (key : string) (v : value) : PyDict.pop key [(key, v)] = [].
Proof. unfold PyDict.pop. simpl. rewrite String.eqb_refl. reflexivity. Qed.

(** An item whose bar is in [ignored_bars] is passed over. *)
Lemma update_bar_ignored key v kw (lg : logger X) bar attr :
  PyStr.split_dunder key = [bar; attr] ->
  py_in_ignored bar (ignored_bars lg) = Ok true ->
  update_bar h key v kw lg = (Ok kw, lg).
Proof.
  intros Hs Hi. unfold update_bar.
  rewrite (split_dunder_two_contains _ _ _ Hs), Hs.
  unfold in_ignored. unfold_monad. rewrite Hi. reflexivity.
Qed.

(** An item whose bar is tracked and whose attribute is a key of the bar's
    record (the record in the registry, or the new one made for a bar that
    is not there yet): the record is updated and the callback made. *)
Lemma update_bar_tracked key v kw (lg : logger X) bar attr bars rd old :
  PyStr.split_dunder key = [bar; attr] ->
  py_in_ignored bar (ignored_bars lg) = Ok false ->
  PyDict.get "bars" (state lg) = Some (VDict bars) ->
  match PyDict.get bar bars with Some r => r | None => new_bar bar end
  = VDict rd ->
  PyDict.get attr rd = Some old ->
  update_bar h key v kw lg
  = bind (bars_callback h bar attr v old) (fun _ => ret (PyDict.pop key kw))
         (mkLogger
            (PyDict.set "bars"
               (VDict (PyDict.set bar (VDict (PyDict.set attr v rd)) bars))
               (state lg))
            (ignored_bars lg) (ext lg)).
Proof.
  intros Hs Hi Hb Hr Ha. unfold update_bar.
  rewrite (split_dunder_two_contains _ _ _ Hs), Hs.
  unfold in_ignored, self_bars, set_state. unfold_monad.
  rewrite Hi, Hb. simpl. unfold PyDict.mem.
  destruct (PyDict.get bar bars) as [r|] eqn:Eb; simpl.
  - rewrite Hb. simpl. rewrite Eb, Hr. simpl. rewrite Ha. reflexivity.
  - rewrite Hi. simpl. rewrite get_set_same. simpl. rewrite get_set_same.
    rewrite Hr. simpl. rewrite Ha. rewrite !set_set. reflexivity.
Qed.

(** The same item when the attribute is not a key of the record: the lookup
    of the old value raises [KeyError], after a new bar has been added to
    the registry and before anything else is changed. *)
Lemma update_bar_unknown_attr key v kw (lg : logger X) bar attr bars rd :
  PyStr.split_dunder key = [bar; attr] ->
  py_in_ignored bar (ignored_bars lg) = Ok false ->
  PyDict.get "bars" (state lg) = Some (VDict bars) ->
  match PyDict.get bar bars with Some r => r | None => new_bar bar end
  = VDict rd ->
  PyDict.get attr rd = None ->
  update_bar h key v kw lg
  = (Raise KeyError,
     match PyDict.get bar bars with
     | Some _ => lg
     | None =>
         mkLogger
           (PyDict.set "bars" (VDict (PyDict.set bar (new_bar bar) bars))
                       (state lg))
           (ignored_bars lg) (ext lg)
     end).
Proof.
  intros Hs Hi Hb Hr Ha. unfold update_bar.
  rewrite (split_dunder_two_contains _ _ _ Hs), Hs.
  unfold in_ignored, self_bars, set_state. unfold_monad.
  rewrite Hi, Hb. simpl. unfold PyDict.mem.
  destruct (PyDict.get bar bars) as [r|] eqn:Eb; simpl.
  - rewrite Hb. simpl. rewrite Eb, Hr. simpl. rewrite Ha. reflexivity.
  - rewrite Hi. simpl. rewrite get_set_same. simpl. rewrite get_set_same.
    rewrite Hr. simpl. rewrite Ha. reflexivity.
Qed.

(** Without a set or string in [ignored_bars], the membership test of the
    first composite key raises. *)
Lemma update_bar_ignored_none key v kw (lg : logger X) bar attr :
  PyStr.split_dunder key = [bar; attr] ->
  ignored_bars lg = IgnNone ->
  update_bar h key v kw lg = (Raise TypeError, lg).
Proof.
  intros Hs Hi. unfold update_bar.
  rewrite (split_dunder_two_contains _ _ _ Hs), Hs.
  unfold in_ignored. unfold_monad. rewrite Hi. reflexivity.
Qed.

Lemma call_one key v (lg : logger X) :
  call h [(key, v)] lg
  = match update_bar h key v [(key, v)] lg with
    | (Ok kw', lg1) =>
        callback h kw' (mkLogger (PyDict.update (state lg1) kw')
                                 (ignored_bars lg1) (ext lg1))
    | (Raise e, lg1) => (Raise e, lg1)
    end.
Proof.
  unfold call. rewrite sorted_one. simpl. unfold_monad.
  destruct (update_bar h key v [(key, v)] lg) as [[kw'|e] lg1]; reflexivity.
Qed.
End OneUpdate.

(** ** The claims about ignored bars, the engine hook and unknown attributes *)

Section PolicyClaims.
Import ProgressBarLogger Recorder Batch.

Lemma in_names bar names :
  existsb (String.eqb bar) names = true <-> In bar names.
Proof.
  rewrite existsb_exists. split.
  - intros (x & Hx & E). apply String.eqb_eq in E. subst. exact Hx.
  - intros H. exists bar. split; [exact H | apply String.eqb_refl].
Qed.

Lemma composite_key_not_bars key bar attr :
  PyStr.split_dunder key = [bar; attr] -> "bars" <> key.
Proof.
  intros Hs <-. apply split_dunder_two_contains in Hs. discriminate.
Qed.

(** C5, against the claim as written: with [ignored_bars=['foo']], an update
    of the bar [foo], whose name is in the set, changes no bar and makes no
    bar callback (its key goes to the plain state and the engine callback),
    while an update of a bar whose name is not in the set creates that bar
    and makes the callback. *)
Lemma explicit_set_member_is_not_tracked :
  call spy [("foo__index", VInt 0)]
       (init None BarsNone (IgnSet ["foo"]) [])
  = (Ok tt,
     mkLogger [("bars", VDict []); ("foo__index", VInt 0)] (IgnSet ["foo"])
              [CbState [("foo__index", VInt 0)]])
  /\ call spy [("other__index", VInt 0)]
          (init None BarsNone (IgnSet ["foo"]) [])
     = (Ok tt,
        mkLogger [("bars",
                   VDict [("other",
                           VDict [("title", VStr "other"); ("index", VInt 0);
                                  ("total", VNone); ("message", VNone)])])]
                 (IgnSet ["foo"])
                 [CbBars "other" "index" (VInt 0) (VInt (-1)); CbState []]).
Proof. split; reflexivity. Qed.

(** C5, amended. When [ignored_bars] is a set of names, [__call__] leaves out
    the bars whose name is in the set: their update changes no bar and makes
    no bar callback, and its key stays in the batch. An update of a bar whose
    name is not in the set, for an attribute the bar's record has, sets that
    attribute (in the record of the registry, or in a new record when the bar
    is not there yet) and makes the bar callback with the old value. *)
Theorem explicit_set_names_are_left_out :
  forall names (lg : logger (list event)) key v bar attr,
    ignored_bars lg = IgnSet names ->
    PyStr.split_dunder key = [bar; attr] ->
    (In bar names ->
     call spy [(key, v)] lg
     = (Ok tt,
        mkLogger (PyDict.set key v (state lg)) (IgnSet names)
                 (ext lg ++ [CbState [(key, v)]]))
     /\ PyDict.get "bars" (PyDict.set key v (state lg))
        = PyDict.get "bars" (state lg))
    /\ (~ In bar names ->
        forall bars rd old,
          PyDict.get "bars" (state lg) = Some (VDict bars) ->
          match PyDict.get bar bars with Some r => r | None => new_bar bar end
          = VDict rd ->
          PyDict.get attr rd = Some old ->
          call spy [(key, v)] lg
          = (Ok tt,
             mkLogger
               (PyDict.set "bars"
                  (VDict (PyDict.set bar (VDict (PyDict.set attr v rd)) bars))
                  (state lg))
               (IgnSet names)
               (ext lg ++ [CbBars bar attr v old; CbState []]))).
Proof.
  intros names lg key v bar attr Hign Hs. split.
  - intros Hin. split.
    + assert (Hi : py_in_ignored bar (ignored_bars lg) = Ok true).
      { rewrite Hign. simpl. f_equal. apply in_names. exact Hin. }
      rewrite call_one.
      rewrite (update_bar_ignored spy key v [(key, v)] lg bar attr Hs Hi).
      unfold spy, record. unfold_monad. simpl. rewrite Hign. reflexivity.
    + apply get_set_other. apply (composite_key_not_bars _ _ _ Hs).
  - intros Hnot bars rd old Hb Hr Ha.
    assert (Hi : py_in_ignored bar (ignored_bars lg) = Ok false).
    { rewrite Hign. simpl. f_equal.
      destruct (existsb (String.eqb bar) names) eqn:E; [|reflexivity].
      apply in_names in E. contradiction. }
    rewrite call_one.
    rewrite (update_bar_tracked spy key v [(key, v)] lg bar attr bars rd old
               Hs Hi Hb Hr Ha).
    rewrite pop_one. unfold spy, record. unfold_monad. simpl.
    rewrite Hign, <- app_assoc. reflexivity.
Qed.

Lemma explicit_set_names_are_left_out_witness :
  call spy [("foo__index", VInt 0)]
       (init None (BarsNames ["foo"]) (IgnSet ["foo"]) [])
  = (Ok tt,
     mkLogger
       (PyDict.set "foo__index" (VInt 0)
          (state (init None (BarsNames ["foo"]) (IgnSet ["foo"])
                       ([] : list event))))
       (IgnSet ["foo"])
       [CbState [("foo__index", VInt 0)]])
  /\ call spy [("job__index", VInt 0)]
          (init None (BarsNames ["foo"]) (IgnSet ["foo"]) [])
     = (Ok tt,
        mkLogger
          [("bars",
            VDict [("foo", new_bar "foo");
                   ("job",
                    VDict [("title", VStr "job"); ("index", VInt 0);
                           ("total", VNone); ("message", VNone)])])]
          (IgnSet ["foo"])
          [CbBars "job" "index" (VInt 0) (VInt (-1)); CbState []]).
Proof.
  split.
  - refine (proj1 (proj1 (explicit_set_names_are_left_out
                            ["foo"]
                            (init None (BarsNames ["foo"]) (IgnSet ["foo"]) [])
                            "foo__index" (VInt 0) "foo" "index"
                            eq_refl eq_refl) _)).
    simpl. left. reflexivity.
  - refine (proj2 (explicit_set_names_are_left_out
                     ["foo"]
                     (init None (BarsNames ["foo"]) (IgnSet ["foo"]) [])
                     "job__index" (VInt 0) "job" "index"
                     eq_refl eq_refl) _
                  [("foo", new_bar "foo")]
                  [("title", VStr "job"); ("index", VInt (-1));
                   ("total", VNone); ("message", VNone)]
                  (VInt (-1)) eq_refl eq_refl eq_refl).
    simpl. intros [H|[]]. discriminate.
Defined.

End PolicyClaims.

Section HookClaims.
Import ProgressBarLogger Recorder Batch.

(** C8, against the claim as written: the composite key of an ignored bar is
    not stripped. With [ignored_bars=['foo']] the batch [foo__index=0]
    reaches the engine callback whole, and its key is merged into the plain
    state. *)
Lemma ignored_composite_key_reaches_hook :
  PyStr.contains "__" "foo__index" = true
  /\ py_in_ignored "foo" (IgnSet ["foo"]) = Ok true
  /\ call spy [("foo__index", VInt 0)]
          (init None BarsNone (IgnSet ["foo"]) [])
     = (Ok tt,
        mkLogger [("bars", VDict []); ("foo__index", VInt 0)] (IgnSet ["foo"])
                 [CbState [("foo__index", VInt 0)]]).
Proof. repeat split. Qed.

(** C8, amended. When a call returns, the engine callback has been made
    once, after every bar callback, with the batch [kw'] that was merged into
    the state: the caller's batch without the composite keys of tracked bars.
    The composite key of an ignored bar is still in [kw']; that of a tracked
    bar is not. Apart from the merge only the bars of the state change. *)
Theorem hook_gets_the_merged_batch :
  forall (lg lg' : logger (list event)) (kw : dict),
    call spy kw lg = (Ok tt, lg') ->
    let kw' := filter (fun kv => negb (tracked (ignored_bars lg) kv)) kw in
    (exists evs, Forall is_bar_call evs
                 /\ ext lg' = ext lg ++ evs ++ [CbState kw'])
    /\ (exists st,
           (forall k, k <> "bars" ->
                      PyDict.get k st = PyDict.get k (state lg))
           /\ state lg' = PyDict.update st kw')
    /\ (forall key v bar attr,
           In (key, v) kw ->
           PyStr.split_dunder key = [bar; attr] ->
           (py_in_ignored bar (ignored_bars lg) = Ok true -> In (key, v) kw')
           /\ (py_in_ignored bar (ignored_bars lg) = Ok false ->
               ~ In (key, v) kw')).
Proof.
  intros lg lg' kw Hcall kw'.
  destruct (call_spy kw lg) as (done & rest & evs & _ & Hbar & _ & Hr).
  destruct Hr as [(_ & st & Hst & E)|(e & lg1 & E & _)];
    rewrite E in Hcall; [|discriminate].
  inversion Hcall; subst lg'; clear Hcall. simpl.
  split; [exists evs; split; [exact Hbar | reflexivity]|].
  split; [exists st; split; [exact Hst | reflexivity]|].
  intros key v bar attr Hin Hs. unfold kw'. rewrite filter_In.
  unfold tracked. simpl.
  rewrite (split_dunder_two_contains _ _ _ Hs), Hs. simpl.
  split; intros Hi; rewrite Hi.
  - split; [exact Hin | reflexivity].
  - intros [_ H]. discriminate.
Qed.

Lemma hook_gets_the_merged_batch_witness :
  call spy [("foo__index", VInt 0); ("job__index", VInt 1); ("user", VStr "tom")]
       (init None BarsNone (IgnSet ["foo"]) [])
  = (Ok tt,
     mkLogger
       [("bars",
         VDict [("job",
                 VDict [("title", VStr "job"); ("index", VInt 1);
                        ("total", VNone); ("message", VNone)])]);
        ("foo__index", VInt 0); ("user", VStr "tom")]
       (IgnSet ["foo"])
       [CbBars "job" "index" (VInt 1) (VInt (-1));
        CbState [("foo__index", VInt 0); ("user", VStr "tom")]])
  /\ exists evs,
      Forall is_bar_call evs
      /\ [CbBars "job" "index" (VInt 1) (VInt (-1));
          CbState [("foo__index", VInt 0); ("user", VStr "tom")]]
         = [] ++ evs ++ [CbState [("foo__index", VInt 0); ("user", VStr "tom")]].
Proof.
  split; [reflexivity|].
  exact (proj1 (hook_gets_the_merged_batch
                  (init None BarsNone (IgnSet ["foo"]) [])
                  (mkLogger
                     [("bars",
                       VDict [("job",
                               VDict [("title", VStr "job"); ("index", VInt 1);
                                      ("total", VNone); ("message", VNone)])]);
                      ("foo__index", VInt 0); ("user", VStr "tom")]
                     (IgnSet ["foo"])
                     [CbBars "job" "index" (VInt 1) (VInt (-1));
                      CbState [("foo__index", VInt 0); ("user", VStr "tom")]])
                  [("foo__index", VInt 0); ("job__index", VInt 1);
                   ("user", VStr "tom")]
                  eq_refl)).
Defined.


End HookClaims.

Section UnknownAttribute.
Import ProgressBarLogger.
Context {X : Type} (h : hooks X).

End UnknownAttribute.


(** ** The documented value [None] of [ignored_bars] *)

Section NonePolicy.
Import ProgressBarLogger.
Context {X : Type} (h : hooks X).

(** C6. With [ignored_bars=None], the default, a call with a bar update
    (here one that is alone in its batch) raises [TypeError] at the test
    [bar in self.ignored_bars] and leaves the logger as it was, whatever the
    callbacks: no bar is made, no attribute set and no callback made. *)
Theorem none_policy_raises_type_error :
  forall (lg : logger X) key v bar attr,
    ignored_bars lg = IgnNone ->
    PyStr.split_dunder key = [bar; attr] ->
    call h [(key, v)] lg = (Raise TypeError, lg).
Proof.
  intros lg key v bar attr Hi Hs. rewrite call_one.
  rewrite (update_bar_ignored_none h key v [(key, v)] lg bar attr Hs Hi).
  reflexivity.
Qed.
End NonePolicy.

(** The call [logger(foo__index=0)] on [ProgressBarLogger()]; the method
    [bar_is_ignored] answers that [foo] is not ignored on the same logger. *)
Lemma none_policy_raises_type_error_witness :
  ProgressBarLogger.call Recorder.spy [("foo__index", VInt 0)]
    (ProgressBarLogger.init None BarsNone IgnNone [])
  = (Raise TypeError, ProgressBarLogger.init None BarsNone IgnNone [])
  /\ fst (ProgressBarLogger.bar_is_ignored "foo"
            (ProgressBarLogger.init None BarsNone IgnNone ([] : list event)))
     = Ok false.
Proof.
  split.
  - exact (none_policy_raises_type_error Recorder.spy
             (ProgressBarLogger.init None BarsNone IgnNone [])
             "foo__index" (VInt 0) "foo" "index" eq_refl eq_refl).
  - reflexivity.
Defined.


(** ** class RqWorkerBarLogger *)

(** C10. Whatever the arguments and however many frames the interpreter
    allows, the constructor of [RqWorkerBarLogger] ends in [RecursionError]:
    it never returns an instance. *)
Theorem rq_worker_bar_logger_init_never_returns :
  forall (depth : nat) (j : RqWorker.job) (init_state : option dict)
         (bars : bars_arg) (ign : ignored),
    RqWorker.init depth j init_state bars ign = Raise RecursionError.
Proof.
  induction depth as [|depth IH]; intros j init_state bars ign.
  - reflexivity.
  - simpl. rewrite IH. reflexivity.
Qed.

(** ** The tqdm backend *)

Section TqdmClaims.
Import Tqdm.

Ltac run_tqdm :=
  unfold bars_callback, has_tqdm_bar, new_tqdm_bar, close_tqdm_bar, the_bar,
    tqdm_new, set_tqdm_bar, emit, with_ext, ProgressBarLogger.self_bars;
  unfold_monad; simpl.



(** An index update at or above the old index, on a bar whose object is
    held: the object is closed when the total is a number other than zero
    and the new index has reached it, and advanced by the difference of the
    indices when there is no total, the total is zero, or the new index is
    below it. *)
Lemma forward_index_update (lg : obj) bar n o handle bars infos total :
  (o <= n)%Z ->
  PyDict.get bar (tqdm_bars (ext lg)) = Some (Some handle) ->
  PyDict.get "bars" (state lg) = Some bars ->
  PyOps.getitem bars bar = Ok infos ->
  PyOps.getitem infos "total" = Ok total ->
  let t := ext lg in
  (forall tot, total = VInt tot -> tot <> 0%Z -> (tot <= n)%Z ->
     bars_callback bar "index" (VInt n) (VInt o) lg
     = (Ok tt,
        mkLogger (state lg) (ignored_bars lg)
          (mkTqdm (PyDict.set bar None (tqdm_bars t)) (leave_bars t)
                  (print_messages t) (made t)
                  (calls t ++ [TqdmClose handle]))))
  /\ (total = VNone \/ total = VInt 0
      \/ (exists tot, total = VInt tot /\ (n < tot)%Z) ->
      bars_callback bar "index" (VInt n) (VInt o) lg
      = (Ok tt,
         mkLogger (state lg) (ignored_bars lg)
           (mkTqdm (tqdm_bars t) (leave_bars t) (print_messages t) (made t)
                   (calls t ++ [TqdmUpdate handle (VInt (n - o))])))).
Proof.
  intros Hle Eb Hb Hi Ht t. subst t.
  assert (Hge : (n >=? o)%Z = true)
    by (rewrite Z.geb_leb; apply Z.leb_le; exact Hle).
  split.
  - intros tot -> Hnz Htot. run_tqdm.
    assert (Hge' : (n >=? tot)%Z = true)
      by (rewrite Z.geb_leb; apply Z.leb_le; exact Htot).
    apply Z.eqb_neq in Hnz.
    repeat (first [rewrite Eb | rewrite Hb | rewrite Hi | rewrite Ht
                  | rewrite Hge | rewrite Hge' | rewrite Hnz]; simpl).
    reflexivity.
  - intros [->|[->|(tot & -> & Hlt)]]; run_tqdm.
    + repeat (first [rewrite Eb | rewrite Hb | rewrite Hi | rewrite Ht
                    | rewrite Hge]; simpl).
      reflexivity.
    + repeat (first [rewrite Eb | rewrite Hb | rewrite Hi | rewrite Ht
                    | rewrite Hge]; simpl).
      reflexivity.
    + assert (Hge' : (n >=? tot)%Z = false)
        by (rewrite Z.geb_leb; apply Z.leb_gt; exact Hlt).
      repeat (first [rewrite Eb | rewrite Hb | rewrite Hi | rewrite Ht
                    | rewrite Hge | rewrite Hge']; simpl).
      destruct (tot =? 0)%Z; simpl;
        repeat (first [rewrite Eb | rewrite Hge']; simpl); reflexivity.
Qed.

(** C7. The scenario as the claim gives it, [bars=['main']] and
    [ignored_bars=None]: the first call, [logger(main__total=3)], raises
    [TypeError] at the test [bar in self.ignored_bars]; the library receives
    no call, so the bar is neither advanced nor closed. *)
Theorem scenario_with_none_raises_type_error :
  calls_in_a_row
    [[("main__total", VInt 3)]; [("main__index", VInt 0)];
     [("main__index", VInt 1)]; [("main__index", VInt 2)];
     [("main__index", VInt 3)]]
    (init None (BarsNames ["main"]) false IgnNone true)
  = (Raise TypeError, init None (BarsNames ["main"]) false IgnNone true)
  /\ call [("main__total", VInt 3)]
          (init None (BarsNames ["main"]) false IgnNone true)
     = (Raise TypeError, init None (BarsNames ["main"]) false IgnNone true)
  /\ calls (ext (init None (BarsNames ["main"]) false IgnNone true)) = [].
Proof. repeat split. Qed.

(** The same scenario with the default of [TqdmProgressBarLogger],
    [ignored_bars=()]: one bar object is made with total 3, advanced three
    times by one, and closed by the last call. *)
Lemma scenario_with_empty_set :
  calls_in_a_row
    [[("main__total", VInt 3)]; [("main__index", VInt 0)];
     [("main__index", VInt 1)]; [("main__index", VInt 2)];
     [("main__index", VInt 3)]]
    (init None (BarsNames ["main"]) false (IgnSet []) true)
  = (Ok tt,
     mkLogger
       [("bars", VDict [("main",
                         VDict [("title", VStr "main"); ("index", VInt 3);
                                ("total", VInt 3); ("message", VNone)])])]
       (IgnSet [])
       (mkTqdm [("main", None)] false true 1
               [TqdmNew 0 (VInt 3) (VStr "main") VNone false;
                TqdmUpdate 0 (VInt 1); TqdmUpdate 0 (VInt 1);
                TqdmUpdate 0 (VInt 1); TqdmClose 0]))
  /\ advance_sum [TqdmNew 0 (VInt 3) (VStr "main") VNone false;
                  TqdmUpdate 0 (VInt 1); TqdmUpdate 0 (VInt 1);
                  TqdmUpdate 0 (VInt 1); TqdmClose 0] = 3%Z
  /\ closes [TqdmNew 0 (VInt 3) (VStr "main") VNone false;
             TqdmUpdate 0 (VInt 1); TqdmUpdate 0 (VInt 1);
             TqdmUpdate 0 (VInt 1); TqdmClose 0] = 1.
Proof. repeat split. Qed.

End TqdmClaims.

(** ** The iteration adapter *)

Section IterBarClaims.
Import ProgressBarLogger Recorder IterBar.

(** The consumer's loop always ends: the fuel [run] gives it is enough. *)
Lemma consume_enough fuel : forall g lg,
  length (g_rest g) < fuel -> consume fuel g lg <> None.
Proof.
  induction fuel as [|fuel IH]; intros g lg Hlen; [lia|].
  simpl. unfold next.
  destruct (g_done g); [discriminate|].
  destruct (g_rest g) as [|x rest] eqn:Er.
  - destruct (g_i g) as [i|]; [|discriminate].
    destruct (call spy _ lg) as [[u|e] lg1]; discriminate.
  - destruct (call spy _ lg) as [[u|e] lg1]; [|discriminate].
    apply IH. simpl in *. lia.
Qed.

Lemma run_returns bar it lg : run bar it lg <> None.
Proof.
  unfold run.
  destruct (iter_bar spy [(bar, it)] lg) as [[[it'|g]|e] lg1];
    try discriminate.
  apply consume_enough. lia.
Qed.

(** Under [ignored_bars=None] the adapter raises before it starts, whatever
    the sequence: [bar in self.ignored_bars] is a [TypeError]. *)
Lemma iter_bar_with_none_raises bar it (lg : logger (list event)) :
  ignored_bars lg = IgnNone ->
  run bar it lg = Some (Raise TypeError, lg).
Proof.
  intros Hi. unfold run, iter_bar. simpl. unfold in_ignored. unfold_monad.
  rewrite Hi. reflexivity.
Qed.

End IterBarClaims.

Section IterBarLoop.
Import ProgressBarLogger Recorder Batch IterBar.

(** One tracked update through the recording subclass. *)
Lemma call_spy_tracked key v (lg : logger (list event)) bar attr bars rd old :
  PyStr.split_dunder key = [bar; attr] ->
  py_in_ignored bar (ignored_bars lg) = Ok false ->
  PyDict.get "bars" (state lg) = Some (VDict bars) ->
  match PyDict.get bar bars with Some r => r | None => new_bar bar end
  = VDict rd ->
  PyDict.get attr rd = Some old ->
  call spy [(key, v)] lg
  = (Ok tt,
     mkLogger
       (PyDict.set "bars"
          (VDict (PyDict.set bar (VDict (PyDict.set attr v rd)) bars))
          (state lg))
       (ignored_bars lg)
       (ext lg ++ [CbBars bar attr v old; CbState []])).
Proof.
  intros Hs Hi Hb Hr Ha. rewrite call_one.
  rewrite (update_bar_tracked spy key v [(key, v)] lg bar attr bars rd old
             Hs Hi Hb Hr Ha).
  rewrite pop_one. unfold spy, record. unfold_monad. simpl.
  rewrite <- app_assoc. reflexivity.
Qed.

(** An index update of a bar that is in the registry. *)
Lemma index_update_step (lg : logger (list event)) bar i prev tot :
  PyStr.split_dunder (bar ++ "__index") = [bar; "index"] ->
  py_in_ignored bar (ignored_bars lg) = Ok false ->
  bar_fields lg bar prev tot ->
  exists lg',
    call spy [((bar ++ "__index")%string, VInt i)] lg = (Ok tt, lg')
    /\ ignored_bars lg' = ignored_bars lg
    /\ ext lg' = ext lg ++ [CbBars bar "index" (VInt i) prev; CbState []]
    /\ bar_fields lg' bar (VInt i) tot.
Proof.
  intros Hs Hi (bars & rd & Hb & Hr & Hidx & Htot).
  eexists. split.
  - apply (call_spy_tracked _ _ lg bar "index" bars rd prev Hs Hi Hb);
      [rewrite Hr; reflexivity | exact Hidx].
  - simpl. split; [reflexivity|]. split; [reflexivity|].
    exists (PyDict.set bar (VDict (PyDict.set "index" (VInt i) rd)) bars),
           (PyDict.set "index" (VInt i) rd).
    simpl. rewrite !get_set_same. repeat split.
    rewrite get_set_other by discriminate. exact Htot.
Qed.

Lemma consume_loop bar :
  PyStr.split_dunder (bar ++ "__index") = [bar; "index"] ->
  forall xs i gi (lg : logger (list event)) prev tot fuel,
    length xs < fuel ->
    py_in_ignored bar (ignored_bars lg) = Ok false ->
    bar_fields lg bar prev tot ->
    (xs = [] -> gi = Some (i - 1)%Z) ->
    exists lg',
      consume fuel (mkGen bar xs i gi false) lg = Some (Ok tt, lg')
      /\ ignored_bars lg' = ignored_bars lg
      /\ ext lg'
         = ext lg ++ loop_events bar i prev xs
           ++ [CbBars bar "index" (VInt (i + Z.of_nat (length xs)))
                      (match xs with
                       | [] => prev
                       | _ => VInt (i + Z.of_nat (length xs) - 1)
                       end);
               CbState []]
      /\ bar_fields lg' bar (VInt (i + Z.of_nat (length xs))) tot.
Proof.
  intros Hs xs. induction xs as [|x xs IH]; intros i gi lg prev tot fuel Hf Hi Hb Hgi.
  - destruct fuel as [|fuel]; [simpl in Hf; lia|].
    rewrite (Hgi eq_refl). simpl. unfold next. simpl.
    replace (i - 1 + 1)%Z with i by lia.
    destruct (index_update_step lg bar i prev tot Hs Hi Hb)
      as (lg' & Hc & Hi' & He & Hb').
    rewrite Hc. exists lg'. split; [reflexivity|]. split; [exact Hi'|].
    replace (i + 0)%Z with i by lia. split; [exact He | exact Hb'].
  - destruct fuel as [|fuel]; [simpl in Hf; lia|].
    cbn [consume]. unfold next. cbn [g_done g_rest g_count g_i g_bar].
    destruct (index_update_step lg bar i prev tot Hs Hi Hb)
      as (lg1 & Hc & Hi1 & He1 & Hb1).
    rewrite Hc.
    destruct (IH (i + 1)%Z (Some i)
                 (snd (record (Yielded x) lg1)) (VInt i) tot fuel)
      as (lg' & Hc' & Hi' & He' & Hb').
    + simpl in Hf. lia.
    + simpl. rewrite Hi1. exact Hi.
    + exact Hb1.
    + intros _. f_equal. lia.
    + exists lg'. split; [exact Hc'|].
      split; [rewrite Hi'; simpl; exact Hi1|].
      replace (i + Z.of_nat (length (x :: xs)))%Z
        with (i + 1 + Z.of_nat (length xs))%Z
        by (change (length (x :: xs)) with (S (length xs));
            rewrite Nat2Z.inj_succ; lia).
      split; [|exact Hb'].
      rewrite He'. cbn [record modify snd ext]. rewrite He1.
      rewrite <- !app_assoc. cbn [loop_events app].
      destruct xs as [|y ys]; [|reflexivity].
      replace (i + 1 + Z.of_nat (length (@nil value)) - 1)%Z with i
        by (change (Z.of_nat (length (@nil value))) with 0%Z; lia).
      reflexivity.
Qed.

(** Iterating over a sequence of known length [n >= 1] with a bar that is
    tracked (it is not in the set [ignored_bars], its keys split into the bar
    and the attribute, and its record, in the registry or new, has [total]
    and [index]): the iteration runs to the end, the observer sees one total
    update equal to [n] first, then for each element its index update before
    the element, and a last index update equal to [n]. *)
Lemma iter_bar_nonempty (lg : logger (list event)) names bar x xs
      bars rd old_total old_index :
  ignored_bars lg = IgnSet names ->
  ~ In bar names ->
  PyStr.split_dunder (bar ++ "__total") = [bar; "total"] ->
  PyStr.split_dunder (bar ++ "__index") = [bar; "index"] ->
  PyDict.get "bars" (state lg) = Some (VDict bars) ->
  match PyDict.get bar bars with Some r => r | None => new_bar bar end
  = VDict rd ->
  PyDict.get "total" rd = Some old_total ->
  PyDict.get "index" rd = Some old_index ->
  let n := Z.of_nat (length (x :: xs)) in
  exists lg',
    run bar (mkIterable (x :: xs) true) lg = Some (Ok tt, lg')
    /\ ext lg' = ext lg ++ iteration_events bar old_total old_index (x :: xs)
    /\ bar_fields lg' bar (VInt n) (VInt n).
Proof.
  intros Hign Hnot Hst Hsi Hb Hr Ht Hidx n.
  assert (Hi : py_in_ignored bar (ignored_bars lg) = Ok false).
  { rewrite Hign. simpl. f_equal.
    destruct (existsb (String.eqb bar) names) eqn:E; [|reflexivity].
    apply in_names in E. contradiction. }
  unfold run, iter_bar. cbn [PyDict.popitem]. unfold in_ignored.
  unfold_monad. rewrite Hi. cbn [has_len elements].
  fold n.
  rewrite (call_spy_tracked _ (VInt n) lg bar "total" bars rd old_total
             Hst Hi Hb Hr Ht).
  cbn [g_rest].
  set (lg1 := mkLogger _ _ _).
  destruct (consume_loop bar Hsi (x :: xs) 0%Z None lg1 old_index (VInt n)
              (S (length (x :: xs))))
    as (lg' & Hc & _ & He & Hf).
  - lia.
  - exact Hi.
  - exists (PyDict.set bar (VDict (PyDict.set "total" (VInt n) rd)) bars),
           (PyDict.set "total" (VInt n) rd).
    subst lg1. simpl. rewrite !get_set_same. repeat split.
    rewrite get_set_other by discriminate. exact Hidx.
  - discriminate.
  - exists lg'. split; [exact Hc|]. rewrite Z.add_0_l in He, Hf. fold n in He, Hf.
    split; [|exact Hf].
    rewrite He. subst lg1. cbn [ext]. unfold iteration_events. fold n.
    rewrite <- !app_assoc. reflexivity.
Qed.

End IterBarLoop.

Example iter_bar_two_elements :
  IterBar.run "job" (mkIterable [VStr "a"; VStr "b"] true)
    (ProgressBarLogger.init None BarsNone (IgnSet []) [])
  = Some (Ok tt,
          mkLogger
            [("bars", VDict [("job",
                              VDict [("title", VStr "job"); ("index", VInt 2);
                                     ("total", VInt 2);
                                     ("message", VNone)])])]
            (IgnSet [])
            (Batch.iteration_events "job" VNone (VInt (-1))
               [VStr "a"; VStr "b"])).
Proof. reflexivity. Qed.

Section EmptySequence.
Import ProgressBarLogger Recorder Batch IterBar.

(** C2. Iterating over an empty sequence of known length with a bar that is
    tracked: the total update [bar__total=0] is applied and observed, and the
    first [next] then raises [UnboundLocalError], because the last update
    reads the loop variable [i], which an empty loop never binds. No index
    update of any kind is made. *)
Theorem iter_bar_empty_sequence_raises :
  forall (lg : logger (list event)) names bar bars rd old_total,
    ignored_bars lg = IgnSet names ->
    ~ In bar names ->
    PyStr.split_dunder (bar ++ "__total") = [bar; "total"] ->
    PyDict.get "bars" (state lg) = Some (VDict bars) ->
    match PyDict.get bar bars with Some r => r | None => new_bar bar end
    = VDict rd ->
    PyDict.get "total" rd = Some old_total ->
    run bar (mkIterable [] true) lg
    = Some (Raise UnboundLocalError,
            mkLogger
              (PyDict.set "bars"
                 (VDict (PyDict.set bar
                           (VDict (PyDict.set "total" (VInt 0) rd)) bars))
                 (state lg))
              (IgnSet names)
              (ext lg ++ [CbBars bar "total" (VInt 0) old_total; CbState []])).
Proof.
  intros lg names bar bars rd old_total Hign Hnot Hst Hb Hr Ht.
  assert (Hi : py_in_ignored bar (ignored_bars lg) = Ok false).
  { rewrite Hign. simpl. f_equal.
    destruct (existsb (String.eqb bar) names) eqn:E; [|reflexivity].
    apply in_names in E. contradiction. }
  unfold run, iter_bar. cbn [PyDict.popitem]. unfold in_ignored.
  unfold_monad. rewrite Hi. cbn [has_len elements length Z.of_nat].
  rewrite (call_spy_tracked _ (VInt 0) lg bar "total" bars rd old_total
             Hst Hi Hb Hr Ht).
  rewrite Hign. reflexivity.
Qed.

Lemma iter_bar_empty_sequence_raises_witness :
  run "job" (mkIterable [] true) (init None BarsNone (IgnSet []) [])
  = Some (Raise UnboundLocalError,
          mkLogger
            [("bars", VDict [("job",
                              VDict [("title", VStr "job");
                                     ("index", VInt (-1));
                                     ("total", VInt 0);
                                     ("message", VNone)])])]
            (IgnSet [])
            [CbBars "job" "total" (VInt 0) VNone; CbState []]).
Proof.
  refine (iter_bar_empty_sequence_raises
            (init None BarsNone (IgnSet []) []) [] "job" []
            [("title", VStr "job"); ("index", VInt (-1));
             ("total", VNone); ("message", VNone)]
            VNone eq_refl _ eq_refl eq_refl eq_refl eq_refl).
  intros [].
Defined.

End EmptySequence.

(** ** The bar objects held were made by the library *)

Section Keeps.
Context {S : Type} (I : S -> Prop).

Lemma keeps_ret {A : Type} (a : A) : keeps I (ret a).
Proof. intros s r s' H E. inversion E; subst. exact H. Qed.

Lemma keeps_raise {A : Type} (e : exn) : keeps I (@raise S A e).
Proof. intros s r s' H E. inversion E; subst. exact H. Qed.

Lemma keeps_lift {A : Type} (x : res A) : keeps I (lift x).
Proof. intros s r s' H E. inversion E; subst. exact H. Qed.

Lemma keeps_gets {A : Type} (f : S -> A) : keeps I (gets f).
Proof. intros s r s' H E. inversion E; subst. exact H. Qed.

Lemma keeps_bind {A B : Type} (m : M S A) (k : A -> M S B) :
  keeps I m -> (forall a, keeps I (k a)) -> keeps I (bind m k).
Proof.
  intros Hm Hk s r s' H E. apply bind_inv in E.
  destruct E as [(a & s1 & E1 & E2)|(e & E1 & _)].
  - exact (Hk a s1 r s' (Hm _ _ _ H E1) E2).
  - exact (Hm _ _ _ H E1).
Qed.

Lemma keeps_if {A : Type} (b : bool) (m1 m2 : M S A) :
  keeps I m1 -> keeps I m2 -> keeps I (if b then m1 else m2).
Proof. destruct b; auto. Qed.
End Keeps.

Section HandlesMade.
Import Tqdm.

Local Abbreviation held := (fun lg : obj => handles_made (ext lg)).

Lemma handles_made_init init_state bars leave ign print_msgs :
  handles_made (ext (init init_state bars leave ign print_msgs)).
Proof.
  unfold handles_made, init. simpl. intros b hd.
  induction (ProgressBarLogger.init_bars bars) as [|[k v] d IH]; simpl.
  - discriminate.
  - destruct (String.eqb b k); [discriminate | exact IH].
Qed.

Lemma keeps_emit c : keeps held (emit c).
Proof.
  intros s r s' H E. inversion E; subst. unfold handles_made in *.
  simpl. exact H.
Qed.

Lemma keeps_self_bars : keeps held ProgressBarLogger.self_bars.
Proof.
  intros s r s' H E. unfold ProgressBarLogger.self_bars in E.
  destruct (PyDict.get "bars" (state s)); inversion E; subst; exact H.
Qed.

Lemma keeps_has_tqdm_bar bar : keeps held (has_tqdm_bar bar).
Proof.
  apply keeps_bind; [apply keeps_gets | intros; apply keeps_ret].
Qed.

Lemma keeps_the_bar bar : keeps held (the_bar bar).
Proof.
  apply keeps_bind; [apply keeps_gets|]. intros tb.
  destruct (PyDict.get bar tb) as [[hd|]|];
    [apply keeps_ret | apply keeps_raise | apply keeps_raise].
Qed.

Lemma keeps_unset bar : keeps held (set_tqdm_bar bar None).
Proof.
  intros s r s' H E. inversion E; subst. unfold handles_made in *.
  simpl. intros b hd Hg.
  destruct (String.eqb_spec b bar) as [->|Hne].
  - rewrite get_set_same in Hg. discriminate.
  - rewrite get_set_other in Hg by exact Hne. exact (H b hd Hg).
Qed.

Lemma keeps_close_tqdm_bar bar : keeps held (close_tqdm_bar bar).
Proof.
  apply keeps_bind; [apply keeps_gets|]. intros tb.
  destruct (PyDict.get bar tb) as [[hd|]|];
    [|apply keeps_raise | apply keeps_raise].
  apply keeps_bind; [apply keeps_emit | intros; apply keeps_unset].
Qed.

(** Making a bar object and keeping it. *)
Lemma keeps_make bar total desc postfix :
  keeps held (bind (tqdm_new total desc postfix)
                   (fun handle => set_tqdm_bar bar (Some handle))).
Proof.
  intros s r s' H E. inversion E; subst. unfold handles_made in *.
  simpl. intros b hd Hg.
  destruct (String.eqb_spec b bar) as [->|Hne].
  - rewrite get_set_same in Hg. inversion Hg. lia.
  - rewrite get_set_other in Hg by exact Hne.
    apply Nat.lt_lt_succ_r. exact (H b hd Hg).
Qed.

Lemma keeps_new_tqdm_bar bar : keeps held (new_tqdm_bar bar).
Proof.
  unfold new_tqdm_bar.
  apply keeps_bind; [apply keeps_has_tqdm_bar|]. intros live.
  apply keeps_bind;
    [apply keeps_if; [apply keeps_close_tqdm_bar | apply keeps_ret]|].
  intros _.
  apply keeps_bind; [apply keeps_self_bars|]. intros bars.
  apply keeps_bind; [apply keeps_lift|]. intros infos.
  apply keeps_bind; [apply keeps_lift|]. intros total.
  apply keeps_bind; [apply keeps_lift|]. intros desc.
  apply keeps_bind; [apply keeps_lift|]. intros postfix.
  apply keeps_make.
Qed.

Lemma keeps_bars_callback bar attr v old :
  keeps held (bars_callback bar attr v old).
Proof.
  unfold bars_callback.
  apply keeps_bind; [apply keeps_has_tqdm_bar|]. intros live.
  apply keeps_bind;
    [apply keeps_if; [apply keeps_ret | apply keeps_new_tqdm_bar]|].
  intros _.
  repeat first
    [ apply keeps_ret | apply keeps_lift | apply keeps_emit
    | apply keeps_self_bars | apply keeps_the_bar
    | apply keeps_close_tqdm_bar | apply keeps_new_tqdm_bar
    | apply keeps_if
    | apply keeps_bind; [|intros ?] ].
Qed.

Lemma keeps_callback kw : keeps held (callback kw).
Proof.
  unfold callback.
  apply keeps_bind; [apply keeps_gets|]. intros print.
  apply keeps_if; [|apply keeps_ret].
  destruct (PyDict.get "message" kw) as [msg|]; [|apply keeps_ret].
  apply keeps_if; [apply keeps_emit | apply keeps_ret].
Qed.
End HandlesMade.

Section KeepsCall.
Import ProgressBarLogger.
Context {X : Type} (I : logger X -> Prop) (h : hooks X).
Hypothesis I_state :
  forall lg st, I lg -> I (mkLogger st (ignored_bars lg) (ext lg)).
Hypothesis I_bars_callback :
  forall bar attr v old, keeps I (bars_callback h bar attr v old).
Hypothesis I_callback : forall kw, keeps I (callback h kw).

Lemma keeps_in_ignored bar : keeps I (in_ignored bar).
Proof. intros s r s' H E. inversion E; subst. exact H. Qed.

Lemma keeps_bars : keeps I self_bars.
Proof.
  intros s r s' H E. unfold self_bars in E.
  destruct (PyDict.get "bars" (state s)); inversion E; subst; exact H.
Qed.

Lemma keeps_set_state k v : keeps I (set_state k v).
Proof. intros s r s' H E. inversion E; subst. apply I_state. exact H. Qed.

(** A property of the logger that does not look at its state and that the
    callbacks keep is kept by a call. *)
Lemma keeps_update_bar key v kw : keeps I (update_bar h key v kw).
Proof.
  unfold update_bar.
  destruct (PyStr.contains "__" key); [|apply keeps_ret].
  destruct (PyStr.split_dunder key) as [|bar [|attr [|x xs]]];
    try apply keeps_raise.
  repeat first
    [ apply keeps_ret | apply keeps_lift | apply keeps_in_ignored
    | apply keeps_bars | apply keeps_set_state | apply I_bars_callback
    | apply keeps_if
    | apply keeps_bind; [|intros ?] ].
Qed.

Lemma keeps_update_bars items : forall kw, keeps I (update_bars h items kw).
Proof.
  induction items as [|[key v] items IH]; intros kw; simpl.
  - apply keeps_ret.
  - apply keeps_bind; [apply keeps_update_bar | intros kw'; apply IH].
Qed.

Lemma keeps_call kw : keeps I (call h kw).
Proof.
  unfold call.
  apply keeps_bind; [apply keeps_update_bars|]. intros kw'.
  apply keeps_bind; [|intros _; apply I_callback].
  intros s r s' H E. inversion E; subst. apply I_state. exact H.
Qed.
End KeepsCall.

Section HandlesMadeCalls.
Import Tqdm.

Lemma call_handles_made kw :
  keeps (fun lg : obj => handles_made (ext lg)) (call kw).
Proof.
  apply keeps_call.
  - intros lg st H. exact H.
  - apply keeps_bars_callback.
  - apply keeps_callback.
Qed.

(** After any calls on a new [TqdmProgressBarLogger], every bar object it
    holds is one the library made. *)
Lemma calls_in_a_row_handles_made kws :
  forall init_state bars leave ign print_msgs,
    handles_made
      (ext (snd (calls_in_a_row kws
                   (init init_state bars leave ign print_msgs)))).
Proof.
  intros init_state bars leave ign print_msgs.
  assert (H : keeps (fun lg : obj => handles_made (ext lg))
                    (calls_in_a_row kws)).
  { induction kws as [|kw kws IH]; simpl.
    - apply keeps_ret.
    - apply keeps_bind; [apply call_handles_made | intros _; exact IH]. }
  destruct (calls_in_a_row kws (init init_state bars leave ign print_msgs))
    as [r lg'] eqn:E.
  exact (H _ _ _ (handles_made_init _ _ _ _ _) E).
Qed.
End HandlesMadeCalls.

(** ** The documented value ['all_others'] of [ignored_bars] *)

Section AllOthers.
Import ProgressBarLogger Recorder.

(** C4. With [ignored_bars='all_others'], an update of a bar that is not in
    the registry puts the bar there and makes its callback, unless the bar's
    name happens to occur inside the text ['all_others']: [__call__] tests
    [bar in self.ignored_bars], which on a string is a substring test. The
    method [bar_is_ignored] answers that the bar is ignored on the same
    logger. *)
Theorem all_others_tracks_a_new_bar :
  forall (lg : logger (list event)) key v bar attr bars rd old,
    ignored_bars lg = IgnStr "all_others" ->
    PyStr.split_dunder key = [bar; attr] ->
    PyStr.contains bar "all_others" = false ->
    PyDict.get "bars" (state lg) = Some (VDict bars) ->
    PyDict.get bar bars = None ->
    new_bar bar = VDict rd ->
    PyDict.get attr rd = Some old ->
    call spy [(key, v)] lg
    = (Ok tt,
       mkLogger
         (PyDict.set "bars"
            (VDict (PyDict.set bar (VDict (PyDict.set attr v rd)) bars))
            (state lg))
         (IgnStr "all_others")
         (ext lg ++ [CbBars bar attr v old; CbState []]))
    /\ bar_is_ignored bar lg = (Ok true, lg).
Proof.
  intros lg key v bar attr bars rd old Hign Hs Hsub Hb Hnone Hr Ha.
  assert (Hi : py_in_ignored bar (ignored_bars lg) = Ok false).
  { rewrite Hign. unfold py_in_ignored. rewrite Hsub. reflexivity. }
  split.
  - rewrite (call_spy_tracked key v lg bar attr bars rd old Hs Hi Hb);
      [rewrite Hign; reflexivity | rewrite Hnone; exact Hr | exact Ha].
  - unfold bar_is_ignored, self_bars. rewrite Hign.
    change (String.eqb "all_others" "all_others") with true.
    unfold_monad. rewrite Hb. simpl. unfold PyDict.mem. rewrite Hnone.
    reflexivity.
Qed.

Lemma all_others_tracks_a_new_bar_witness :
  call spy [("foo__index", VInt 0)]
       (init None BarsNone (IgnStr "all_others") [])
  = (Ok tt,
     mkLogger [("bars",
                VDict [("foo",
                        VDict [("title", VStr "foo"); ("index", VInt 0);
                               ("total", VNone); ("message", VNone)])])]
              (IgnStr "all_others")
              [CbBars "foo" "index" (VInt 0) (VInt (-1)); CbState []])
  /\ bar_is_ignored "foo" (init None BarsNone (IgnStr "all_others") [])
     = (Ok true,
        init None BarsNone (IgnStr "all_others") ([] : list event)).
Proof.
  exact (all_others_tracks_a_new_bar
           (init None BarsNone (IgnStr "all_others") [])
           "foo__index" (VInt 0) "foo" "index" []
           [("title", VStr "foo"); ("index", VInt (-1));
            ("total", VNone); ("message", VNone)]
           (VInt (-1))
           eq_refl eq_refl eq_refl eq_refl eq_refl eq_refl eq_refl).
Defined.

End AllOthers.

(* ===================================================================== *)
(** * Further properties of the code *)
(* ===================================================================== *)

(** ** Composite keys *)

Section KeyCodec.
Import PyStr.

Lemma last_char_cons c c' s :
  last_char (String c (String c' s)) = last_char (String c' s).
Proof. reflexivity. Qed.

Lemma contains_dunder_step c c' s :
  contains "__" (String c (String c' s))
  = (is_underscore c && is_underscore c') || contains "__" (String c' s).
Proof.
  change (contains "__" (String c (String c' s)))
    with (if String.prefix "__" (String c (String c' s)) then true
          else contains "__" (String c' s)).
  rewrite prefix_dunder.
  destruct (is_underscore c && is_underscore c'); reflexivity.
Qed.

(** The first separator of [bar ++ "__" ++ rest] is the one written after
    [bar], when [bar] has no separator in it and no underscore at its end. *)
Lemma split_dunder_app bar rest :
  contains "__" bar = false ->
  last_char bar <> Some "_"%char ->
  split_dunder (bar ++ "__" ++ rest) = bar :: split_dunder rest.
Proof.
  induction bar as [|c|c c' s _ IH] using string_pair_ind; intros Hc Hl.
  - reflexivity.
  - change (String c EmptyString ++ "__" ++ rest)%string
      with (String c (String "_" (String "_" rest))).
    rewrite split_dunder_step.
    assert (E : is_underscore c = false).
    { destruct (is_underscore c) eqn:E; [|reflexivity].
      apply is_underscore_eq in E. subst. exfalso. apply Hl. reflexivity. }
    rewrite E. simpl andb. cbv iota.
    rewrite split_dunder_step. reflexivity.
  - change (String c (String c' s) ++ "__" ++ rest)%string
      with (String c (String c' (s ++ "__" ++ rest))).
    rewrite split_dunder_step.
    rewrite contains_dunder_step in Hc. apply orb_false_iff in Hc.
    destruct Hc as [Hcc Hc]. rewrite Hcc.
    change (String c' (s ++ "__" ++ rest))
      with (String c' s ++ "__" ++ rest)%string.
    rewrite IH; [reflexivity | exact Hc |].
    rewrite last_char_cons in Hl. exact Hl.
Qed.

(** X1. The key [iter_bar] writes for a bar is read back by [__call__] as
    that bar and attribute, when the bar's name has no ['__'] in it and does
    not end with an underscore, and the attribute has no ['__']. *)
Theorem composite_key_round_trip :
  forall bar attr,
    contains "__" bar = false ->
    last_char bar <> Some "_"%char ->
    contains "__" attr = false ->
    contains "__" (bar ++ "__" ++ attr) = true
    /\ split_dunder (bar ++ "__" ++ attr) = [bar; attr].
Proof.
  intros bar attr Hb Hl Ha.
  assert (Hs : split_dunder (bar ++ "__" ++ attr) = [bar; attr]).
  { rewrite (split_dunder_app _ _ Hb Hl), (split_dunder_without _ Ha).
    reflexivity. }
  split; [exact (split_dunder_two_contains _ _ _ Hs) | exact Hs].
Qed.

Lemma composite_key_round_trip_witness :
  contains "__" ("my_bar" ++ "__" ++ "index") = true
  /\ split_dunder ("my_bar" ++ "__" ++ "index") = ["my_bar"; "index"].
Proof.
  apply (composite_key_round_trip "my_bar" "index");
    [reflexivity | discriminate | reflexivity].
Defined.

End KeyCodec.

(** ** One turn of the loop of [__call__], every outcome *)

Section LoopTurn.
Import ProgressBarLogger.
Context {X : Type} (h : hooks X).

(** A turn of the loop ends in one of three ways. It leaves the logger as it
    was (the key is plain, the bar is ignored, or an exception comes before
    any change). It adds a new bar to the registry and raises [KeyError] for
    the attribute. Or it sets the attribute in the bar's record and runs the
    bar callback. *)
Lemma update_bar_cases key v kw (lg lg' : logger X) r :
  update_bar h key v kw lg = (r, lg') ->
  (lg' = lg
   /\ ((r = Ok kw /\ Batch.tracked (ignored_bars lg) (key, v) = false)
       \/ exists e, r = Raise e))
  \/ (exists bar attr bars,
         PyStr.split_dunder key = [bar; attr]
         /\ PyDict.get "bars" (state lg) = Some (VDict bars)
         /\ PyDict.get bar bars = None
         /\ r = Raise KeyError
         /\ lg' = mkLogger
                    (PyDict.set "bars"
                       (VDict (PyDict.set bar (new_bar bar) bars)) (state lg))
                    (ignored_bars lg) (ext lg))
  \/ (exists bar attr bars rd old r0,
         PyStr.split_dunder key = [bar; attr]
         /\ py_in_ignored bar (ignored_bars lg) = Ok false
         /\ PyDict.get "bars" (state lg) = Some (VDict bars)
         /\ match PyDict.get bar bars with
            | Some rec => rec
            | None => new_bar bar
            end = VDict rd
         /\ PyDict.get attr rd = Some old
         /\ bars_callback h bar attr v old
              (mkLogger
                 (PyDict.set "bars"
                    (VDict (PyDict.set bar (VDict (PyDict.set attr v rd)) bars))
                    (state lg))
                 (ignored_bars lg) (ext lg))
            = (r0, lg')
         /\ r = match r0 with
                | Ok _ => Ok (PyDict.pop key kw)
                | Raise e => Raise e
                end).
Proof.
  intros H.
  destruct (PyStr.contains "__" key) eqn:Ec.
  2:{ unfold update_bar in H. rewrite Ec in H. inversion H; subst.
      left. split; [reflexivity | left; split; [reflexivity|]].
      unfold Batch.tracked. simpl. rewrite Ec. reflexivity. }
  destruct (PyStr.split_dunder key) as [|bar [|attr [|x xs]]] eqn:Es;
    try (unfold update_bar in H; rewrite Ec, Es in H; inversion H; subst;
         left; split; [reflexivity | right; eexists; reflexivity]).
  destruct (py_in_ignored bar (ignored_bars lg)) as [[|]|e] eqn:Ei.
  - rewrite (update_bar_ignored h key v kw lg bar attr Es Ei) in H.
    inversion H; subst. left. split; [reflexivity | left; split; [reflexivity|]].
    unfold Batch.tracked. simpl. rewrite Ec, Es, Ei. reflexivity.
  - destruct (PyDict.get "bars" (state lg)) as [[| z | s | bars]|] eqn:Eb;
      try (unfold update_bar, in_ignored, self_bars in H;
           rewrite Ec, Es in H; unfold bind, lift, gets, modify, ret, raise in H;
           rewrite Ei, Eb in H; simpl in H;
           repeat (match type of H with
                   | context [if ?b then _ else _] => destruct b
                   end; simpl in H);
           try rewrite Ei in H; simpl in H; try rewrite Eb in H; simpl in H;
           inversion H; subst;
           left; split; [reflexivity | right; eexists; reflexivity]).
    { unfold update_bar, in_ignored, self_bars, set_state in H.
      rewrite Ec, Es in H. unfold bind, lift, gets, modify, ret, raise in H.
      rewrite Ei, Eb in H. cbn [PyOps.contains] in H.
      destruct (PyStr.contains bar s); cbn in H;
        try rewrite Ei in H; cbn in H; try rewrite Eb in H; cbn in H;
        inversion H; subst;
        (left; split; [reflexivity | right; eexists; reflexivity]). }
    destruct (match PyDict.get bar bars with
              | Some rec => rec
              | None => new_bar bar
              end) as [| z | s | rd] eqn:Er.
    1-3: destruct (PyDict.get bar bars) as [rec|] eqn:Eg;
         [subst rec | discriminate Er];
         unfold update_bar, in_ignored, self_bars in H;
         rewrite Ec, Es in H; unfold bind, lift, gets, modify, ret, raise in H;
         rewrite Ei, Eb in H; simpl in H; unfold PyDict.mem in H;
         rewrite Eg in H; simpl in H; rewrite Eb in H; simpl in H;
         rewrite Eg in H; simpl in H; inversion H; subst;
         (left; split; [reflexivity | right; eexists; reflexivity]).
    destruct (PyDict.get attr rd) as [old|] eqn:Ea.
    + rewrite (update_bar_tracked h key v kw lg bar attr bars rd old
                 Es Ei Eb Er Ea) in H.
      unfold bind, ret in H.
      destruct (bars_callback h bar attr v old _) as [r0 lg1] eqn:Ecb.
      right. right. exists bar, attr, bars, rd, old, r0.
      destruct r0; inversion H; subst; repeat split; assumption.
    + rewrite (update_bar_unknown_attr h key v kw lg bar attr bars rd
                 Es Ei Eb Er Ea) in H.
      inversion H; subst.
      destruct (PyDict.get bar bars) as [rec|] eqn:Eg.
      * left. split; [reflexivity | right; eexists; reflexivity].
      * right. left. exists bar, attr, bars. repeat split; assumption.
  - unfold update_bar, in_ignored in H. rewrite Ec, Es in H.
    unfold bind, lift, gets, modify, ret, raise in H. rewrite Ei in H. inversion H; subst.
    left. split; [reflexivity | right; eexists; reflexivity].
Qed.
End LoopTurn.

(** ** Malformed keys and plain batches *)

Section KeyShapes.
Import ProgressBarLogger.
Context {X : Type} (h : hooks X).


Lemma update_bars_plain items : forall kw (lg : logger X),
  Forall (fun kv => PyStr.contains "__" (fst kv) = false) items ->
  update_bars h items kw lg = (Ok kw, lg).
Proof.
  induction items as [|[key v] items IH]; intros kw lg Hall.
  - reflexivity.
  - inversion Hall as [|? ? Hk Hrest]; subst. simpl in Hk.
    simpl. unfold bind, update_bar. rewrite Hk. simpl.
    apply IH. exact Hrest.
Qed.

Lemma call_plain_batch (lg : logger X) (kw : dict) :
  Forall (fun kv => PyStr.contains "__" (fst kv) = false) kw ->
  call h kw lg
  = callback h kw (mkLogger (PyDict.update (state lg) kw)
                            (ignored_bars lg) (ext lg)).
Proof.
  intros Hall. unfold call.
  assert (Hs : Forall (fun kv => PyStr.contains "__" (fst kv) = false)
                      (sorted sort_key kw)).
  { apply Forall_forall. intros kv Hkv. apply In_sorted in Hkv.
    rewrite Forall_forall in Hall. exact (Hall kv Hkv). }
  rewrite (bind_ok _ _ _ _ _ (update_bars_plain (sorted sort_key kw) kw lg Hs)).
  reflexivity.
Qed.

(** X3. On a batch in which no key has the separator, the [__call__] of
    [ProgressBarLogger] does what the [__call__] of the base class does: the
    batch is merged into the state and handed whole to [callback]; no bar
    callback is made and nothing is raised before [callback], even when
    [ignored_bars] is [None]. *)
Theorem plain_batch_is_merged_and_passed_on :
  forall (lg : logger X) (kw : dict),
    Forall (fun kv => PyStr.contains "__" (fst kv) = false) kw ->
    call h kw lg = ProgressLogger.call (callback h) kw lg
    /\ call h kw lg
       = callback h kw (mkLogger (PyDict.update (state lg) kw)
                                 (ignored_bars lg) (ext lg)).
Proof.
  intros lg kw Hall. rewrite (call_plain_batch lg kw Hall).
  split; reflexivity.
Qed.
End KeyShapes.


Lemma plain_batch_is_merged_and_passed_on_witness :
  ProgressBarLogger.call Recorder.spy
    [("user", VStr "tom"); ("step", VInt 2)]
    (ProgressBarLogger.init None BarsNone IgnNone [])
  = (Ok tt,
     mkLogger [("bars", VDict []); ("user", VStr "tom"); ("step", VInt 2)]
              IgnNone
              [CbState [("user", VStr "tom"); ("step", VInt 2)]]).
Proof.
  refine (eq_trans
            (proj2 (plain_batch_is_merged_and_passed_on Recorder.spy
                      (ProgressBarLogger.init None BarsNone IgnNone [])
                      [("user", VStr "tom"); ("step", VInt 2)] _))
            eq_refl).
  repeat constructor.
Defined.

(** ** More on dictionaries *)

Section DictUpdate.
Context {A : Type}.
Implicit Types d other : list (string * A).

Lemma get_set k k' v d :
  PyDict.get k (PyDict.set k' v d)
  = if String.eqb k k' then Some v else PyDict.get k d.
Proof.
  destruct (String.eqb_spec k k') as [->|Hne].
  - apply get_set_same.
  - apply get_set_other. exact Hne.
Qed.

Lemma get_none_not_in k d :
  PyDict.get k d = None <-> forall v, ~ In (k, v) d.
Proof.
  induction d as [|[k' v'] d IH]; simpl.
  - split; [intros _ v [] | reflexivity].
  - destruct (String.eqb_spec k k') as [->|Hne].
    + split; [discriminate|]. intros H. exfalso. apply (H v'). left. reflexivity.
    + rewrite IH. split.
      * intros H v [E|Hin]; [inversion E; congruence | exact (H v Hin)].
      * intros H v Hin. apply (H v). right. exact Hin.
Qed.

Lemma get_some_in k v d : PyDict.get k d = Some v -> In (k, v) d.
Proof.
  induction d as [|[k' v'] d IH]; simpl; [discriminate|].
  destruct (String.eqb_spec k k') as [->|Hne].
  - intros E. inversion E; subst. left. reflexivity.
  - intros E. right. exact (IH E).
Qed.

Lemma update_cons k v d other :
  PyDict.update d ((k, v) :: other) = PyDict.update (PyDict.set k v d) other.
Proof. reflexivity. Qed.

(** [d.update(other)] leaves the keys that [other] has not as they were. *)
Lemma get_update_other k d other :
  PyDict.get k other = None ->
  PyDict.get k (PyDict.update d other) = PyDict.get k d.
Proof.
  revert d. induction other as [|[k' v'] other IH]; intros d H.
  - reflexivity.
  - rewrite update_cons. simpl in H.
    destruct (String.eqb_spec k k') as [->|Hne]; [discriminate|].
    rewrite IH by exact H. apply get_set_other. exact Hne.
Qed.

(** [d.update(other)] gives a key of [other] the value it has there (when
    [other] has the key once, or each time with that value). *)
Lemma get_update_in k v d other :
  In (k, v) other ->
  (forall v', In (k, v') other -> v' = v) ->
  PyDict.get k (PyDict.update d other) = Some v.
Proof.
  revert d. induction other as [|[k' v'] other IH]; intros d Hin Huniq.
  - contradiction.
  - rewrite update_cons. destruct (PyDict.get k other) eqn:Eo.
    + pose proof (get_some_in _ _ _ Eo) as Hw.
      assert (a = v) by (apply Huniq; right; exact Hw). subst a.
      apply IH; [exact Hw | intros u Hu; apply Huniq; right; exact Hu].
    + rewrite (get_update_other k (PyDict.set k' v' d) other Eo).
      destruct Hin as [E|Hin].
      * inversion E; subst. apply get_set_same.
      * exfalso. apply (proj1 (get_none_not_in k other) Eo v). exact Hin.
Qed.
End DictUpdate.

(** ** The registry through a call *)

Section RegistryFacts.
Import ProgressBarLogger Recorder Registry.

(** One turn of the loop under the recording subclass, by what it does to
    the state. *)
Lemma update_bar_spy_state key v kw (lg lg' : logger (list event)) r :
  update_bar spy key v kw lg = (r, lg') ->
  (state lg' = state lg
   /\ ((r = Ok kw /\ Batch.tracked (ignored_bars lg) (key, v) = false)
       \/ exists e, r = Raise e))
  \/ (exists bar attr bars,
         PyStr.split_dunder key = [bar; attr]
         /\ PyDict.get "bars" (state lg) = Some (VDict bars)
         /\ PyDict.get bar bars = None
         /\ r = Raise KeyError
         /\ state lg'
            = PyDict.set "bars" (VDict (PyDict.set bar (new_bar bar) bars))
                         (state lg))
  \/ (exists bar attr bars rd old,
         PyStr.split_dunder key = [bar; attr]
         /\ py_in_ignored bar (ignored_bars lg) = Ok false
         /\ PyDict.get "bars" (state lg) = Some (VDict bars)
         /\ match PyDict.get bar bars with
            | Some rec => rec
            | None => new_bar bar
            end = VDict rd
         /\ PyDict.get attr rd = Some old
         /\ r = Ok (PyDict.pop key kw)
         /\ state lg'
            = PyDict.set "bars"
                (VDict (PyDict.set bar (VDict (PyDict.set attr v rd)) bars))
                (state lg)).
Proof.
  intros H. apply update_bar_cases in H.
  destruct H as [(-> & Hr)|[(bar & attr & bars & Hs & Hb & Hg & -> & ->)
                           |(bar & attr & bars & rd & old & r0 & Hs & Hi & Hb
                             & Hr & Ha & Hcb & ->)]].
  - left. split; [reflexivity | exact Hr].
  - right. left. exists bar, attr, bars. repeat split; assumption.
  - right. right. exists bar, attr, bars, rd, old.
    inversion Hcb; subst. repeat split; assumption.
Qed.

Lemma update_bars_keeps (I : logger (list event) -> Prop) items :
  (forall key v, In (key, v) items ->
                 forall kw, keeps I (update_bar spy key v kw)) ->
  forall kw, keeps I (update_bars spy items kw).
Proof.
  induction items as [|[key v] items IH]; intros Hk kw.
  - apply keeps_ret.
  - simpl. apply keeps_bind.
    + apply Hk. left. reflexivity.
    + intros kw'. apply IH. intros k' v' Hin. apply Hk. right. exact Hin.
Qed.

(** What the loop returns is the batch with some items left out. *)
Lemma update_bars_incl items : forall kw kw' (lg lg' : logger (list event)),
  update_bars spy items kw lg = (Ok kw', lg') -> incl kw' kw.
Proof.
  induction items as [|[key v] items IH]; intros kw kw' lg lg' H.
  - inversion H; subst. apply incl_refl.
  - simpl in H. apply bind_inv in H.
    destruct H as [(kw1 & lg1 & H1 & H2)|(e & _ & He)]; [|discriminate].
    apply IH in H2. apply update_bar_spy_state in H1.
    assert (Hk : incl kw1 kw).
    { destruct H1 as [(_ & [(Hr & _)|(e & Hr)])
                     |[(? & ? & ? & _ & _ & _ & Hr & _)
                      |(? & ? & ? & ? & ? & _ & _ & _ & _ & _ & Hr & _)]];
        try discriminate; inversion Hr; subst.
      - apply incl_refl.
      - unfold PyDict.pop. intros it Hit. apply filter_In in Hit. tauto. }
    intros it Hit. apply Hk, H2, Hit.
Qed.

(** A property of the state that the loop turns keep, and that the merge of
    any part of the batch keeps, is kept by the call. *)
Lemma call_keeps (I : logger (list event) -> Prop) kw :
  (forall key v, In (key, v) kw ->
                 forall kw0, keeps I (update_bar spy key v kw0)) ->
  (forall lg kw' tr, I lg -> incl kw' kw ->
     I (mkLogger (PyDict.update (state lg) kw') (ignored_bars lg) tr)) ->
  keeps I (call spy kw).
Proof.
  intros Hturn Hmerge lg r lg' HI H. unfold call in H.
  apply bind_inv in H.
  destruct H as [(kw' & lg1 & H1 & H2)|(e & H1 & _)].
  - pose proof (update_bars_incl _ _ _ _ _ H1) as Hincl.
    assert (I1 : I lg1).
    { refine (update_bars_keeps I _ _ kw lg _ lg1 HI H1).
      intros key v Hin. apply Hturn. apply In_sorted in Hin. exact Hin. }
    unfold spy, record in H2. unfold bind, modify in H2. simpl in H2.
    inversion H2; subst. apply Hmerge; assumption.
  - refine (update_bars_keeps I _ _ kw lg _ lg' HI H1).
    intros key v Hin. apply Hturn. apply In_sorted in Hin. exact Hin.
Qed.

Lemma mem_set_bars {A : Type} (v : A) d : PyDict.mem "bars" (PyDict.set "bars" v d) = true.
Proof. unfold PyDict.mem. rewrite get_set_same. reflexivity. Qed.

Lemma mem_update {A : Type} k (d other : list (string * A)) :
  PyDict.mem k d = true -> PyDict.mem k (PyDict.update d other) = true.
Proof.
  revert d. induction other as [|[k' v'] other IH]; intros d H.
  - exact H.
  - rewrite update_cons. apply IH. unfold PyDict.mem in *.
    rewrite get_set. destruct (String.eqb k k'); [reflexivity | exact H].
Qed.

(** X4. The key ['bars'] never leaves the state: after a call, returned or
    raised, [self.bars] can still be read, whatever the batch was (a plain
    update named [bars] replaces the registry, it does not remove it). *)
Theorem bars_key_is_kept :
  forall (kw : dict) (lg lg' : logger (list event)) r,
    PyDict.mem "bars" (state lg) = true ->
    call spy kw lg = (r, lg') ->
    PyDict.mem "bars" (state lg') = true
    /\ exists registry, self_bars lg' = (Ok registry, lg').
Proof.
  intros kw lg lg' r Hm Hc.
  assert (H : PyDict.mem "bars" (state lg') = true).
  { refine (call_keeps (fun lg => PyDict.mem "bars" (state lg) = true) kw
              _ _ lg r lg' Hm Hc).
    - intros key v _ kw0 s r0 s' Hs Hu. apply update_bar_spy_state in Hu.
      destruct Hu as [(-> & _)|[(? & ? & ? & _ & _ & _ & _ & ->)
                               |(? & ? & ? & ? & ? & _ & _ & _ & _ & _ & _
                                 & ->)]];
        [exact Hs | apply mem_set_bars | apply mem_set_bars].
    - intros s kw' tr Hs _. simpl. apply mem_update. exact Hs. }
  split; [exact H|]. unfold self_bars, PyDict.mem in *.
  destruct (PyDict.get "bars" (state lg')) as [v|]; [|discriminate].
  exists v. reflexivity.
Qed.

Lemma bars_key_is_kept_witness :
  PyDict.mem "bars"
    (state (snd (call spy [("bars", VInt 5); ("job__index", VInt 0)]
                      (init None BarsNone (IgnSet []) [])))) = true
  /\ exists registry,
      self_bars (snd (call spy [("bars", VInt 5); ("job__index", VInt 0)]
                           (init None BarsNone (IgnSet []) [])))
      = (Ok registry,
         snd (call spy [("bars", VInt 5); ("job__index", VInt 0)]
                   (init None BarsNone (IgnSet []) []))).
Proof.
  exact (bars_key_is_kept
           [("bars", VInt 5); ("job__index", VInt 0)]
           (init None BarsNone (IgnSet []) []) _ _ eq_refl eq_refl).
Defined.

Lemma bar_record_set_bars (st : dict) ign (tr : list event) bars b :
  bar_record (mkLogger (PyDict.set "bars" (VDict bars) st) ign tr) b
  = PyDict.get b bars.
Proof. unfold bar_record. simpl. rewrite get_set_same. reflexivity. Qed.

Lemma bar_record_by_state (lg1 lg2 : logger (list event)) b :
  PyDict.get "bars" (state lg1) = PyDict.get "bars" (state lg2) ->
  bar_record lg1 b = bar_record lg2 b.
Proof. unfold bar_record. intros ->. reflexivity. Qed.

Lemma bar_record_of_state (lg : logger (list event)) st b :
  state lg = st ->
  bar_record lg b
  = match PyDict.get "bars" st with
    | Some (VDict bars) => PyDict.get b bars
    | _ => None
    end.
Proof. intros <-. reflexivity. Qed.

Lemma merge_keeps_registry (lg : logger (list event)) (kw kw' : dict)
      (tr : list event) b :
  PyDict.get "bars" kw = None -> incl kw' kw ->
  bar_record (mkLogger (PyDict.update (state lg) kw') (ignored_bars lg) tr) b
  = bar_record lg b.
Proof.
  intros Hn Hincl. apply bar_record_by_state. simpl.
  apply get_update_other. apply get_none_not_in. intros v Hin.
  apply (proj1 (get_none_not_in "bars" kw) Hn v). apply Hincl. exact Hin.
Qed.

(** X5. A bar that is in the registry stays in it through a call, returned or
    raised, whose batch has no plain key [bars]. *)
Theorem bars_are_never_removed :
  forall (b : string) (kw : dict) (lg lg' : logger (list event)) r,
    PyDict.get "bars" kw = None ->
    bar_record lg b <> None ->
    call spy kw lg = (r, lg') ->
    bar_record lg' b <> None.
Proof.
  intros b kw lg lg' r Hn Hb Hc.
  refine (call_keeps (fun lg => bar_record lg b <> None) kw _ _ lg r lg' Hb Hc).
  - intros key v _ kw0 s r0 s' Hs Hu. apply update_bar_spy_state in Hu.
    destruct Hu as [(E & _)|[(bar & attr & bars & _ & Eb & Eg & _ & E)
                            |(bar & attr & bars & rd & old & _ & _ & Eb & Er
                              & _ & _ & E)]].
    + rewrite (bar_record_by_state s' s b) by (rewrite E; reflexivity).
      exact Hs.
    + rewrite (bar_record_of_state s' _ b E), get_set_same, get_set.
      rewrite (bar_record_of_state s _ b eq_refl), Eb in Hs.
      destruct (String.eqb b bar); [discriminate | exact Hs].
    + rewrite (bar_record_of_state s' _ b E), get_set_same, get_set.
      rewrite (bar_record_of_state s _ b eq_refl), Eb in Hs.
      destruct (String.eqb b bar); [discriminate | exact Hs].
  - intros s kw' tr Hs Hincl. rewrite (merge_keeps_registry s kw kw' tr b Hn Hincl).
    exact Hs.
Qed.

Lemma bars_are_never_removed_witness :
  bar_record
    (snd (call spy [("job__colour", VInt 1); ("main__index", VInt 3)]
               (init None (BarsNames ["main"]) (IgnSet []) [])))
    "main"
  <> None.
Proof.
  refine (bars_are_never_removed "main"
            [("job__colour", VInt 1); ("main__index", VInt 3)]
            (init None (BarsNames ["main"]) (IgnSet []) []) _ _
            eq_refl _ eq_refl).
  discriminate.
Defined.







End RegistryFacts.

(** ** class ProgressLogger: [__call__] and [iter] *)

Section BaseClass.
Import Recorder.

(** X8. The [__call__] of the base class: the call returns, [callback] is
    made once with the batch, every field of the batch has the batch's value
    in the state afterwards, and every other field of the state is as it
    was. *)
Theorem base_call_merges_the_batch :
  forall (lg : logger (list event)) (kw : dict),
    ProgressLogger.call (callback spy) kw lg
    = (Ok tt,
       mkLogger (PyDict.update (state lg) kw) (ignored_bars lg)
                (ext lg ++ [CbState kw]))
    /\ (forall k v, In (k, v) kw -> (forall v', In (k, v') kw -> v' = v) ->
                    PyDict.get k (PyDict.update (state lg) kw) = Some v)
    /\ (forall k, PyDict.get k kw = None ->
                  PyDict.get k (PyDict.update (state lg) kw)
                  = PyDict.get k (state lg)).
Proof.
  intros lg kw. split; [reflexivity|]. split.
  - intros k v Hin Huniq. apply get_update_in; assumption.
  - intros k Hn. apply get_update_other. exact Hn.
Qed.

Lemma update_app {A : Type} (d l1 l2 : list (string * A)) :
  PyDict.update d (l1 ++ l2) = PyDict.update (PyDict.update d l1) l2.
Proof. unfold PyDict.update. apply fold_left_app. Qed.

(** The iteration of a logger whose [__call__] is the base one on the
    one-field batches of the iteration. *)
Lemma iter_run_general
      (self_call : dict -> M (logger (list event)) unit) :
  forall g,
    (forall field x lg, In field (map fst g) ->
        self_call [(field, x)] lg
        = ProgressLogger.call (callback spy) [(field, x)] lg) ->
    forall fuel lg,
      ProgressLogger.remaining g < fuel ->
      ProgressLogger.consume self_call fuel g lg
      = Some (Ok tt,
              mkLogger (PyDict.update (state lg) (ProgressLogger.iter_updates g))
                       (ignored_bars lg)
                       (ext lg ++ ProgressLogger.iter_events g)).
Proof.
  induction g as [|[field xs] g IHg]; intros Hcall fuel lg Hfuel.
  - destruct fuel as [|fuel]; [inversion Hfuel|].
    simpl. rewrite app_nil_r. destruct lg; reflexivity.
  - revert fuel lg Hfuel. induction xs as [|x xs IHxs]; intros fuel lg Hfuel.
    + destruct fuel as [|fuel]; [inversion Hfuel|].
      change (ProgressLogger.consume self_call (S fuel) ((field, []) :: g) lg)
        with (ProgressLogger.consume self_call (S fuel) g lg).
      apply IHg; [|exact Hfuel].
      intros f y s Hin. apply Hcall. right. exact Hin.
    + destruct fuel as [|fuel]; [inversion Hfuel|].
      cbn [ProgressLogger.consume ProgressLogger.next].
      rewrite (Hcall field x lg (or_introl eq_refl)).
      cbn [ProgressLogger.call callback spy record bind modify fst snd].
      rewrite IHxs.
      * cbn [state ignored_bars ext].
        unfold ProgressLogger.iter_updates, ProgressLogger.iter_events.
        cbn [flat_map map fst snd app].
        rewrite <- !app_assoc. cbn [app].
        rewrite <- update_app. reflexivity.
      * intros f y s Hin. apply Hcall. exact Hin.
      * unfold ProgressLogger.remaining in *.
        cbn [flat_map snd app length] in *. lia.
Qed.

(** X9. Iterating with [iter] on a logger of the base class: the iteration
    runs to the end, the elements come out in the order of the fields and of
    each iterable, each one after its one-field update of the state and the
    [callback] for it, and the state ends as the updates leave it. With no
    field, or only empty iterables, nothing is yielded and nothing changes. *)
Theorem iter_yields_each_element_after_its_update :
  forall (kw : list (string * list value)) (lg : logger (list event)),
    ProgressLogger.run (ProgressLogger.call (callback spy)) kw lg
    = Some (Ok tt,
            mkLogger (PyDict.update (state lg) (ProgressLogger.iter_updates kw))
                     (ignored_bars lg)
                     (ext lg ++ ProgressLogger.iter_events kw)).
Proof.
  intros kw lg. unfold ProgressLogger.run.
  apply iter_run_general; [reflexivity | lia].
Qed.

(** X10. The same iteration on a [ProgressBarLogger], whose [__call__] is
    the one [iter] calls: when no field name has the separator, the
    iteration does what it does on the base class, whatever [ignored_bars]
    is. *)
Theorem iter_on_a_bar_logger :
  forall (kw : list (string * list value)) (lg : logger (list event)),
    Forall (fun fx => PyStr.contains "__" (fst fx) = false) kw ->
    ProgressLogger.run (ProgressBarLogger.call spy) kw lg
    = Some (Ok tt,
            mkLogger (PyDict.update (state lg) (ProgressLogger.iter_updates kw))
                     (ignored_bars lg)
                     (ext lg ++ ProgressLogger.iter_events kw)).
Proof.
  intros kw lg Hall. unfold ProgressLogger.run.
  apply iter_run_general; [|lia].
  intros field x s Hin.
  rewrite (call_plain_batch spy s [(field, x)]); [reflexivity|].
  constructor; [|constructor]. simpl.
  rewrite Forall_forall in Hall. apply in_map_iff in Hin.
  destruct Hin as (fx & <- & Hfx). exact (Hall fx Hfx).
Qed.

Lemma iter_on_a_bar_logger_witness :
  ProgressLogger.run (ProgressBarLogger.call spy)
    [("user", [VStr "tom"; VStr "lea"]); ("step", []); ("file", [VInt 1])]
    (ProgressBarLogger.init None BarsNone IgnNone [])
  = Some (Ok tt,
          mkLogger [("bars", VDict []); ("user", VStr "lea");
                    ("file", VInt 1)]
                   IgnNone
                   [CbState [("user", VStr "tom")]; Yielded (VStr "tom");
                    CbState [("user", VStr "lea")]; Yielded (VStr "lea");
                    CbState [("file", VInt 1)]; Yielded (VInt 1)]).
Proof.
  refine (iter_on_a_bar_logger
            [("user", [VStr "tom"; VStr "lea"]); ("step", []);
             ("file", [VInt 1])]
            (ProgressBarLogger.init None BarsNone IgnNone []) _).
  repeat constructor.
Defined.
End BaseClass.

(** ** More on [iter_bar] *)

Section IterBarMore.
Import ProgressBarLogger Recorder Batch IterBar.

Lemma popitem_last {A : Type} (kw : list (string * A)) x :
  PyDict.popitem (kw ++ [x]) = Some (x, kw).
Proof.
  induction kw as [|y kw IH]; [reflexivity|].
  simpl. rewrite IH. reflexivity.
Qed.

(** X11. [iter_bar] works on its last keyword alone: the keywords before it
    are dropped without a word, and with no keyword at all [popitem] raises
    [KeyError]. *)
Theorem iter_bar_uses_its_last_keyword :
  forall (X : Type) (h : hooks X) (kw : list (string * iterable))
         (bar : string) (it : iterable) (lg : logger X),
    iter_bar h (kw ++ [(bar, it)]) lg = iter_bar h [(bar, it)] lg
    /\ iter_bar h [] lg = (Raise KeyError, lg).
Proof.
  intros X h kw bar it lg. split; [|reflexivity].
  unfold iter_bar. rewrite popitem_last. reflexivity.
Qed.

(** X12. A bar that is in [ignored_bars] (a name of the set, or a piece of
    the string): [iter_bar] hands back the iterable it was given, so the
    elements come out as they are, with no update, no callback and no change
    of the logger. *)
Theorem iter_bar_ignored_passes_through :
  forall (bar : string) (it : iterable) (lg : logger (list event)),
    py_in_ignored bar (ignored_bars lg) = Ok true ->
    iter_bar spy [(bar, it)] lg = (Ok (Original it), lg)
    /\ run bar it lg
       = Some (Ok tt,
               mkLogger (state lg) (ignored_bars lg)
                        (ext lg ++ map Yielded (elements it))).
Proof.
  intros bar it lg Hi.
  assert (E : iter_bar spy [(bar, it)] lg = (Ok (Original it), lg)).
  { unfold iter_bar. cbn [PyDict.popitem]. unfold in_ignored. unfold_monad.
    rewrite Hi. reflexivity. }
  split; [exact E|]. unfold run. rewrite E. reflexivity.
Qed.

Lemma iter_bar_ignored_passes_through_witness :
  run "job" (mkIterable [VStr "a"; VStr "b"] true)
      (init None BarsNone (IgnSet ["job"]) [])
  = Some (Ok tt,
          mkLogger [("bars", VDict [])] (IgnSet ["job"])
                   [Yielded (VStr "a"); Yielded (VStr "b")]).
Proof.
  exact (proj2 (iter_bar_ignored_passes_through
                  "job" (mkIterable [VStr "a"; VStr "b"] true)
                  (init None BarsNone (IgnSet ["job"]) []) eq_refl)).
Defined.

(** X13. Iterating over one or more elements with a bar that is tracked and
    named so that its keys read back (no ['__'] in the name, no underscore
    at its end): the iteration runs to the end. The observer sees the total
    update first, when the iterable has a length, and none when it has not;
    then for each element its index update before the element; then a last
    index update equal to the number of elements. The bar's index ends at
    that number. *)
Theorem iter_bar_reports_each_element :
  forall (lg : logger (list event)) names bar x xs known
         bars rd old_total old_index,
    ignored_bars lg = IgnSet names ->
    ~ In bar names ->
    PyStr.contains "__" bar = false ->
    PyStr.last_char bar <> Some "_"%char ->
    PyDict.get "bars" (state lg) = Some (VDict bars) ->
    match PyDict.get bar bars with Some r => r | None => new_bar bar end
    = VDict rd ->
    PyDict.get "total" rd = Some old_total ->
    PyDict.get "index" rd = Some old_index ->
    let n := Z.of_nat (length (x :: xs)) in
    exists lg',
      run bar (mkIterable (x :: xs) known) lg = Some (Ok tt, lg')
      /\ ext lg'
         = ext lg
           ++ (if known then [CbBars bar "total" (VInt n) old_total; CbState []]
               else [])
           ++ loop_events bar 0 old_index (x :: xs)
           ++ [CbBars bar "index" (VInt n) (VInt (n - 1)); CbState []]
      /\ Registry.bar_attr lg' bar "index" = Some (VInt n).
Proof.
  intros lg names bar x xs known bars rd old_total old_index
         Hign Hnot Hb1 Hb2 Hb Hr Ht Hidx n.
  assert (Hst : PyStr.split_dunder (bar ++ "__total") = [bar; "total"]).
  { change (bar ++ "__total")%string with (bar ++ "__" ++ "total")%string.
    rewrite (split_dunder_app _ _ Hb1 Hb2). reflexivity. }
  assert (Hsi : PyStr.split_dunder (bar ++ "__index") = [bar; "index"]).
  { change (bar ++ "__index")%string with (bar ++ "__" ++ "index")%string.
    rewrite (split_dunder_app _ _ Hb1 Hb2). reflexivity. }
  assert (Hattr : forall (s : logger (list event)) v tot,
             bar_fields s bar v tot ->
                                  Registry.bar_attr s bar "index" = Some v).
  { intros s v tot (bs & r0 & E1 & E2 & E3 & _).
    unfold Registry.bar_attr, Registry.bar_record. rewrite E1, E2. exact E3. }
  destruct known.
  - destruct (iter_bar_nonempty lg names bar x xs bars rd old_total old_index
                Hign Hnot Hst Hsi Hb Hr Ht Hidx)
      as (lg' & Hrun & Hext & Hf).
    exists lg'. split; [exact Hrun|]. split.
    + rewrite Hext. unfold iteration_events. reflexivity.
    + exact (Hattr _ _ _ Hf).
  - assert (Hi : py_in_ignored bar (ignored_bars lg) = Ok false).
    { rewrite Hign. simpl. f_equal.
      destruct (existsb (String.eqb bar) names) eqn:E; [|reflexivity].
      apply in_names in E. contradiction. }
    unfold run, iter_bar. cbn [PyDict.popitem]. unfold in_ignored.
    unfold_monad. rewrite Hi. cbn [has_len elements g_rest].
    assert (Hrec : PyDict.get bar bars = Some (VDict rd) \/ PyDict.get bar bars = None).
    { destruct (PyDict.get bar bars); [left; congruence | right; reflexivity]. }
    destruct Hrec as [Hrec|Hrec].
    + destruct (consume_loop bar Hsi (x :: xs) 0%Z None lg old_index old_total
                  (S (length (x :: xs))))
        as (lg' & Hc & _ & He & Hf);
        [lia | exact Hi | exists bars, rd; repeat split; assumption
        | discriminate |].
      exists lg'. split; [exact Hc|]. rewrite Z.add_0_l in He, Hf.
      split; [exact He | exact (Hattr _ _ _ Hf)].
    + (* the bar is not in the registry yet: the first index update makes it *)
      rewrite Hrec in Hr.
      cbn [consume]. unfold next. cbn [g_done g_rest g_count g_i g_bar].
      rewrite (call_spy_tracked _ (VInt 0) lg bar "index" bars rd old_index
                 Hsi Hi Hb); [|rewrite Hrec; exact Hr | exact Hidx].
      set (lg1 := snd (record (Yielded x) _)).
      destruct (consume_loop bar Hsi xs 1%Z (Some 0%Z) lg1 (VInt 0) old_total
                  (length (x :: xs)))
        as (lg' & Hc & _ & He & Hf).
      * simpl. lia.
      * exact Hi.
      * exists (PyDict.set bar (VDict (PyDict.set "index" (VInt 0) rd)) bars),
               (PyDict.set "index" (VInt 0) rd).
        subst lg1. simpl. rewrite !get_set_same. repeat split.
        rewrite get_set_other by discriminate. exact Ht.
      * intros _. reflexivity.
      * exists lg'. split; [exact Hc|].
        replace (1 + Z.of_nat (length xs))%Z with n in He, Hf
          by (subst n; change (length (x :: xs)) with (S (length xs));
              rewrite Nat2Z.inj_succ; lia).
        split; [|exact (Hattr _ _ _ Hf)].
        rewrite He. subst lg1. cbn [record modify snd ext].
        rewrite <- !app_assoc. cbn [loop_events app].
        do 4 f_equal. destruct xs as [|y ys]; [|reflexivity].
        subst n. reflexivity.
Qed.

Lemma iter_bar_reports_each_element_witness :
  exists lg',
    run "job" (mkIterable [VStr "a"; VStr "b"] false)
        (init None BarsNone (IgnSet []) [])
    = Some (Ok tt, lg')
    /\ ext lg'
       = [] ++ [] ++ loop_events "job" 0 (VInt (-1)) [VStr "a"; VStr "b"]
         ++ [CbBars "job" "index" (VInt 2) (VInt (2 - 1)); CbState []]
    /\ Registry.bar_attr lg' "job" "index" = Some (VInt 2).
Proof.
  refine (iter_bar_reports_each_element
            (init None BarsNone (IgnSet []) []) [] "job"
            (VStr "a") [VStr "b"] false []
            [("title", VStr "job"); ("index", VInt (-1));
             ("total", VNone); ("message", VNone)]
            VNone (VInt (-1))
            eq_refl _ eq_refl _ eq_refl eq_refl eq_refl eq_refl).
  - intros [].
  - discriminate.
Defined.
End IterBarMore.

(** ** More on the tqdm backend *)

Section TqdmMore.
Import Tqdm.

Ltac run_methods :=
  unfold bars_callback, has_tqdm_bar, new_tqdm_bar, close_tqdm_bar, the_bar,
    tqdm_new, set_tqdm_bar, emit, with_ext, ProgressBarLogger.self_bars;
  unfold_monad; simpl.






(** X16. An update of [total], [title] or any attribute other than [index]
    and [message], on a bar whose object is held, sends nothing to the
    library: the object keeps the total and the title it was made with. *)
Theorem other_updates_do_not_reach_a_held_bar :
  forall (lg : obj) (bar attr : string) (v old : value) (handle : nat),
    PyDict.get bar (tqdm_bars (ext lg)) = Some (Some handle) ->
    attr <> "index" ->
    attr <> "message" ->
    bars_callback bar attr v old lg = (Ok tt, lg).
Proof.
  intros lg bar attr v old handle Eb Hi Hm.
  apply String.eqb_neq in Hi. apply String.eqb_neq in Hm.
  unfold bars_callback, has_tqdm_bar. unfold_monad.
  cbn beta iota. rewrite Eb. cbn beta iota. rewrite Hi, Hm. reflexivity.
Qed.

Lemma other_updates_do_not_reach_a_held_bar_witness :
  bars_callback "main" "total" (VInt 10) (VInt 3)
    (mkLogger [("bars", VDict [])] (IgnSet [])
              (mkTqdm [("main", Some 0)] false true 1
                      [TqdmNew 0 (VInt 3) (VStr "main") VNone false]))
  = (Ok tt,
     mkLogger [("bars", VDict [])] (IgnSet [])
              (mkTqdm [("main", Some 0)] false true 1
                      [TqdmNew 0 (VInt 3) (VStr "main") VNone false])).
Proof.
  apply (other_updates_do_not_reach_a_held_bar _ "main" "total" _ _ 0);
    [reflexivity | discriminate | discriminate].
Defined.

(** X17. [close_tqdm_bar] needs a held bar object: it raises [KeyError] for
    a bar the backend has never seen and [AttributeError] for a bar whose
    object is closed, with no call on the library; so closing the same bar
    twice raises [AttributeError] at the second close. *)
Theorem close_needs_a_held_bar :
  forall (lg : obj) (bar : string),
    (PyDict.get bar (tqdm_bars (ext lg)) = None ->
     close_tqdm_bar bar lg = (Raise KeyError, lg))
    /\ (PyDict.get bar (tqdm_bars (ext lg)) = Some None ->
        close_tqdm_bar bar lg = (Raise AttributeError, lg))
    /\ (forall handle,
           PyDict.get bar (tqdm_bars (ext lg)) = Some (Some handle) ->
           exists lg1,
             close_tqdm_bar bar lg = (Ok tt, lg1)
             /\ calls (ext lg1) = calls (ext lg) ++ [TqdmClose handle]
             /\ PyDict.get bar (tqdm_bars (ext lg1)) = Some None
             /\ close_tqdm_bar bar lg1 = (Raise AttributeError, lg1)).
Proof.
  intros lg bar. split; [|split].
  - intros E. run_methods. rewrite E. reflexivity.
  - intros E. run_methods. rewrite E. reflexivity.
  - intros handle E. eexists. split.
    + run_methods. rewrite E. reflexivity.
    + simpl. split; [reflexivity|].
      split; [apply get_set_same|].
      run_methods. rewrite get_set_same. reflexivity.
Qed.

(** X18. A batch of plain keys given to a [TqdmProgressBarLogger]: it is
    merged into the state, and its [message] is written through the library
    when [print_messages] is on and the message is truthy (not [None],
    zero, an empty string or an empty dictionary). No other call goes to the
    library. *)
Theorem message_is_printed_when_asked :
  forall (lg : obj) (kw : dict),
    Forall (fun kv => PyStr.contains "__" (fst kv) = false) kw ->
    let t := ext lg in
    call kw lg
    = (Ok tt,
       mkLogger (PyDict.update (state lg) kw) (ignored_bars lg)
         (mkTqdm (tqdm_bars t) (leave_bars t) (print_messages t) (made t)
            (calls t
               ++ match PyDict.get "message" kw with
                  | Some msg =>
                      if print_messages t && PyOps.truthy msg
                      then [TqdmWrite msg] else []
                  | None => []
                  end))).
Proof.
  intros lg kw Hall t. subst t. unfold call.
  rewrite (call_plain_batch tqdm_hooks lg kw Hall).
  unfold tqdm_hooks, callback, emit, with_ext. unfold_monad. simpl.
  destruct lg as [st ign [tb lv pm md cs]]. simpl.
  destruct pm; simpl.
  - destruct (PyDict.get "message" kw) as [msg|]; simpl.
    + destruct (PyOps.truthy msg); simpl; rewrite ?app_nil_r; reflexivity.
    + rewrite app_nil_r. reflexivity.
  - destruct (PyDict.get "message" kw) as [msg|]; simpl;
      rewrite app_nil_r; reflexivity.
Qed.

Lemma message_is_printed_when_asked_witness :
  call [("message", VStr "done"); ("step", VInt 2)]
       (init None BarsNone false (IgnSet []) true)
  = (Ok tt,
     mkLogger [("bars", VDict []); ("message", VStr "done"); ("step", VInt 2)]
              (IgnSet [])
              (mkTqdm [] false true 0 [TqdmWrite (VStr "done")])).
Proof.
  refine (eq_trans
            (message_is_printed_when_asked
               (init None BarsNone false (IgnSet []) true)
               [("message", VStr "done"); ("step", VInt 2)] _)
            eq_refl).
  repeat constructor.
Defined.
End TqdmMore.

(** ** The calls on the library follow its protocol *)

Section Protocol.
Import Tqdm TqdmProtocol.

Local Abbreviation ok := (fun lg : obj => coherent (ext lg)).

Lemma scan_app cs c : scan (cs ++ [c]) = step (scan cs) c.
Proof. unfold scan. rewrite fold_left_app. reflexivity. Qed.

Lemma mem_nat_In n l : mem_nat n l = true <-> In n l.
Proof.
  unfold mem_nat. rewrite existsb_exists. split.
  - intros (x & Hx & E). apply Nat.eqb_eq in E. subst. exact Hx.
  - intros H. exists n. split; [exact H | apply Nat.eqb_refl].
Qed.

Lemma mem_nat_not_In n l : (forall x, In x l -> x < n) -> mem_nat n l = false.
Proof.
  intros H. destruct (mem_nat n l) eqn:E; [|reflexivity].
  apply mem_nat_In in E. apply H in E. lia.
Qed.

(** The reading of a log refuses an advance after the close, a second close,
    and a call on a bar object that was never made. *)
Example scan_refuses_misuse :
  scan [TqdmNew 0 VNone (VStr "job") VNone false; TqdmClose 0;
        TqdmUpdate 0 (VInt 1)] = None
  /\ scan [TqdmNew 0 VNone (VStr "job") VNone false; TqdmClose 0;
           TqdmClose 0] = None
  /\ scan [TqdmSetPostfix 0 VNone] = None
  /\ scan [TqdmNew 0 VNone (VStr "job") VNone false; TqdmUpdate 0 (VInt 1);
           TqdmClose 0] = Some ([], [0]).
Proof. repeat split. Qed.

(** Closing the bar object held for [bar]. *)
Lemma coherent_close t bar handle :
  coherent t ->
  PyDict.get bar (tqdm_bars t) = Some (Some handle) ->
  coherent (mkTqdm (PyDict.set bar None (tqdm_bars t)) (leave_bars t)
                   (print_messages t) (made t)
                   (calls t ++ [TqdmClose handle])).
Proof.
  intros (opened & closed & Hs & Hiff & Hinj & Hlt) Eb.
  assert (Hop : In handle opened) by (apply Hiff; exists bar; exact Eb).
  exists (filter (fun x => negb (Nat.eqb handle x)) opened), (handle :: closed).
  cbn [calls tqdm_bars made]. split; [|split; [|split]].
  - rewrite scan_app, Hs. cbn [step].
    rewrite (proj2 (mem_nat_In _ _) Hop). reflexivity.
  - intros hd. rewrite filter_In. unfold held. cbn [tqdm_bars]. split.
    + intros [Hin Hne]. apply Hiff in Hin. destruct Hin as [b Hb].
      exists b. rewrite get_set.
      destruct (String.eqb_spec b bar) as [->|_]; [|exact Hb].
      rewrite Eb in Hb. inversion Hb; subst.
      rewrite Nat.eqb_refl in Hne. discriminate.
    + intros [b Hb]. rewrite get_set in Hb.
      destruct (String.eqb b bar) eqn:Hne; [discriminate|].
      apply String.eqb_neq in Hne.
      split; [apply Hiff; exists b; exact Hb|].
      destruct (Nat.eqb_spec handle hd) as [->|_]; [|reflexivity].
      exfalso. apply Hne. exact (Hinj b bar hd Hb Eb).
  - intros b1 b2 hd H1 H2. rewrite get_set in H1, H2.
    destruct (String.eqb b1 bar); [discriminate|].
    destruct (String.eqb b2 bar); [discriminate|].
    exact (Hinj b1 b2 hd H1 H2).
  - intros hd [Hin|[<-|Hin]].
    + apply filter_In in Hin. apply Hlt. left. exact (proj1 Hin).
    + apply Hlt. left. exact Hop.
    + apply Hlt. right. exact Hin.
Qed.

(** Making a bar object for [bar], which holds none. *)
Lemma coherent_make t bar total desc postfix :
  coherent t ->
  (forall handle, PyDict.get bar (tqdm_bars t) <> Some (Some handle)) ->
  coherent (mkTqdm (PyDict.set bar (Some (made t)) (tqdm_bars t))
                   (leave_bars t) (print_messages t) (S (made t))
                   (calls t ++ [TqdmNew (made t) total desc postfix
                                        (leave_bars t)])).
Proof.
  intros (opened & closed & Hs & Hiff & Hinj & Hlt) Hun.
  exists (made t :: opened), closed.
  cbn [calls tqdm_bars made]. split; [|split; [|split]].
  - rewrite scan_app, Hs. cbn [step].
    rewrite (mem_nat_not_In (made t) opened)
      by (intros x Hx; apply Hlt; left; exact Hx).
    rewrite (mem_nat_not_In (made t) closed)
      by (intros x Hx; apply Hlt; right; exact Hx).
    reflexivity.
  - intros hd. unfold held. cbn [tqdm_bars]. split.
    + intros [<-|Hin].
      * exists bar. apply get_set_same.
      * apply Hiff in Hin. destruct Hin as [b Hb]. exists b.
        rewrite get_set.
        destruct (String.eqb_spec b bar) as [->|_]; [|exact Hb].
        exfalso. exact (Hun hd Hb).
    + intros [b Hb]. rewrite get_set in Hb.
      destruct (String.eqb b bar).
      * inversion Hb. left. reflexivity.
      * right. apply Hiff. exists b. exact Hb.
  - assert (Hfresh : forall b, PyDict.get b (tqdm_bars t)
                               <> Some (Some (made t))).
    { intros b Hb.
      assert (Hin : In (made t) opened) by (apply Hiff; exists b; exact Hb).
      assert (made t < made t) by (apply Hlt; left; exact Hin). lia. }
    intros b1 b2 hd H1 H2. rewrite get_set in H1, H2.
    destruct (String.eqb b1 bar) eqn:N1; destruct (String.eqb b2 bar) eqn:N2.
    + apply String.eqb_eq in N1, N2. congruence.
    + inversion H1; subst. exfalso. exact (Hfresh b2 H2).
    + inversion H2; subst. exfalso. exact (Hfresh b1 H1).
    + exact (Hinj b1 b2 hd H1 H2).
  - intros hd [[<-|Hin]|Hin].
    + lia.
    + apply Nat.lt_lt_succ_r. apply Hlt. left. exact Hin.
    + apply Nat.lt_lt_succ_r. apply Hlt. right. exact Hin.
Qed.

(** A call that advances or relabels a held bar object, or writes a
    message. *)
Lemma coherent_touch t c :
  coherent t ->
  match c with
  | TqdmUpdate handle _ | TqdmSetPostfix handle _ => held t handle
  | TqdmWrite _ => True
  | _ => False
  end ->
  coherent (mkTqdm (tqdm_bars t) (leave_bars t) (print_messages t) (made t)
                   (calls t ++ [c])).
Proof.
  intros (opened & closed & Hs & Hiff & Hinj & Hlt) Hc.
  exists opened, closed. cbn [calls tqdm_bars made].
  split; [|split; [|split]]; try assumption.
  rewrite scan_app, Hs.
  destruct c as [hd ? ? ? ?|hd ?|hd|hd ?|?]; try contradiction; cbn [step];
    try rewrite (proj2 (mem_nat_In _ _) (proj2 (Hiff hd) Hc)); reflexivity.
Qed.

Lemma coherent_init init_state bars leave ign print_msgs :
  coherent (ext (init init_state bars leave ign print_msgs)).
Proof.
  assert (Hnone : forall b hd,
             PyDict.get b (map (fun kv : string * value => (fst kv, @None nat))
                               (ProgressBarLogger.init_bars bars))
             <> Some (Some hd)).
  { intros b hd.
    induction (ProgressBarLogger.init_bars bars) as [|[k v] d IH]; simpl.
    - discriminate.
    - destruct (String.eqb b k); [discriminate | exact IH]. }
  exists [], []. unfold init. cbn [ext calls tqdm_bars made].
  split; [reflexivity|]. split; [|split].
  - intros hd. split; [intros [] | intros [b Hb]; exact (Hnone b hd Hb)].
  - intros b1 b2 hd H1 _. exfalso. exact (Hnone b1 hd H1).
  - intros hd [[]|[]].
Qed.

(** A method that returns or raises after a first step [m] which keeps [P]:
    what holds whenever [P] does, and after the rest from [P], holds after
    the whole. *)
Lemma bind_post {S A B : Type} (P Q : S -> Prop) (m : M S A) (k : A -> M S B) :
  keeps P m ->
  (forall s, P s -> Q s) ->
  (forall a s r s', P s -> k a s = (r, s') -> Q s') ->
  forall s r s', P s -> bind m k s = (r, s') -> Q s'.
Proof.
  intros Hm HPQ Hk s r s' H E. apply bind_inv in E.
  destruct E as [(a & s1 & E1 & E2)|(e & E1 & _)].
  - exact (Hk a s1 r s' (Hm _ _ _ H E1) E2).
  - apply HPQ. exact (Hm _ _ _ H E1).
Qed.

Lemma ok_has_tqdm_bar (I : obj -> Prop) bar : keeps I (has_tqdm_bar bar).
Proof. apply keeps_bind; [apply keeps_gets | intros; apply keeps_ret]. Qed.

Lemma ok_self_bars (I : obj -> Prop) : keeps I ProgressBarLogger.self_bars.
Proof.
  intros s r s' H E. unfold ProgressBarLogger.self_bars in E.
  destruct (PyDict.get "bars" (state s)); inversion E; subst; exact H.
Qed.

Lemma ok_close_tqdm_bar bar : keeps ok (close_tqdm_bar bar).
Proof.
  intros s r s' H E. unfold close_tqdm_bar, emit, set_tqdm_bar, with_ext in E.
  unfold bind, gets, modify, raise in E.
  destruct (PyDict.get bar (tqdm_bars (ext s))) as [[hd|]|] eqn:Eb;
    inversion E; subst; try exact H.
  cbn [ext tqdm_bars leave_bars print_messages made calls].
  exact (coherent_close (ext s) bar hd H Eb).
Qed.

(** After [close_tqdm_bar], whether it returned or raised, no bar object is
    held for the bar. *)
Lemma close_tqdm_bar_unheld bar s r s' :
  close_tqdm_bar bar s = (r, s') ->
  forall hd, PyDict.get bar (tqdm_bars (ext s')) <> Some (Some hd).
Proof.
  intros E. unfold close_tqdm_bar, emit, set_tqdm_bar, with_ext in E.
  unfold bind, gets, modify, raise in E.
  destruct (PyDict.get bar (tqdm_bars (ext s))) as [[hd0|]|] eqn:Eb;
    inversion E; subst; intros hd.
  - cbn [ext tqdm_bars]. rewrite get_set_same. discriminate.
  - rewrite Eb. discriminate.
  - rewrite Eb. discriminate.
Qed.

Lemma ok_new_tqdm_bar bar : keeps ok (new_tqdm_bar bar).
Proof.
  set (P := fun lg : obj =>
              coherent (ext lg)
              /\ forall hd,
                   PyDict.get bar (tqdm_bars (ext lg)) <> Some (Some hd)).
  assert (HPQ : forall s : obj, P s -> ok s) by (intros s [H _]; exact H).
  intros s r s' H E. unfold new_tqdm_bar in E.
  apply bind_inv in E.
  destruct E as [(live & s1 & E1 & E)|(e & E1 & _)];
    [|exact (ok_has_tqdm_bar ok bar _ _ _ H E1)].
  assert (Hs1 : s1 = s /\ (live = false ->
                           forall hd, PyDict.get bar (tqdm_bars (ext s))
                                      <> Some (Some hd))).
  { unfold has_tqdm_bar, bind, gets, ret in E1. inversion E1; subst.
    split; [reflexivity|].
    destruct (PyDict.get bar (tqdm_bars (ext s1))) as [[hd0|]|];
      intros; discriminate. }
  destruct Hs1 as [-> Hlive]. clear E1.
  apply bind_inv in E.
  destruct E as [(u & s2 & E2 & E)|(e & E2 & _)].
  - assert (HP : P s2).
    { destruct live.
      - split; [exact (ok_close_tqdm_bar bar _ _ _ H E2)|].
        exact (close_tqdm_bar_unheld bar _ _ _ E2).
      - inversion E2; subst. split; [exact H | exact (Hlive eq_refl)]. }
    clear E2 H Hlive. revert s2 r s' HP E.
    apply (bind_post P ok); [apply ok_self_bars | exact HPQ |]. intros bars.
    apply (bind_post P ok); [apply keeps_lift | exact HPQ |]. intros infos.
    apply (bind_post P ok); [apply keeps_lift | exact HPQ |]. intros total.
    apply (bind_post P ok); [apply keeps_lift | exact HPQ |]. intros desc.
    apply (bind_post P ok); [apply keeps_lift | exact HPQ |]. intros postfix.
    intros s2 r s' [Hc Hun] E. inversion E; subst.
    cbn [ext tqdm_bars leave_bars print_messages made calls].
    exact (coherent_make (ext s2) bar total desc postfix Hc Hun).
  - destruct live.
    + exact (ok_close_tqdm_bar bar _ _ _ H E2).
    + inversion E2.
Qed.

(** A call on the bar object of [bar], after one more operation that may
    raise. *)
Lemma ok_on_the_bar bar (k : nat -> M obj unit) :
  (forall hd s r s',
      coherent (ext s) ->
      PyDict.get bar (tqdm_bars (ext s)) = Some (Some hd) ->
      k hd s = (r, s') -> coherent (ext s')) ->
  keeps ok (bind (the_bar bar) k).
Proof.
  intros Hk s r s' H E. apply bind_inv in E.
  destruct E as [(hd & s1 & E1 & E)|(e & E1 & _)];
    unfold the_bar, bind, gets, raise, ret in E1;
    destruct (PyDict.get bar (tqdm_bars (ext s))) as [[hd0|]|] eqn:Eb;
    inversion E1; subst; try exact H.
  exact (Hk _ _ _ _ H Eb E).
Qed.

Lemma ok_emit_on bar hd c (s : obj) r s' :
  coherent (ext s) ->
  PyDict.get bar (tqdm_bars (ext s)) = Some (Some hd) ->
  (exists v, c = TqdmUpdate hd v \/ c = TqdmSetPostfix hd v) ->
  emit c s = (r, s') -> coherent (ext s').
Proof.
  intros H Eb (v & Hc) E. inversion E; subst.
  cbn [ext tqdm_bars leave_bars print_messages made calls].
  apply coherent_touch; [exact H|].
  destruct Hc as [->| ->]; exists bar; exact Eb.
Qed.

Lemma ok_lift_emit_on bar hd (x : res value) (c : value -> tqdm_call)
      (s : obj) r s' :
  coherent (ext s) ->
  PyDict.get bar (tqdm_bars (ext s)) = Some (Some hd) ->
  (forall v, c v = TqdmUpdate hd v) ->
  bind (lift x) (fun v => emit (c v)) s = (r, s') -> coherent (ext s').
Proof.
  intros H Eb Hc E. destruct x as [v|e]; unfold bind, lift in E.
  - apply (ok_emit_on bar hd (c v) s r s' H Eb); [|exact E].
    exists v. left. apply Hc.
  - inversion E; subst. exact H.
Qed.

Lemma ok_bars_callback bar attr v old :
  keeps ok (bars_callback bar attr v old).
Proof.
  unfold bars_callback.
  apply keeps_bind; [apply ok_has_tqdm_bar|]. intros live.
  apply keeps_bind;
    [apply keeps_if; [apply keeps_ret | apply ok_new_tqdm_bar]|].
  intros _.
  apply keeps_if; [|apply keeps_if; [|apply keeps_ret]].
  - apply keeps_bind; [apply keeps_lift|]. intros forward.
    apply keeps_if.
    + apply keeps_bind; [apply ok_self_bars|]. intros bars.
      apply keeps_bind; [apply keeps_lift|]. intros infos.
      apply keeps_bind; [apply keeps_lift|]. intros total.
      apply keeps_bind;
        [apply keeps_if; [apply keeps_lift | apply keeps_ret]|].
      intros complete.
      apply keeps_if; [apply ok_close_tqdm_bar|].
      apply ok_on_the_bar. intros hd s r s' H Eb E.
      exact (ok_lift_emit_on bar hd _ (fun d => TqdmUpdate hd d) s r s' H Eb
               (fun _ => eq_refl) E).
    + apply keeps_bind; [apply ok_new_tqdm_bar|]. intros _.
      apply ok_on_the_bar. intros hd s r s' H Eb E.
      exact (ok_lift_emit_on bar hd _ (fun d => TqdmUpdate hd d) s r s' H Eb
               (fun _ => eq_refl) E).
  - apply ok_on_the_bar. intros hd s r s' H Eb E.
    apply (ok_emit_on bar hd (TqdmSetPostfix hd v) s r s' H Eb); [|exact E].
    exists v. right. reflexivity.
Qed.

Lemma ok_callback kw : keeps ok (callback kw).
Proof.
  unfold callback.
  apply keeps_bind; [apply keeps_gets|]. intros print.
  apply keeps_if; [|apply keeps_ret].
  destruct (PyDict.get "message" kw) as [msg|]; [|apply keeps_ret].
  apply keeps_if; [|apply keeps_ret].
  intros s r s' H E. inversion E; subst.
  cbn [ext tqdm_bars leave_bars print_messages made calls].
  apply coherent_touch; [exact H | exact Logic.I].
Qed.

Lemma ok_call kw : keeps ok (call kw).
Proof.
  apply keeps_call.
  - intros lg st H. exact H.
  - apply ok_bars_callback.
  - apply ok_callback.
Qed.

Lemma ok_calls_in_a_row kws : keeps ok (calls_in_a_row kws).
Proof.
  induction kws as [|kw kws IH]; simpl.
  - apply keeps_ret.
  - apply keeps_bind; [apply ok_call | intros _; exact IH].
Qed.

(** X19. After any calls on a new [TqdmProgressBarLogger], whether they
    returned or one of them raised, the calls the library has received follow
    its protocol: a bar object is advanced, relabelled and closed only
    between its making and its closing, and is closed at most once. The bar
    objects left open are those the logger holds, each for one bar: none is
    dropped without being closed. *)
Theorem calls_follow_the_library_protocol :
  forall (kws : list dict) init_state bars leave ign print_msgs,
    coherent
      (ext (snd (calls_in_a_row kws
                   (init init_state bars leave ign print_msgs)))).
Proof.
  intros kws init_state bars leave ign print_msgs.
  destruct (calls_in_a_row kws (init init_state bars leave ign print_msgs))
    as [r lg'] eqn:E.
  exact (ok_calls_in_a_row kws _ _ _ (coherent_init _ _ _ _ _) E).
Qed.
End Protocol.

(** ** Construction *)

Section Construction.
Import ProgressBarLogger.

Lemma get_declared_bars names : forall (acc : dict) b,
  PyDict.get b (fold_left (fun acc b => PyDict.set b (new_bar b) acc)
                          names acc)
  = if existsb (String.eqb b) names then Some (new_bar b)
    else PyDict.get b acc.
Proof.
  induction names as [|a names IH]; intros acc b; simpl.
  - reflexivity.
  - rewrite IH, get_set.
    destruct (String.eqb_spec b a) as [->|_]; simpl.
    + destruct (existsb (String.eqb a) names); reflexivity.
    + reflexivity.
Qed.

Lemma get_empty_slots {A : Type} (d : list (string * A)) b :
  PyDict.get b (map (fun kv => (fst kv, @None nat)) d)
  = if PyDict.mem b d then Some None else None.
Proof.
  unfold PyDict.mem. induction d as [|[k v] d IH]; simpl.
  - reflexivity.
  - destruct (String.eqb b k); [reflexivity | exact IH].
Qed.

(** X20. A [ProgressBarLogger] made with a list of bar names has exactly
    these bars in its registry, each with its name as title, index -1, no
    total and no message, whatever [init_state] holds under ['bars']; and
    [init_state] gives the other keys of the state. *)
Theorem init_registers_the_named_bars :
  forall {X : Type} (init_state : option dict) (names : list string)
         (ign : ignored) (x : X) (b : string),
    Registry.bar_record (init init_state (BarsNames names) ign x) b
    = (if existsb (String.eqb b) names then Some (new_bar b) else None)
    /\ (forall k, k <> "bars" ->
          PyDict.get k (state (init init_state (BarsNames names) ign x))
          = PyDict.get k (state (ProgressLogger.init init_state ign x))).
Proof.
  intros X init_state names ign x b. split.
  - unfold Registry.bar_record, init. cbn [state].
    rewrite get_set_same. cbn [init_bars].
    rewrite get_declared_bars. reflexivity.
  - intros k Hk. unfold init, ProgressLogger.init. cbn [state].
    apply get_set_other. exact Hk.
Qed.

(** X21. A new [TqdmProgressBarLogger] has made no call on the library and
    holds no bar object: it has an empty slot for each bar of its registry
    and for no other bar. *)
Theorem tqdm_init_holds_no_bar_object :
  forall (init_state : option dict) (bars : bars_arg) (leave : bool)
         (ign : ignored) (print_msgs : bool) (b : string),
    let lg := Tqdm.init init_state bars leave ign print_msgs in
    calls (ext lg) = []
    /\ PyDict.get b (tqdm_bars (ext lg))
       = (match Registry.bar_record lg b with
          | Some _ => Some None
          | None => None
          end)
    /\ Tqdm.has_tqdm_bar b lg = (Ok false, lg).
Proof.
  intros init_state bars leave ign print_msgs b lg. subst lg.
  assert (Hslot : PyDict.get b (tqdm_bars (ext (Tqdm.init init_state bars
                                                  leave ign print_msgs)))
                  = if PyDict.mem b (init_bars bars) then Some None
                    else None).
  { unfold Tqdm.init. cbn [ext tqdm_bars]. apply get_empty_slots. }
  split; [reflexivity|]. split.
  - rewrite Hslot. unfold Registry.bar_record, Tqdm.init, init. cbn [state].
    rewrite get_set_same. unfold PyDict.mem.
    destruct (PyDict.get b (init_bars bars)); reflexivity.
  - unfold Tqdm.has_tqdm_bar, bind, gets, ret. rewrite Hslot.
    destruct (PyDict.mem b (init_bars bars)); reflexivity.
Qed.

(** X22. [bar_is_ignored] is not the test [__call__] and [iter_bar] make,
    [bar in self.ignored_bars]. With a set of names it returns the opposite
    for every bar; with [None] it returns [False] where the test raises
    [TypeError]; with ['all_others'] it looks the bar up in the registry
    where the test looks for the name inside the string. *)
Theorem bar_is_ignored_is_not_the_test_of_call :
  forall {X : Type} (lg : logger X) (bar : string),
    match ignored_bars lg with
    | IgnNone =>
        bar_is_ignored bar lg = (Ok false, lg)
        /\ in_ignored bar lg = (Raise TypeError, lg)
    | IgnSet names =>
        exists ign : bool,
          in_ignored bar lg = (Ok ign, lg)
          /\ bar_is_ignored bar lg = (Ok (negb ign), lg)
    | IgnStr s =>
        in_ignored bar lg = (Ok (PyStr.contains bar s), lg)
        /\ (s = "all_others" ->
            forall bars,
              PyDict.get "bars" (state lg) = Some (VDict bars) ->
              bar_is_ignored bar lg = (Ok (negb (PyDict.mem bar bars)), lg))
        /\ (s <> "all_others" ->
            bar_is_ignored bar lg = (Ok (negb (PyStr.contains bar s)), lg))
    end.
Proof.
  intros X lg bar. unfold bar_is_ignored, in_ignored, py_in_ignored.
  destruct (ignored_bars lg) as [|s|names].
  - split; reflexivity.
  - split; [reflexivity|]. split.
    + intros -> bars Hb. change (String.eqb "all_others" "all_others") with true.
      unfold self_bars, bind, lift, ret. rewrite Hb. reflexivity.
    + intros Hs. apply String.eqb_neq in Hs. rewrite Hs. reflexivity.
  - eexists. split; reflexivity.
Qed.
End Construction.

(** ** A whole iteration on the tqdm backend *)

Section TqdmIteration.
Import ProgressBarLogger Batch IterBar.

(** One tracked update of a [TqdmProgressBarLogger], when the bar callback
    returns. *)
Lemma tqdm_call_tracked key v (lg lg2 : Tqdm.obj) bar attr bars rd old :
  PyStr.split_dunder key = [bar; attr] ->
  py_in_ignored bar (ignored_bars lg) = Ok false ->
  PyDict.get "bars" (state lg) = Some (VDict bars) ->
  match PyDict.get bar bars with Some r => r | None => new_bar bar end
  = VDict rd ->
  PyDict.get attr rd = Some old ->
  Tqdm.bars_callback bar attr v old
    (mkLogger
       (PyDict.set "bars"
          (VDict (PyDict.set bar (VDict (PyDict.set attr v rd)) bars))
          (state lg))
       (ignored_bars lg) (ext lg))
  = (Ok tt, lg2) ->
  Tqdm.call [(key, v)] lg
  = (Ok tt, mkLogger (state lg2) (ignored_bars lg2) (ext lg2)).
Proof.
  intros Hs Hi Hb Hr Ha Hcb. unfold Tqdm.call. rewrite call_one.
  rewrite (update_bar_tracked Tqdm.tqdm_hooks key v [(key, v)] lg bar attr bars rd
             old Hs Hi Hb Hr Ha).
  unfold bind at 1. cbn [bars_callback Tqdm.tqdm_hooks].
  rewrite Hcb. rewrite pop_one. unfold ret.
  cbn [callback Tqdm.tqdm_hooks]. unfold Tqdm.callback.
  unfold bind, gets, ret. cbn [PyDict.update fold_left PyDict.get].
  destruct (print_messages _); reflexivity.
Qed.

(** With no bar object held for the bar, the bar callback first makes one
    from the bar's record, and goes on as with that object held. *)
Lemma bars_callback_unheld (lg : Tqdm.obj) bar attr v old
      bars infos total desc postfix :
  (forall hd, PyDict.get bar (tqdm_bars (ext lg)) <> Some (Some hd)) ->
  PyDict.get "bars" (state lg) = Some bars ->
  PyOps.getitem bars bar = Ok infos ->
  PyOps.getitem infos "total" = Ok total ->
  PyOps.getitem infos "title" = Ok desc ->
  PyOps.getitem infos "message" = Ok postfix ->
  let t := ext lg in
  Tqdm.bars_callback bar attr v old lg
  = Tqdm.bars_callback bar attr v old
      (mkLogger (state lg) (ignored_bars lg)
         (mkTqdm (PyDict.set bar (Some (made t)) (tqdm_bars t))
                 (leave_bars t) (print_messages t) (S (made t))
                 (calls t ++ [TqdmNew (made t) total desc postfix
                                      (leave_bars t)]))).
Proof.
  intros Hun Hb Hi Ht Hd Hp t. subst t.
  unfold Tqdm.bars_callback at 1 2.
  assert (Hhas : Tqdm.has_tqdm_bar bar lg = (Ok false, lg)).
  { unfold Tqdm.has_tqdm_bar, bind, gets, ret.
    destruct (PyDict.get bar (tqdm_bars (ext lg))) as [[hd|]|] eqn:Eb;
      [exfalso; exact (Hun hd eq_refl) | reflexivity | reflexivity]. }
  set (lg1 := mkLogger _ _ _).
  assert (Hhas1 : Tqdm.has_tqdm_bar bar lg1 = (Ok true, lg1)).
  { unfold Tqdm.has_tqdm_bar, bind, gets, ret. subst lg1. cbn [ext tqdm_bars].
    rewrite get_set_same. reflexivity. }
  assert (Hnew : Tqdm.new_tqdm_bar bar lg = (Ok tt, lg1)).
  { unfold Tqdm.new_tqdm_bar. rewrite (bind_ok _ _ _ _ _ Hhas).
    unfold bind at 1. unfold ret at 1.
    unfold ProgressBarLogger.self_bars, Tqdm.tqdm_new, Tqdm.set_tqdm_bar, Tqdm.with_ext.
    unfold bind, lift, modify. rewrite Hb, Hi, Ht, Hd, Hp. reflexivity. }
  rewrite (bind_ok _ _ _ _ _ Hhas). rewrite (bind_ok _ _ _ _ _ Hhas1).
  rewrite (bind_ok _ _ _ _ _ Hnew).
  unfold bind at 2. unfold ret at 1. reflexivity.
Qed.

(** An index update that does not complete the bar, its object held. *)
Lemma tqdm_index_step (lg : Tqdm.obj) bar i prev total hd :
  PyStr.split_dunder (bar ++ "__index") = [bar; "index"] ->
  py_in_ignored bar (ignored_bars lg) = Ok false ->
  bar_fields lg bar (VInt prev) total ->
  PyDict.get bar (tqdm_bars (ext lg)) = Some (Some hd) ->
  (prev <= i)%Z ->
  (total = VNone \/ exists tot, total = VInt tot /\ (i < tot)%Z) ->
  exists lg',
    Tqdm.call [((bar ++ "__index")%string, VInt i)] lg = (Ok tt, lg')
    /\ ignored_bars lg' = ignored_bars lg
    /\ bar_fields lg' bar (VInt i) total
    /\ ext lg'
       = mkTqdm (tqdm_bars (ext lg)) (leave_bars (ext lg))
                (print_messages (ext lg)) (made (ext lg))
                (calls (ext lg) ++ [TqdmUpdate hd (VInt (i - prev))]).
Proof.
  intros Hs Hi (bars & rd & Hb & Hr & Hidx & Htot) Eb Hle Hcase.
  set (rd' := PyDict.set "index" (VInt i) rd).
  set (bars' := PyDict.set bar (VDict rd') bars).
  set (lg1 := mkLogger (PyDict.set "bars" (VDict bars') (state lg))
                       (ignored_bars lg) (ext lg)).
  assert (Ht' : PyOps.getitem (VDict rd') "total" = Ok total).
  { subst rd'. cbn [PyOps.getitem].
    rewrite get_set_other by discriminate. rewrite Htot. reflexivity. }
  assert (Hi' : PyOps.getitem (VDict bars') bar = Ok (VDict rd')).
  { subst bars'. cbn [PyOps.getitem]. rewrite get_set_same. reflexivity. }
  assert (Hb' : PyDict.get "bars" (state lg1) = Some (VDict bars')).
  { subst lg1. cbn [state]. apply get_set_same. }
  pose proof (proj2 (forward_index_update lg1 bar i prev hd (VDict bars')
                       (VDict rd') total Hle Eb Hb' Hi' Ht')) as Hcb.
  cbv zeta in Hcb.
  assert (Hcase' : total = VNone \/ total = VInt 0
                   \/ (exists tot, total = VInt tot /\ (i < tot)%Z))
    by (destruct Hcase as [H|H]; [left; exact H | right; right; exact H]).
  specialize (Hcb Hcase').
  assert (Hr' : match PyDict.get bar bars with
                 | Some r => r
                 | None => new_bar bar
                 end = VDict rd) by (rewrite Hr; reflexivity).
  pose proof (tqdm_call_tracked _ _ lg _ bar "index" bars rd (VInt prev)
                Hs Hi Hb Hr' Hidx Hcb) as Hc.
  eexists. split.
  - exact Hc.
  - cbn [state ignored_bars ext]. split; [reflexivity|]. split; [|reflexivity].
    exists bars', rd'. subst lg1 bars' rd'. cbn [state].
    rewrite !get_set_same. repeat split.
    rewrite get_set_other by discriminate. exact Htot.
Qed.

(** The index update that completes the bar, its object held. *)
Lemma tqdm_last_index_step (lg : Tqdm.obj) bar i prev tot hd :
  PyStr.split_dunder (bar ++ "__index") = [bar; "index"] ->
  py_in_ignored bar (ignored_bars lg) = Ok false ->
  bar_fields lg bar (VInt prev) (VInt tot) ->
  PyDict.get bar (tqdm_bars (ext lg)) = Some (Some hd) ->
  (prev <= i)%Z -> tot <> 0%Z -> (tot <= i)%Z ->
  exists lg',
    Tqdm.call [((bar ++ "__index")%string, VInt i)] lg = (Ok tt, lg')
    /\ ignored_bars lg' = ignored_bars lg
    /\ bar_fields lg' bar (VInt i) (VInt tot)
    /\ ext lg'
       = mkTqdm (PyDict.set bar None (tqdm_bars (ext lg)))
                (leave_bars (ext lg)) (print_messages (ext lg))
                (made (ext lg)) (calls (ext lg) ++ [TqdmClose hd]).
Proof.
  intros Hs Hi (bars & rd & Hb & Hr & Hidx & Htot) Eb Hle Hnz Hge.
  set (rd' := PyDict.set "index" (VInt i) rd).
  set (bars' := PyDict.set bar (VDict rd') bars).
  set (lg1 := mkLogger (PyDict.set "bars" (VDict bars') (state lg))
                       (ignored_bars lg) (ext lg)).
  assert (Ht' : PyOps.getitem (VDict rd') "total" = Ok (VInt tot)).
  { subst rd'. cbn [PyOps.getitem].
    rewrite get_set_other by discriminate. rewrite Htot. reflexivity. }
  assert (Hi' : PyOps.getitem (VDict bars') bar = Ok (VDict rd')).
  { subst bars'. cbn [PyOps.getitem]. rewrite get_set_same. reflexivity. }
  assert (Hb' : PyDict.get "bars" (state lg1) = Some (VDict bars')).
  { subst lg1. cbn [state]. apply get_set_same. }
  pose proof (proj1 (forward_index_update lg1 bar i prev hd (VDict bars')
                       (VDict rd') (VInt tot) Hle Eb Hb' Hi' Ht')
                tot eq_refl Hnz Hge) as Hcb.
  assert (Hr' : match PyDict.get bar bars with
                 | Some r => r
                 | None => new_bar bar
                 end = VDict rd) by (rewrite Hr; reflexivity).
  pose proof (tqdm_call_tracked _ _ lg _ bar "index" bars rd (VInt prev)
                Hs Hi Hb Hr' Hidx Hcb) as Hc.
  eexists. split.
  - exact Hc.
  - cbn [state ignored_bars ext]. split; [reflexivity|]. split; [|reflexivity].
    exists bars', rd'. subst lg1 bars' rd'. cbn [state].
    rewrite !get_set_same. repeat split.
    rewrite get_set_other by discriminate. exact Htot.
Qed.

(** The loop of the generator from position [i], the bar's index being
    [i - 1] and its object held: each element advances the bar by one; after
    the last, a bar with a total is closed and a bar without one is advanced
    once more. *)
Lemma tqdm_consume_loop bar hd total :
  PyStr.split_dunder (bar ++ "__index") = [bar; "index"] ->
  forall xs i gi (lg : Tqdm.obj) fuel,
    length xs < fuel ->
    py_in_ignored bar (ignored_bars lg) = Ok false ->
    bar_fields lg bar (VInt (i - 1)) total ->
    PyDict.get bar (tqdm_bars (ext lg)) = Some (Some hd) ->
    (xs = [] -> gi = Some (i - 1)%Z) ->
    (total = VNone
     \/ (total = VInt (i + Z.of_nat (length xs))
         /\ (0 < i + Z.of_nat (length xs))%Z)) ->
    exists lg',
      TqdmIter.consume fuel (mkGen bar xs i gi false) lg = Some (Ok tt, lg')
      /\ bar_fields lg' bar (VInt (i + Z.of_nat (length xs))) total
      /\ ext lg'
         = mkTqdm (match total with
                   | VNone => tqdm_bars (ext lg)
                   | _ => PyDict.set bar None (tqdm_bars (ext lg))
                   end)
                  (leave_bars (ext lg)) (print_messages (ext lg))
                  (made (ext lg))
                  (calls (ext lg)
                     ++ repeat (TqdmUpdate hd (VInt 1)) (length xs)
                     ++ [match total with
                         | VNone => TqdmUpdate hd (VInt 1)
                         | _ => TqdmClose hd
                         end]).
Proof.
  intros Hs xs.
  induction xs as [|x xs IH]; intros i gi lg fuel Hf Hi Hb Eb Hgi Htot.
  - destruct fuel as [|fuel]; [simpl in Hf; lia|].
    rewrite (Hgi eq_refl). cbn [TqdmIter.consume]. unfold next.
    cbn [g_done g_rest g_count g_i g_bar length repeat app].
    replace (i - 1 + 1)%Z with i by lia.
    change (Z.of_nat 0) with 0%Z in *. rewrite Z.add_0_r in *.
    destruct Htot as [->|[-> Hpos]].
    + destruct (tqdm_index_step lg bar i (i - 1) VNone hd Hs Hi Hb Eb)
        as (lg' & Hc & _ & Hb' & He); [lia | left; reflexivity |].
      unfold Tqdm.call in Hc. rewrite Hc. exists lg'.
      split; [reflexivity|]. split; [exact Hb'|].
      rewrite He. replace (i - (i - 1))%Z with 1%Z by lia. reflexivity.
    + destruct (tqdm_last_index_step lg bar i (i - 1) i hd Hs Hi Hb Eb)
        as (lg' & Hc & _ & Hb' & He); [lia | lia | lia |].
      unfold Tqdm.call in Hc. rewrite Hc. exists lg'.
      split; [reflexivity|]. split; [exact Hb' | exact He].
  - destruct fuel as [|fuel]; [simpl in Hf; lia|].
    cbn [TqdmIter.consume]. unfold next.
    cbn [g_done g_rest g_count g_i g_bar].
    assert (Hlen : (i + Z.of_nat (length (x :: xs))
                    = i + 1 + Z.of_nat (length xs))%Z)
      by (change (length (x :: xs)) with (S (length xs));
          rewrite Nat2Z.inj_succ; lia).
    rewrite Hlen in *.
    destruct (tqdm_index_step lg bar i (i - 1) total hd Hs Hi Hb Eb)
      as (lg1 & Hc & Hi1 & Hb1 & He1).
    + lia.
    + destruct Htot as [->|[-> Hpos]]; [left; reflexivity|].
      right. eexists. split; [reflexivity | lia].
    + unfold Tqdm.call in Hc. rewrite Hc.
      destruct (IH (i + 1)%Z (Some i) lg1 fuel) as (lg' & Hc' & Hb' & He').
      * simpl in Hf. lia.
      * rewrite Hi1. exact Hi.
      * replace (i + 1 - 1)%Z with i by lia. exact Hb1.
      * rewrite He1. cbn [tqdm_bars]. exact Eb.
      * intros _. f_equal. lia.
      * exact Htot.
      * exists lg'. split; [exact Hc'|]. split; [exact Hb'|].
        rewrite He', He1.
        cbn [tqdm_bars leave_bars print_messages made calls length repeat].
        replace (i - (i - 1))%Z with 1%Z by lia.
        rewrite <- !app_assoc. reflexivity.
Qed.

Lemma advance_sum_app l1 l2 :
  Tqdm.advance_sum (l1 ++ l2)
  = (Tqdm.advance_sum l1 + Tqdm.advance_sum l2)%Z.
Proof.
  induction l1 as [|c l1 IH]; [reflexivity|].
  change (Tqdm.advance_sum ((c :: l1) ++ l2))
    with (match c with
          | TqdmUpdate _ (VInt n) => n + Tqdm.advance_sum (l1 ++ l2)
          | _ => Tqdm.advance_sum (l1 ++ l2)
          end)%Z.
  change (Tqdm.advance_sum (c :: l1))
    with (match c with
          | TqdmUpdate _ (VInt n) => n + Tqdm.advance_sum l1
          | _ => Tqdm.advance_sum l1
          end)%Z.
  rewrite IH. destruct c as [? ? ? ? ?|? [|?|?|?]|?|? ?|?]; lia.
Qed.

Lemma advance_sum_repeat hd k :
  Tqdm.advance_sum (repeat (TqdmUpdate hd (VInt 1)) k) = Z.of_nat k.
Proof.
  induction k as [|k IH]; [reflexivity|].
  change (Tqdm.advance_sum (repeat (TqdmUpdate hd (VInt 1)) (S k)))
    with (1 + Tqdm.advance_sum (repeat (TqdmUpdate hd (VInt 1)) k))%Z.
  rewrite IH, Nat2Z.inj_succ. lia.
Qed.

Lemma closes_app l1 l2 :
  Tqdm.closes (l1 ++ l2) = Tqdm.closes l1 + Tqdm.closes l2.
Proof. unfold Tqdm.closes. rewrite filter_app, length_app. reflexivity. Qed.

Lemma closes_repeat hd v k : Tqdm.closes (repeat (TqdmUpdate hd v) k) = 0.
Proof. induction k as [|k IH]; [reflexivity | exact IH]. Qed.

(** X23. A loop over [iter_bar] of a [TqdmProgressBarLogger], for a bar
    that is tracked, new to the logger (or declared and never updated) and
    without a bar object, and a sequence of [n >= 1] elements. The loop runs
    to the end and the library sees one bar object. With a length known
    beforehand the object is made with total [n], advanced by one for each
    element and closed once, after the last element. For an iterable without
    a length the object is made without a total at the first element,
    advanced [n + 1] times by one (the last index update advances it too) and
    never closed: it stays held. *)
Theorem iter_bar_drives_one_tqdm_bar :
  forall (lg : Tqdm.obj) names bar x xs (known : bool) bars,
    ignored_bars lg = IgnSet names ->
    ~ In bar names ->
    PyStr.contains "__" bar = false ->
    PyStr.last_char bar <> Some "_"%char ->
    PyDict.get "bars" (state lg) = Some (VDict bars) ->
    (PyDict.get bar bars = None \/ PyDict.get bar bars = Some (new_bar bar)) ->
    (forall hd, PyDict.get bar (tqdm_bars (ext lg)) <> Some (Some hd)) ->
    let n := Z.of_nat (length (x :: xs)) in
    let t := ext lg in
    let news :=
      [TqdmNew (made t) (if known then VInt n else VNone) (VStr bar) VNone
               (leave_bars t)]
      ++ repeat (TqdmUpdate (made t) (VInt 1)) (length (x :: xs))
      ++ [if known then TqdmClose (made t)
          else TqdmUpdate (made t) (VInt 1)] in
    exists lg',
      TqdmIter.run bar (mkIterable (x :: xs) known) lg = Some (Ok tt, lg')
      /\ calls (ext lg') = calls t ++ news
      /\ made (ext lg') = S (made t)
      /\ PyDict.get bar (tqdm_bars (ext lg'))
         = Some (if known then None else Some (made t))
      /\ Registry.bar_attr lg' bar "index" = Some (VInt n)
      /\ Tqdm.advance_sum news = (if known then n else n + 1)%Z
      /\ Tqdm.closes news = (if known then 1 else 0).
Proof.
  intros lg names bar x xs known bars Hign Hnot Hb1 Hb2 Hb Hfresh Hun n t news.
  assert (Hst : PyStr.split_dunder (bar ++ "__total") = [bar; "total"]).
  { change (bar ++ "__total")%string with (bar ++ "__" ++ "total")%string.
    rewrite (split_dunder_app _ _ Hb1 Hb2). reflexivity. }
  assert (Hsi : PyStr.split_dunder (bar ++ "__index") = [bar; "index"]).
  { change (bar ++ "__index")%string with (bar ++ "__" ++ "index")%string.
    rewrite (split_dunder_app _ _ Hb1 Hb2). reflexivity. }
  assert (Hi : py_in_ignored bar (ignored_bars lg) = Ok false).
  { rewrite Hign. simpl. f_equal.
    destruct (existsb (String.eqb bar) names) eqn:E; [|reflexivity].
    apply in_names in E. contradiction. }
  assert (Hattr : forall (s : Tqdm.obj) v tot,
             bar_fields s bar v tot ->
             Registry.bar_attr s bar "index" = Some v).
  { intros s v tot (bs & r0 & E1 & E2 & E3 & _).
    unfold Registry.bar_attr, Registry.bar_record. rewrite E1, E2. exact E3. }
  set (rd := [("title", VStr bar); ("index", VInt (-1));
              ("total", VNone); ("message", VNone)]).
  assert (Hr : match PyDict.get bar bars with
               | Some r => r
               | None => new_bar bar
               end = VDict rd)
    by (destruct Hfresh as [-> | ->]; reflexivity).
  assert (Hsum : Tqdm.advance_sum news = (if known then n else n + 1)%Z
                 /\ Tqdm.closes news = (if known then 1 else 0)).
  { subst news. rewrite !advance_sum_app, !closes_app.
    rewrite advance_sum_repeat, closes_repeat. fold n.
    destruct known; split; cbn; lia. }
  unfold TqdmIter.run, iter_bar. cbn [PyDict.popitem]. unfold in_ignored.
  unfold_monad. rewrite Hi. cbn [has_len elements].
  destruct known.
  - (* the total update makes the bar object *)
    set (rd' := PyDict.set "total" (VInt n) rd).
    set (bars' := PyDict.set bar (VDict rd') bars).
    set (lg1 := mkLogger (PyDict.set "bars" (VDict bars') (state lg))
                         (ignored_bars lg) (ext lg)).
    assert (Hcb : Tqdm.bars_callback bar "total" (VInt n) VNone lg1
                  = (Ok tt,
                     mkLogger (state lg1) (ignored_bars lg1)
                       (mkTqdm
                          (PyDict.set bar (Some (made t)) (tqdm_bars t))
                          (leave_bars t) (print_messages t) (S (made t))
                          (calls t ++ [TqdmNew (made t) (VInt n) (VStr bar)
                                               VNone (leave_bars t)])))).
    { rewrite (bars_callback_unheld lg1 bar "total" (VInt n) VNone
                 (VDict bars') (VDict rd') (VInt n) (VStr bar) VNone);
        [ | exact Hun
          | subst lg1; cbn [state]; apply get_set_same
          | subst bars'; cbn [PyOps.getitem]; rewrite get_set_same;
            reflexivity
          | reflexivity | reflexivity | reflexivity ].
      unfold Tqdm.bars_callback, Tqdm.has_tqdm_bar. unfold_monad.
      cbn [ext tqdm_bars]. rewrite get_set_same. reflexivity. }
    pose proof (tqdm_call_tracked _ _ lg _ bar "total" bars rd VNone
                  Hst Hi Hb Hr eq_refl Hcb) as Hc.
    unfold Tqdm.call in Hc. fold n. rewrite Hc. clear Hc Hcb.
    cbn [state ignored_bars ext g_rest].
    set (lg2 := mkLogger _ _ _).
    destruct (tqdm_consume_loop bar (made t) (VInt n) Hsi (x :: xs) 0%Z None
                lg2 (S (length (x :: xs))))
      as (lg' & Hrun & Hf & He).
    + lia.
    + exact Hi.
    + exists bars', rd'. subst lg2 lg1 bars' rd'. cbn [state].
      rewrite !get_set_same. repeat split.
    + subst lg2. cbn [ext tqdm_bars]. apply get_set_same.
    + discriminate.
    + right. split; [reflexivity|].
      change (length (x :: xs)) with (S (length xs)). lia.
    + exists lg'. split; [exact Hrun|]. rewrite He. subst lg2.
      cbn [ext tqdm_bars leave_bars print_messages made calls].
      split; [subst news; rewrite <- !app_assoc; reflexivity|].
      split; [reflexivity|]. split; [apply get_set_same|].
      split; [exact (Hattr _ _ _ Hf) | exact Hsum].
  - (* the first index update makes the bar object *)
    cbn [g_rest TqdmIter.consume]. unfold next.
    cbn [g_done g_rest g_count g_i g_bar].
    set (rd' := PyDict.set "index" (VInt 0) rd).
    set (bars' := PyDict.set bar (VDict rd') bars).
    set (lg1 := mkLogger (PyDict.set "bars" (VDict bars') (state lg))
                         (ignored_bars lg) (ext lg)).
    set (lgm := mkLogger (state lg1) (ignored_bars lg1)
                  (mkTqdm (PyDict.set bar (Some (made t)) (tqdm_bars t))
                          (leave_bars t) (print_messages t) (S (made t))
                          (calls t ++ [TqdmNew (made t) VNone (VStr bar)
                                               VNone (leave_bars t)]))).
    assert (Hb' : PyDict.get "bars" (state lg1) = Some (VDict bars'))
      by (subst lg1; cbn [state]; apply get_set_same).
    assert (Hi' : PyOps.getitem (VDict bars') bar = Ok (VDict rd'))
      by (subst bars'; cbn [PyOps.getitem]; rewrite get_set_same;
          reflexivity).
    assert (Hcb : Tqdm.bars_callback bar "index" (VInt 0) (VInt (-1)) lg1
                  = (Ok tt,
                     mkLogger (state lgm) (ignored_bars lgm)
                       (mkTqdm (tqdm_bars (ext lgm)) (leave_bars (ext lgm))
                               (print_messages (ext lgm)) (made (ext lgm))
                               (calls (ext lgm)
                                  ++ [TqdmUpdate (made t) (VInt 1)])))).
    { rewrite (bars_callback_unheld lg1 bar "index" (VInt 0) (VInt (-1))
                 (VDict bars') (VDict rd') VNone (VStr bar) VNone);
        [ | exact Hun | exact Hb' | exact Hi'
          | reflexivity | reflexivity | reflexivity ].
      refine (proj2 (forward_index_update lgm bar 0%Z (-1)%Z (made t)
                       (VDict bars') (VDict rd') VNone _ _ Hb' Hi' eq_refl)
                (or_introl eq_refl)).
      - lia.
      - subst lgm. cbn [ext tqdm_bars]. apply get_set_same. }
    pose proof (tqdm_call_tracked _ _ lg _ bar "index" bars rd (VInt (-1))
                  Hsi Hi Hb Hr eq_refl Hcb) as Hc.
    unfold Tqdm.call in Hc. rewrite Hc. clear Hc Hcb.
    set (lg2 := mkLogger _ _ _).
    destruct (tqdm_consume_loop bar (made t) VNone Hsi xs 1%Z (Some 0%Z)
                lg2 (S (length xs)))
      as (lg' & Hrun & Hf & He).
    + lia.
    + exact Hi.
    + exists bars', rd'. subst lg2 lgm lg1 bars' rd'. cbn [state].
      rewrite !get_set_same. repeat split.
    + subst lg2 lgm. cbn [ext tqdm_bars]. apply get_set_same.
    + intros _. reflexivity.
    + left. reflexivity.
    + exists lg'. split; [exact Hrun|]. rewrite He. subst lg2 lgm.
      cbn [ext tqdm_bars leave_bars print_messages made calls].
      split; [subst news; rewrite <- !app_assoc; reflexivity|].
      split; [reflexivity|]. split; [apply get_set_same|].
      split; [|exact Hsum].
      replace n with (1 + Z.of_nat (length xs))%Z
        by (subst n; change (length (x :: xs)) with (S (length xs));
            rewrite Nat2Z.inj_succ; lia).
      exact (Hattr _ _ _ Hf).
Qed.

Lemma iter_bar_drives_one_tqdm_bar_witness :
  exists lg',
    TqdmIter.run "job" (mkIterable [VStr "a"; VStr "b"] true)
                 (Tqdm.init None BarsNone false (IgnSet []) true)
    = Some (Ok tt, lg')
    /\ calls (ext lg')
       = [] ++ [TqdmNew 0 (VInt 2) (VStr "job") VNone false]
            ++ repeat (TqdmUpdate 0 (VInt 1)) 2 ++ [TqdmClose 0]
    /\ made (ext lg') = 1
    /\ PyDict.get "job" (tqdm_bars (ext lg')) = Some None
    /\ Registry.bar_attr lg' "job" "index" = Some (VInt 2)
    /\ Tqdm.advance_sum
         ([TqdmNew 0 (VInt 2) (VStr "job") VNone false]
            ++ repeat (TqdmUpdate 0 (VInt 1)) 2 ++ [TqdmClose 0]) = 2%Z
    /\ Tqdm.closes
         ([TqdmNew 0 (VInt 2) (VStr "job") VNone false]
            ++ repeat (TqdmUpdate 0 (VInt 1)) 2 ++ [TqdmClose 0]) = 1.
Proof.
  refine (iter_bar_drives_one_tqdm_bar
            (Tqdm.init None BarsNone false (IgnSet []) true) [] "job"
            (VStr "a") [VStr "b"] true []
            eq_refl _ eq_refl _ eq_refl (or_introl eq_refl) _).
  - intros [].
  - discriminate.
  - intros hd. discriminate.
Defined.
End TqdmIteration.

(** ** The bar objects of other bars *)

Section KeepsCallFor.
Import ProgressBarLogger.
Context {X : Type} (I : logger X -> Prop) (h : hooks X) (P : string -> Prop).
Hypothesis I_state :
  forall lg st, I lg -> I (mkLogger st (ignored_bars lg) (ext lg)).
Hypothesis I_bars_callback :
  forall bar attr v old, P bar -> keeps I (bars_callback h bar attr v old).
Hypothesis I_callback : forall kw, keeps I (callback h kw).

Lemma keeps_update_bar_for key v kw :
  (forall bar attr, PyStr.split_dunder key = [bar; attr] -> P bar) ->
  keeps I (update_bar h key v kw).
Proof.
  intros HP. unfold update_bar.
  destruct (PyStr.contains "__" key); [|apply keeps_ret].
  destruct (PyStr.split_dunder key) as [|bar [|attr [|x xs]]];
    try apply keeps_raise.
  specialize (HP bar attr eq_refl).
  repeat first
    [ apply keeps_ret | apply keeps_lift
    | apply (keeps_in_ignored I) | apply (keeps_bars I)
    | apply (keeps_set_state I I_state)
    | apply I_bars_callback; exact HP
    | apply keeps_if
    | apply keeps_bind; [|intros ?] ].
Qed.

Lemma keeps_update_bars_for items :
  (forall key v bar attr,
      In (key, v) items -> PyStr.split_dunder key = [bar; attr] -> P bar) ->
  forall kw, keeps I (update_bars h items kw).
Proof.
  induction items as [|[key v] items IH]; intros HP kw; simpl.
  - apply keeps_ret.
  - apply keeps_bind.
    + apply keeps_update_bar_for. intros bar attr Hs.
      exact (HP key v bar attr (or_introl eq_refl) Hs).
    + intros kw'. apply IH. intros k w bar attr Hin Hs.
      exact (HP k w bar attr (or_intror Hin) Hs).
Qed.

(** A property of the logger that does not look at its state, and that the
    callbacks keep for the bars a batch names, is kept by the call. *)
Lemma keeps_call_for kw :
  (forall key v bar attr,
      In (key, v) kw -> PyStr.split_dunder key = [bar; attr] -> P bar) ->
  keeps I (call h kw).
Proof.
  intros HP. unfold call.
  apply keeps_bind.
  - apply keeps_update_bars_for. intros key v bar attr Hin Hs.
    apply In_sorted in Hin. exact (HP key v bar attr Hin Hs).
  - intros kw'. apply keeps_bind; [|intros _; apply I_callback].
    intros s r s' H E. inversion E; subst. apply I_state. exact H.
Qed.
End KeepsCallFor.

Section OtherBars.
Import Tqdm TqdmProtocol.
Context (other : string) (mine : nat) (before : list tqdm_call).

(** The bar [other] holds the bar object [mine], no other bar does, the
    library has made it, and no call since [before] was on it. *)
Local Abbreviation alone :=
  (fun lg : obj =>
     PyDict.get other (tqdm_bars (ext lg)) = Some (Some mine)
     /\ mine < made (ext lg)
     /\ (forall bar hd,
            bar <> other ->
            PyDict.get bar (tqdm_bars (ext lg)) = Some (Some hd) ->
            hd <> mine)
     /\ exists news,
          calls (ext lg) = before ++ news
          /\ Forall (fun c => handle_of c <> Some mine) news).

Lemma alone_emit c :
  handle_of c <> Some mine -> keeps alone (emit c).
Proof.
  intros Hc s r s' (Hs & Hm & Hinj & news & Hn & Hall) E.
  inversion E; subst. cbn [ext tqdm_bars made calls].
  split; [exact Hs|]. split; [exact Hm|]. split; [exact Hinj|].
  exists (news ++ [c]). rewrite Hn, app_assoc. split; [reflexivity|].
  apply Forall_app. split; [exact Hall | constructor; [exact Hc | constructor]].
Qed.

Lemma alone_on_the_bar bar (k : nat -> M obj unit) :
  (forall hd s r s',
      alone s -> PyDict.get bar (tqdm_bars (ext s)) = Some (Some hd) ->
      k hd s = (r, s') -> alone s') ->
  keeps alone (bind (the_bar bar) k).
Proof.
  intros Hk s r s' H E. apply bind_inv in E.
  destruct E as [(hd & s1 & E1 & E)|(e & E1 & _)];
    unfold the_bar, bind, gets, raise, ret in E1;
    destruct (PyDict.get bar (tqdm_bars (ext s))) as [[hd0|]|] eqn:Eb;
    inversion E1; subst; try exact H.
  exact (Hk _ _ _ _ H Eb E).
Qed.

Lemma alone_unset bar : bar <> other -> keeps alone (set_tqdm_bar bar None).
Proof.
  intros Hne s r s' (Hs & Hm & Hinj & Hnews) E.
  inversion E; subst. cbn [ext tqdm_bars made calls].
  split; [rewrite get_set_other by (intros ->; apply Hne; reflexivity);
          exact Hs|].
  split; [exact Hm|]. split; [|exact Hnews].
  intros b hd Hb Hg. rewrite get_set in Hg.
  destruct (String.eqb b bar); [discriminate | exact (Hinj b hd Hb Hg)].
Qed.

Lemma alone_close_tqdm_bar bar :
  bar <> other -> keeps alone (close_tqdm_bar bar).
Proof.
  intros Hne s r s' H E. unfold close_tqdm_bar in E.
  unfold bind at 1 in E. unfold gets in E.
  destruct (PyDict.get bar (tqdm_bars (ext s))) as [[hd|]|] eqn:Eb;
    [|inversion E; subst; exact H | inversion E; subst; exact H].
  assert (Hc : handle_of (TqdmClose hd) <> Some mine).
  { cbn [handle_of]. intros Heq. inversion Heq; subst.
    destruct H as (_ & _ & Hinj & _). exact (Hinj bar mine Hne Eb eq_refl). }
  exact (keeps_bind _ _ _ (alone_emit _ Hc)
           (fun _ => alone_unset bar Hne) s r s' H E).
Qed.

Lemma alone_make bar total desc postfix :
  bar <> other ->
  keeps alone (bind (tqdm_new total desc postfix)
                    (fun handle => set_tqdm_bar bar (Some handle))).
Proof.
  intros Hne s r s' (Hs & Hm & Hinj & news & Hn & Hall) E.
  inversion E; subst. cbn [ext tqdm_bars made calls].
  split; [rewrite get_set_other by (intros ->; apply Hne; reflexivity);
          exact Hs|].
  split; [lia|]. split.
  - intros b hd Hb Hg. rewrite get_set in Hg.
    destruct (String.eqb b bar).
    + inversion Hg. lia.
    + exact (Hinj b hd Hb Hg).
  - exists (news ++ [TqdmNew (made (ext s)) total desc postfix
                             (leave_bars (ext s))]).
    rewrite Hn, app_assoc. split; [reflexivity|].
    apply Forall_app. split; [exact Hall|].
    constructor; [|constructor]. cbn [handle_of]. intros Heq.
    inversion Heq. lia.
Qed.

Lemma alone_new_tqdm_bar bar : bar <> other -> keeps alone (new_tqdm_bar bar).
Proof.
  intros Hne. unfold new_tqdm_bar.
  apply keeps_bind; [apply ok_has_tqdm_bar|]. intros live.
  apply keeps_bind;
    [apply keeps_if; [apply alone_close_tqdm_bar; exact Hne | apply keeps_ret]|].
  intros _.
  apply keeps_bind; [apply ok_self_bars|]. intros bars.
  apply keeps_bind; [apply keeps_lift|]. intros infos.
  apply keeps_bind; [apply keeps_lift|]. intros total.
  apply keeps_bind; [apply keeps_lift|]. intros desc.
  apply keeps_bind; [apply keeps_lift|]. intros postfix.
  apply alone_make. exact Hne.
Qed.

Lemma alone_lift_emit bar hd (x : res value) (c : value -> tqdm_call)
      (s : obj) r s' :
  bar <> other ->
  alone s ->
  PyDict.get bar (tqdm_bars (ext s)) = Some (Some hd) ->
  (forall v, handle_of (c v) = Some hd) ->
  bind (lift x) (fun v => emit (c v)) s = (r, s') -> alone s'.
Proof.
  intros Hne H Eb Hc E. destruct x as [v|e]; unfold bind, lift in E.
  - refine (alone_emit (c v) _ s r s' H E). rewrite Hc. intros Heq.
    inversion Heq; subst.
    destruct H as (_ & _ & Hinj & _). exact (Hinj bar mine Hne Eb eq_refl).
  - inversion E; subst. exact H.
Qed.

Lemma alone_bars_callback bar attr v old :
  bar <> other -> keeps alone (bars_callback bar attr v old).
Proof.
  intros Hne. unfold bars_callback.
  apply keeps_bind; [apply ok_has_tqdm_bar|]. intros live.
  apply keeps_bind;
    [apply keeps_if; [apply keeps_ret | apply alone_new_tqdm_bar; exact Hne]|].
  intros _.
  apply keeps_if; [|apply keeps_if; [|apply keeps_ret]].
  - apply keeps_bind; [apply keeps_lift|]. intros forward.
    apply keeps_if.
    + apply keeps_bind; [apply ok_self_bars|]. intros bars.
      apply keeps_bind; [apply keeps_lift|]. intros infos.
      apply keeps_bind; [apply keeps_lift|]. intros total.
      apply keeps_bind;
        [apply keeps_if; [apply keeps_lift | apply keeps_ret]|].
      intros complete.
      apply keeps_if; [apply alone_close_tqdm_bar; exact Hne|].
      apply alone_on_the_bar. intros hd s r s' H Eb E.
      exact (alone_lift_emit bar hd _ (fun d => TqdmUpdate hd d) s r s'
               Hne H Eb (fun _ => eq_refl) E).
    + apply keeps_bind; [apply alone_new_tqdm_bar; exact Hne|]. intros _.
      apply alone_on_the_bar. intros hd s r s' H Eb E.
      exact (alone_lift_emit bar hd _ (fun d => TqdmUpdate hd d) s r s'
               Hne H Eb (fun _ => eq_refl) E).
  - apply alone_on_the_bar. intros hd s r s' H Eb E.
    refine (alone_emit (TqdmSetPostfix hd v) _ s r s' H E).
    cbn [handle_of]. intros Heq. inversion Heq; subst.
    destruct H as (_ & _ & Hinj & _). exact (Hinj bar mine Hne Eb eq_refl).
Qed.

Lemma alone_callback kw : keeps alone (callback kw).
Proof.
  unfold callback.
  apply keeps_bind; [apply keeps_gets|]. intros print.
  apply keeps_if; [|apply keeps_ret].
  destruct (PyDict.get "message" kw) as [msg|]; [|apply keeps_ret].
  apply keeps_if; [|apply keeps_ret].
  apply alone_emit. discriminate.
Qed.

Lemma alone_call kw :
  (forall key v bar attr,
      In (key, v) kw -> PyStr.split_dunder key = [bar; attr] ->
      bar <> other) ->
  keeps alone (call kw).
Proof.
  intros Hkw.
  apply (keeps_call_for alone tqdm_hooks (fun bar => bar <> other)).
  - intros lg st H. exact H.
  - intros bar attr v old Hne. apply alone_bars_callback. exact Hne.
  - apply alone_callback.
  - exact Hkw.
Qed.
End OtherBars.

Section OtherBarsClaim.
Import Tqdm TqdmProtocol.

(** X24. On a [TqdmProgressBarLogger] reached by any calls from a new one,
    a call whose batch has no key of the bar [other] leaves the bar object
    of [other] alone, whether the call returns or raises: the object stays
    held for [other], and none of the calls the library receives is on
    it. *)
Theorem call_leaves_other_bars_alone :
  forall (kws : list dict) init_state bars leave ign print_msgs
         (kw : dict) (other : string) (mine : nat),
    let lg := snd (calls_in_a_row kws
                     (init init_state bars leave ign print_msgs)) in
    PyDict.get other (tqdm_bars (ext lg)) = Some (Some mine) ->
    (forall key v bar attr,
        In (key, v) kw -> PyStr.split_dunder key = [bar; attr] ->
        bar <> other) ->
    PyDict.get other (tqdm_bars (ext (snd (call kw lg)))) = Some (Some mine)
    /\ exists news,
         calls (ext (snd (call kw lg))) = calls (ext lg) ++ news
         /\ Forall (fun c => handle_of c <> Some mine) news.
Proof.
  intros kws init_state bars leave ign print_msgs kw other mine lg Hs Hkw.
  assert (Hco : coherent (ext lg)).
  { subst lg.
    destruct (calls_in_a_row kws (init init_state bars leave ign print_msgs))
      as [r0 lg0] eqn:E0.
    exact (ok_calls_in_a_row kws _ _ _ (coherent_init _ _ _ _ _) E0). }
  destruct Hco as (opened & closed & _ & Hiff & Hinj & Hlt).
  destruct (call kw lg) as [r lg'] eqn:E. cbn [snd].
  destruct (alone_call other mine (calls (ext lg)) kw Hkw lg r lg')
    as (Hs' & _ & _ & Hnews).
  - split; [exact Hs|]. split.
    + apply Hlt. left. apply Hiff. exists other. exact Hs.
    + split.
      * intros bar hd Hne Hb ->. apply Hne. exact (Hinj bar other mine Hb Hs).
      * exists []. rewrite app_nil_r. split; [reflexivity | constructor].
  - exact E.
  - split; [exact Hs' | exact Hnews].
Qed.

Lemma call_leaves_other_bars_alone_witness :
  PyDict.get "b"
    (tqdm_bars
       (ext (snd (call [("a__index", VInt 1)]
                    (snd (calls_in_a_row
                            [[("a__index", VInt 0)]; [("b__index", VInt 0)]]
                            (init None BarsNone false (IgnSet []) true)))))))
  = Some (Some 1)
  /\ exists news,
       calls
         (ext (snd (call [("a__index", VInt 1)]
                      (snd (calls_in_a_row
                              [[("a__index", VInt 0)]; [("b__index", VInt 0)]]
                              (init None BarsNone false (IgnSet []) true))))))
       = calls
           (ext (snd (calls_in_a_row
                        [[("a__index", VInt 0)]; [("b__index", VInt 0)]]
                        (init None BarsNone false (IgnSet []) true))))
         ++ news
       /\ Forall (fun c => handle_of c <> Some 1) news.
Proof.
  refine (call_leaves_other_bars_alone
            [[("a__index", VInt 0)]; [("b__index", VInt 0)]]
            None BarsNone false (IgnSet []) true
            [("a__index", VInt 1)] "b" 1 eq_refl _).
  intros key v bar attr [E|[]] Hs. inversion E; subst.
  vm_compute in Hs. inversion Hs. discriminate.
Defined.
End OtherBarsClaim.
